(** * The simulation / evaluation / aggregation pipeline of oddit_backend

    A shallow embedding of
      - [evaluators/judge.py]       (class [LLMJudge]),
      - [agents/*.py]               (the two message producers),
      - [orchestrator/simulator.py] (class [EvaluationOrchestrator]),
      - [orchestrator/reporter.py]  (class [EvaluationReporter]),
    followed by the properties of the pipeline.

    Python values are embedded as the inductive type [pyval]; a [dict] is
    an association list in insertion order, as a Python dict is.  A raised
    exception is the [Err] case of the result type [res].  A Python float
    is represented by the rational it denotes: NaN, the infinities and
    the rounding of a result are outside the model, while the
    [OverflowError] of an int too large for a float is in it.  A [str] is a [string] read as a
    sequence of code points below 256. *)

From Stdlib Require Import String Ascii List ZArith QArith Lia Bool.
From Equations Require Import Equations.
Import ListNotations.

Set Implicit Arguments.
Set Warnings "-register-all".
Close Scope Q_scope.

(* ===================================================================== *)
(** * Python values, exceptions and the operators the code uses          *)
(* ===================================================================== *)

Module Py.

Inductive exn_kind : Type :=
| KeyError | TypeError | AttributeError | IndexError
| ZeroDivisionError | OverflowError | JSONDecodeError | APIError.

(** [Raise k msg]: an exception of class [k] whose [str(e)] is [msg]. *)
Inductive exn : Type := Raise (k : exn_kind) (msg : string).

Definition str_of_exn (e : exn) : string := let 'Raise _ msg := e in msg.

Inductive res (A : Type) : Type :=
| Ok (a : A)
| Err (e : exn).
Arguments Ok {A} a.
Arguments Err {A} e.

Definition bind {A B : Type} (c : res A) (k : A -> res B) : res B :=
  match c with
  | Ok a => k a
  | Err e => Err e
  end.

Definition is_ok {A : Type} (c : res A) : bool :=
  match c with Ok _ => true | Err _ => false end.

Inductive pyval : Type :=
| PNone
| PBool (b : bool)
| PInt (n : Z)
| PFloat (q : Q)
| PStr (s : string)
| PList (l : list pyval)
| PDict (d : list (string * pyval)).

Definition dict : Type := list (string * pyval).

(** ** Dictionaries with string keys *)

Fixpoint dict_get (d : dict) (k : string) : option pyval :=
  match d with
  | [] => None
  | (k', v) :: d' => if String.eqb k' k then Some v else dict_get d' k
  end.

(** [k in d] *)
Definition dict_has (d : dict) (k : string) : bool :=
  match dict_get d k with Some _ => true | None => false end.

(** [d.get(k, default)] *)
Definition dict_get_default (d : dict) (k : string) (default : pyval) : pyval :=
  match dict_get d k with Some v => v | None => default end.

(** [d[k]] *)
Definition dict_getitem (d : dict) (k : string) : res pyval :=
  match dict_get d k with
  | Some v => Ok v
  | None => Err (Raise KeyError ("'" ++ k ++ "'"))
  end.

(** [d[k] = v]: an existing key keeps its position, a new one goes last. *)
Fixpoint dict_set (d : dict) (k : string) (v : pyval) : dict :=
  match d with
  | [] => [(k, v)]
  | (k', v') :: d' =>
      if String.eqb k' k then (k', v) :: d' else (k', v') :: dict_set d' k v
  end.

(** ** Dynamic operations on arbitrary values *)

Definition type_name (v : pyval) : string :=
  match v with
  | PNone => "NoneType"
  | PBool _ => "bool"
  | PInt _ => "int"
  | PFloat _ => "float"
  | PStr _ => "str"
  | PList _ => "list"
  | PDict _ => "dict"
  end.

(** Truth value of an object, as [if v] and [x or y] test it. *)
Definition truthy (v : pyval) : bool :=
  match v with
  | PNone => false
  | PBool b => b
  | PInt n => negb (n =? 0)%Z
  | PFloat q => negb (Qeq_bool q 0%Q)
  | PStr s => negb (String.eqb s "")
  | PList l => match l with [] => false | _ => true end
  | PDict d => match d with [] => false | _ => true end
  end.

(** [int] and [bool] (a subclass of [int]) as integers. *)
Definition as_int (v : pyval) : option Z :=
  match v with
  | PBool b => Some (if b then 1 else 0)%Z
  | PInt n => Some n
  | _ => None
  end.

Definition as_num (v : pyval) : option Q :=
  match v with
  | PBool b => Some (if b then 1%Q else 0%Q)
  | PInt n => Some (inject_Z n)
  | PFloat q => Some q
  | _ => None
  end.

Definition is_num (v : pyval) : bool :=
  match as_num v with Some _ => true | None => false end.

Definition unsupported (op : string) (a b : pyval) : exn :=
  Raise TypeError ("unsupported operand type(s) for " ++ op ++ ": '"
                   ++ type_name a ++ "' and '" ++ type_name b ++ "'").

(** The least integer too large for a float, [2**1024 - 2**970]: from
    there on [float(n)] raises, and so does [n / m] when the quotient is
    that large. *)
Definition float_limit : Z := Eval vm_compute in (2 ^ 1024 - 2 ^ 970)%Z.

(** An int operand that meets a float is converted first. *)
Definition int_to_float (n : Z) : res Q :=
  if (Z.abs n <? float_limit)%Z then Ok (inject_Z n)
  else Err (Raise OverflowError "int too large to convert to float").

(** [a + b]: ints add exactly; an int added to a float is converted. *)
Definition py_add (a b : pyval) : res pyval :=
  match as_int a, as_int b with
  | Some x, Some y => Ok (PInt (x + y))
  | Some x, None =>
      match b with
      | PFloat q => bind (int_to_float x) (fun f => Ok (PFloat (f + q)%Q))
      | _ => Err (unsupported "+" a b)
      end
  | None, Some y =>
      match a with
      | PFloat p => bind (int_to_float y) (fun f => Ok (PFloat (p + f)%Q))
      | _ => Err (unsupported "+" a b)
      end
  | None, None =>
      match a, b with
      | PFloat p, PFloat q => Ok (PFloat (p + q)%Q)
      | PStr s, PStr t => Ok (PStr (s ++ t))
      | PList l, PList m => Ok (PList (l ++ m))
      | _, _ => Err (unsupported "+" a b)
      end
  end.

(** [sum(l)]: starts from the integer 0. *)
Definition py_sum (l : list pyval) : res pyval :=
  fold_left (fun acc x => bind acc (fun a => py_add a x)) l (Ok (PInt 0)).

(** [p / q] on two floats. *)
Definition float_div (p q : Q) : res Q :=
  if Qeq_bool q 0%Q then Err (Raise ZeroDivisionError "float division by zero")
  else Ok (p / q)%Q.

(** [a / b], true division: the result is a float.  Two ints are divided
    exactly and the quotient must fit a float; an int that meets a float
    is converted first. *)
Definition py_truediv (a b : pyval) : res Q :=
  match as_int a, as_int b with
  | Some x, Some y =>
      if (y =? 0)%Z then Err (Raise ZeroDivisionError "division by zero")
      else if (float_limit * Z.abs y <=? Z.abs x)%Z then
        Err (Raise OverflowError "integer division result too large for a float")
      else Ok (inject_Z x / inject_Z y)%Q
  | Some x, None =>
      match b with
      | PFloat q => bind (int_to_float x) (fun f => float_div f q)
      | _ => Err (unsupported "/" a b)
      end
  | None, Some y =>
      match a with
      | PFloat p => bind (int_to_float y) (fun f => float_div p f)
      | _ => Err (unsupported "/" a b)
      end
  | None, None =>
      match a, b with
      | PFloat p, PFloat q => float_div p q
      | _, _ => Err (unsupported "/" a b)
      end
  end.

(** Nearest integer, ties to even. *)
Definition round_half_even (q : Q) : Z :=
  let n := Qnum q in
  let d := Zpos (Qden q) in
  let f := (n / d)%Z in
  let r := (n mod d)%Z in
  if (2 * r <? d)%Z then f
  else if (d <? 2 * r)%Z then (f + 1)%Z
  else if Z.even f then f else (f + 1)%Z.

(** [round(x, 2)], taken on the rational the float denotes: the result
    is the nearest multiple of 0.01, ties to even.  (Python rounds the
    binary float, which can differ from this on a decimal tie.) *)
Definition py_round2 (q : Q) : Q := Qmake (round_half_even (q * 100)%Q) 100.

(** [k in container] for a string [k]. *)
Definition py_eqb_str (v : pyval) (k : string) : bool :=
  match v with PStr s => String.eqb s k | _ => false end.

Definition contains (sub s : string) : bool :=
  match String.index 0 sub s with Some _ => true | None => false end.

Definition py_in (k : string) (container : pyval) : res bool :=
  match container with
  | PDict d => Ok (dict_has d k)
  | PStr s => Ok (contains k s)
  | PList l => Ok (existsb (fun v => py_eqb_str v k) l)
  | _ => Err (Raise TypeError ("argument of type '" ++ type_name container
                               ++ "' is not iterable"))
  end.

(** [container[k]] for a string [k]. *)
Definition py_getitem (container : pyval) (k : string) : res pyval :=
  match container with
  | PDict d => dict_getitem d k
  | PStr _ => Err (Raise TypeError "string indices must be integers, not 'str'")
  | PList _ =>
      Err (Raise TypeError "list indices must be integers or slices, not str")
  | _ => Err (Raise TypeError ("'" ++ type_name container
                               ++ "' object is not subscriptable"))
  end.

(** [obj.get(k, default)]: only a dict has the method. *)
Definition py_get (obj : pyval) (k : string) (default : pyval) : res pyval :=
  match obj with
  | PDict d => Ok (dict_get_default d k default)
  | _ => Err (Raise AttributeError ("'" ++ type_name obj
                                    ++ "' object has no attribute 'get'"))
  end.

(** [obj[k] = v] for a string [k]. *)
Definition py_setitem (obj : pyval) (k : string) (v : pyval) : res dict :=
  match obj with
  | PDict d => Ok (dict_set d k v)
  | PList _ =>
      Err (Raise TypeError "list indices must be integers or slices, not str")
  | _ => Err (Raise TypeError ("'" ++ type_name obj
                               ++ "' object does not support item assignment"))
  end.

(** ** Values used as dictionary keys *)

Definition hashable (v : pyval) : bool :=
  match v with
  | PList _ | PDict _ => false
  | _ => true
  end.

Definition check_hashable (v : pyval) : res pyval :=
  if hashable v then Ok v
  else Err (Raise TypeError ("unhashable type: '" ++ type_name v ++ "'")).

(** Equality of two hashable values ([1 == 1.0 == True]). *)
Definition key_eqb (a b : pyval) : bool :=
  match a, b with
  | PNone, PNone => true
  | PStr s, PStr t => String.eqb s t
  | _, _ =>
      match as_num a, as_num b with
      | Some x, Some y => Qeq_bool x y
      | _, _ => false
      end
  end.

End Py.

Export Py.

Declare Scope res_scope.
Notation "x <- c ;; k" := (bind c (fun x => k))
  (at level 61, c at next level, right associativity) : res_scope.
Open Scope res_scope.
Open Scope string_scope.

(* ===================================================================== *)
(** * The [str] methods the code calls                                   *)
(* ===================================================================== *)

Module PyStr.

Definition nl : string := String (ascii_of_nat 10) "".

(** [s.find(sub, start)] for [0 <= start]: lowest index at or after
    [start] where [sub] occurs, [-1] when there is none. *)
Definition find (sub s : string) (start : Z) : Z :=
  match String.index (Z.to_nat start) sub s with
  | Some i => Z.of_nat i
  | None => (-1)%Z
  end.

(** A slice bound brought into [0 .. len]: a negative bound counts from
    the end. *)
Definition clamp (i len : Z) : Z :=
  if (i <? 0)%Z then Z.max 0 (i + len) else Z.min i len.

(** [s[a:b]] *)
Definition slice (s : string) (a b : Z) : string :=
  let len := Z.of_nat (String.length s) in
  let a' := clamp a len in
  let b' := clamp b len in
  if (b' <=? a')%Z then ""
  else substring (Z.to_nat a') (Z.to_nat (b' - a')) s.

(** [c.isspace()] on the code points below 256. *)
Definition isspace (c : ascii) : bool :=
  let n := nat_of_ascii c in
  (Nat.leb 9 n && Nat.leb n 13) || (Nat.leb 28 n && Nat.leb n 32)
  || Nat.eqb n 133 || Nat.eqb n 160.

Fixpoint lstrip (s : string) : string :=
  match s with
  | EmptyString => EmptyString
  | String c s' => if isspace c then lstrip s' else s
  end.

Fixpoint rstrip (s : string) : string :=
  match s with
  | EmptyString => EmptyString
  | String c s' =>
      match rstrip s' with
      | EmptyString => if isspace c then EmptyString else String c EmptyString
      | t => String c t
      end
  end.

(** [s.strip()] *)
Definition strip (s : string) : string := rstrip (lstrip s).

Fixpoint drop (n : nat) (s : string) : string :=
  match n, s with
  | O, _ => s
  | S _, EmptyString => EmptyString
  | S n', String _ s' => drop n' s'
  end.

Fixpoint remove_fuel (fuel : nat) (old s : string) : string :=
  match fuel with
  | O => s
  | S fuel' =>
      match s with
      | EmptyString => EmptyString
      | String c s' =>
          if prefix old s then remove_fuel fuel' old (drop (String.length old) s)
          else String c (remove_fuel fuel' old s')
      end
  end.

(** [s.replace(old, "")] for a non-empty [old]: the occurrences of [old]
    are removed, scanning from the left. *)
Definition remove (old s : string) : string :=
  remove_fuel (String.length s) old s.

(** [sep.join(l)] *)
Fixpoint join (sep : string) (l : list string) : string :=
  match l with
  | [] => ""
  | [x] => x
  | x :: l' => x ++ sep ++ join sep l'
  end.

End PyStr.

(* ===================================================================== *)
(** * A reference decoder for a fragment of JSON                         *)
(* ===================================================================== *)

(** [json.loads] belongs to Python's standard library.  The judge below
    takes the decoder as a parameter, and the general theorems hold for
    every decoder.  [Json.loads] is a decoder for the fragment of JSON
    made of objects, arrays, strings with the one-letter escapes, decimal
    numbers without exponent and the three literals; it is what the
    examples on concrete response texts run.  The message of its
    [JSONDecodeError] names the kind of failure, without the position
    Python adds. *)

Module Json.

Definition is_ws (c : ascii) : bool :=
  let n := nat_of_ascii c in
  Nat.eqb n 32 || Nat.eqb n 9 || Nat.eqb n 10 || Nat.eqb n 13.

Fixpoint skip_ws (s : string) : string :=
  match s with
  | String c s' => if is_ws c then skip_ws s' else s
  | EmptyString => EmptyString
  end.

Definition digit_of (c : ascii) : option Z :=
  let n := nat_of_ascii c in
  if Nat.leb 48 n && Nat.leb n 57 then Some (Z.of_nat (n - 48)) else None.

(** Reads a maximal run of digits: its value, its length, the rest. *)
Fixpoint digits (s : string) (acc : Z) (len : nat) : Z * nat * string :=
  match s with
  | String c s' =>
      match digit_of c with
      | Some d => digits s' (10 * acc + d)%Z (S len)
      | None => (acc, len, s)
      end
  | EmptyString => (acc, len, s)
  end.

(** An unsigned number: integer part ([0], or digits not starting with
    0), optional fraction. *)
Definition number (s : string) : option (pyval * string) :=
  let '(i, ilen, r) :=
    match s with
    | String "0"%char s' => (0%Z, 1, s')
    | _ => digits s 0%Z 0
    end in
  if Nat.eqb ilen 0 then None
  else
    match r with
    | String "."%char r' =>
        let '(f, flen, r'') := digits r' 0%Z 0 in
        if Nat.eqb flen 0 then None
        else Some (PFloat (inject_Z i + Qmake f (Pos.of_nat (10 ^ flen)))%Q, r'')
    | _ => Some (PInt i, r)
    end.

Definition negate (v : pyval) : pyval :=
  match v with
  | PInt n => PInt (- n)
  | PFloat q => PFloat (- q)%Q
  | _ => v
  end.

Definition dquote : ascii := ascii_of_nat 34.

Definition unescape (c : ascii) : option ascii :=
  if Ascii.eqb c dquote then Some dquote
  else
    match c with
    | "\"%char => Some "\"%char
    | "/"%char => Some "/"%char
    | "b"%char => Some (ascii_of_nat 8)
    | "f"%char => Some (ascii_of_nat 12)
    | "n"%char => Some (ascii_of_nat 10)
    | "r"%char => Some (ascii_of_nat 13)
    | "t"%char => Some (ascii_of_nat 9)
    | _ => None
    end.

(** The characters of a string literal, after its opening quote. *)
Fixpoint string_body (s : string) : option (string * string) :=
  match s with
  | EmptyString => None
  | String c r =>
      if Ascii.eqb c dquote then Some (EmptyString, r)
      else if Ascii.eqb c "\"%char then
        match r with
        | String c1 r1 =>
            match unescape c1, string_body r1 with
            | Some c', Some (t, r') => Some (String c' t, r')
            | _, _ => None
            end
        | EmptyString => None
        end
      else if Nat.ltb (nat_of_ascii c) 32 then None
      else
        match string_body r with
        | Some (t, r') => Some (String c t, r')
        | None => None
        end
  end.

Definition literal (word : string) (v : pyval) (s : string)
  : option (pyval * string) :=
  if prefix word s then Some (v, PyStr.drop (String.length word) s) else None.

Fixpoint value (fuel : nat) (s : string) : option (pyval * string) :=
  match fuel with
  | O => None
  | S fuel' =>
      match skip_ws s with
      | String "{"%char r =>
          match skip_ws r with
          | String "}"%char r' => Some (PDict [], r')
          | r' =>
              match members fuel' [] r' with
              | Some (d, r'') => Some (PDict d, r'')
              | None => None
              end
          end
      | String "["%char r =>
          match skip_ws r with
          | String "]"%char r' => Some (PList [], r')
          | r' =>
              match elements fuel' [] r' with
              | Some (l, r'') => Some (PList l, r'')
              | None => None
              end
          end
      | String "-"%char r =>
          match number r with
          | Some (v, r') => Some (negate v, r')
          | None => None
          end
      | String "t"%char _ as t => literal "true" (PBool true) t
      | String "f"%char _ as t => literal "false" (PBool false) t
      | String "n"%char _ as t => literal "null" PNone t
      | String c r as t =>
          if Ascii.eqb c dquote then
            match string_body r with
            | Some (k, r') => Some (PStr k, r')
            | None => None
            end
          else number t
      | EmptyString => None
      end
  end

with members (fuel : nat) (acc : dict) (s : string) : option (dict * string) :=
  match fuel with
  | O => None
  | S fuel' =>
      match s with
      | String c r =>
          if Ascii.eqb c dquote then
            match string_body r with
            | Some (k, r1) =>
                match skip_ws r1 with
                | String ":"%char r2 =>
                    match value fuel' r2 with
                    | Some (v, r3) =>
                        let acc' := dict_set acc k v in
                        match skip_ws r3 with
                        | String "}"%char r4 => Some (acc', r4)
                        | String ","%char r4 => members fuel' acc' (skip_ws r4)
                        | _ => None
                        end
                    | None => None
                    end
                | _ => None
                end
            | None => None
            end
          else None
      | EmptyString => None
      end
  end

with elements (fuel : nat) (acc : list pyval) (s : string)
  : option (list pyval * string) :=
  match fuel with
  | O => None
  | S fuel' =>
      match value fuel' s with
      | Some (v, r) =>
          match skip_ws r with
          | String "]"%char r' => Some ((acc ++ [v])%list, r')
          | String ","%char r' => elements fuel' (acc ++ [v])%list r'
          | _ => None
          end
      | None => None
      end
  end.

Definition loads (s : string) : res pyval :=
  match value (S (S (String.length s))) s with
  | Some (v, r) =>
      match skip_ws r with
      | EmptyString => Ok v
      | _ => Err (Raise JSONDecodeError "Extra data")
      end
  | None => Err (Raise JSONDecodeError "Expecting value")
  end.

End Json.

(* ===================================================================== *)
(** * Messages and replies of the remote model                           *)
(* ===================================================================== *)

(** One entry of a conversation history:
    [{"role": ..., "content": ...}]. *)
Record Message : Type := { role : string; content : string }.

Definition user_message (text : string) : Message :=
  {| role := "user"; content := text |}.

Definition assistant_message (text : string) : Message :=
  {| role := "assistant"; content := text |}.

Definition message_dict (m : Message) : pyval :=
  PDict [("role", PStr (role m)); ("content", PStr (content m))].

(** What the code reads from the object returned by
    [client.messages.create]: [response.content[0].text] and the two
    token counts of [response.usage]. *)
Record ApiReply : Type :=
  { reply_text : string; input_tokens : Z; output_tokens : Z }.

Definition tokens_used (r : ApiReply) : pyval :=
  PInt (input_tokens r + output_tokens r).

(* ===================================================================== *)
(** * evaluators/judge.py                                                *)
(* ===================================================================== *)

Module LLMJudge.

Definition FAILURE_CATEGORIES : list string :=
  [ "technical_failures";
    "comprehension_failures";
    "response_quality_failures";
    "knowledge_failures";
    "task_execution_failures";
    "interaction_design_failures";
    "safety_compliance_failures";
    "escalation_boundary_failures";
    "user_experience_failures";
    "business_logic_failures";
    "meta_cognitive_failures";
    "temporal_failures" ].

Definition model : string := "claude-3-5-sonnet-20241022".

Definition _format_transcript (conversation_history : list Message) : string :=
  let line (msg : Message) : list string :=
    if String.eqb (role msg) "user" then ["USER: " ++ content msg]
    else if String.eqb (role msg) "assistant" then ["AGENT: " ++ content msg]
    else [] in
  PyStr.join (PyStr.nl ++ PyStr.nl) (flat_map line conversation_history).

(** Lines 69-76: the text handed to the decoder. *)
Definition extract_json (result_text : string) : string :=
  if contains "```json" result_text then
    let json_start := (PyStr.find "```json" result_text 0 + 7)%Z in
    let json_end := PyStr.find "```" result_text json_start in
    PyStr.strip (PyStr.slice result_text json_start json_end)
  else if contains "```" result_text then
    let json_start := (PyStr.find "```" result_text 0 + 3)%Z in
    let json_end := PyStr.find "```" result_text json_start in
    PyStr.strip (PyStr.slice result_text json_start json_end)
  else result_text.

(** The dict of the [except] branch, lines 90-96. *)
Definition fallback_evaluation (e : exn) : dict :=
  [ ("error", PStr (str_of_exn e));
    ("technical_failures",
       PDict [ ("score", PInt 5);
               ("justification", PStr "Judge failed to evaluate");
               ("confidence", PFloat 0%Q) ]);
    ("overall_summary", PStr ("Evaluation error: " ++ str_of_exn e));
    ("primary_failure_mode", PStr "Technical - Evaluation system failure");
    ("suggestion", PStr "Review evaluation system logs") ].

Section Evaluate.

(** [json.loads] *)
Variable json_loads : string -> res pyval.

(** The call [self.client.messages.create(...)] of the judge, as a
    function of the two values its prompt is built from (the formatted
    transcript and the goal); [Err] when the call, or reading
    [response.content[0].text], raises. *)
Variable messages_create : string -> pyval -> res ApiReply.

(** The body of the [try], lines 52-86. *)
Definition try_evaluate (transcript : string) (user_goal : pyval) : res dict :=
  response <- messages_create transcript user_goal ;;
  let result_text := extract_json (reply_text response) in
  evaluation <- json_loads result_text ;;
  py_setitem evaluation "meta"
    (PDict [("model", PStr model); ("tokens_used", tokens_used response)]).

Definition evaluate_conversation
    (conversation_history : list Message) (user_goal : pyval) : dict :=
  let transcript := _format_transcript conversation_history in
  match try_evaluate transcript user_goal with
  | Ok evaluation => evaluation
  | Err e => fallback_evaluation e
  end.

End Evaluate.

End LLMJudge.

(* ===================================================================== *)
(** * agents/customer_support_agent.py and agents/user_agent.py          *)
(* ===================================================================== *)

(** The dict returned by [CustomerSupportAgent.respond]. *)
Module SupportReply.
Record t : Type := { response : string; actions : list pyval; meta : dict }.
End SupportReply.

(** The dict returned by [UserAgent.generate_response]. *)
Module UserReply.
Record t : Type :=
  { message : string; goal_met : bool; giving_up : bool; meta : dict }.
End UserReply.

Module Agents.

(** The loop that copies the history into the request: only the two
    known roles pass. *)
Definition request_messages (conversation_history : list Message) : list Message :=
  filter (fun msg => String.eqb (role msg) "user"
                     || String.eqb (role msg) "assistant")
         conversation_history.

Section CustomerSupportAgent.

(** [self.client.messages.create(...)] on the request messages. *)
Variable messages_create : list Message -> res ApiReply.

Definition respond (conversation_history : list Message)
    (user_message : string) (user_profile : dict) : SupportReply.t :=
  let messages :=
    (request_messages conversation_history
       ++ [{| role := "user"; content := user_message |}])%list in
  match messages_create messages with
  | Ok response =>
      {| SupportReply.response := reply_text response;
         SupportReply.actions := [];
         SupportReply.meta :=
           [ ("model", PStr "claude-3-5-sonnet-20241022");
             ("tokens_used", tokens_used response) ] |}
  | Err e =>
      {| SupportReply.response :=
           "I apologize, but I'm experiencing technical difficulties. Error: "
             ++ str_of_exn e;
         SupportReply.actions := [];
         SupportReply.meta := [("error", PStr (str_of_exn e))] |}
  end.

End CustomerSupportAgent.

Section UserAgent.

(** [self.client.messages.create(...)]: the system prompt is built from
    the personality and the goal. *)
Variable messages_create : dict -> pyval -> list Message -> res ApiReply.

Definition generate_response (personality : dict) (goal : pyval)
    (conversation_history : list Message) (agent_response : string)
  : UserReply.t :=
  let messages :=
    (request_messages conversation_history
       ++ [{| role := "user";
              content := "The customer support agent just said: "
                           ++ agent_response ++ PyStr.nl ++ PyStr.nl
                           ++ "How do you respond?" |}])%list in
  match messages_create personality goal messages with
  | Ok response =>
      let user_message := reply_text response in
      let goal_met := contains "GOAL_MET" user_message in
      let giving_up := contains "GIVING_UP" user_message in
      let user_message :=
        PyStr.strip
          (PyStr.remove "GIVING_UP" (PyStr.remove "GOAL_MET" user_message)) in
      {| UserReply.message := user_message;
         UserReply.goal_met := goal_met;
         UserReply.giving_up := giving_up;
         UserReply.meta := [("tokens_used", tokens_used response)] |}
  | Err e =>
      {| UserReply.message := "I need help with my issue.";
         UserReply.goal_met := false;
         UserReply.giving_up := false;
         UserReply.meta := [("error", PStr (str_of_exn e))] |}
  end.

End UserAgent.

End Agents.

(* ===================================================================== *)
(** * config/scenarios.py                                                *)
(* ===================================================================== *)

Module Config.

Definition SCENARIOS : list dict :=
  [
    [ ("id", PStr "order_delay");
      ("type", PStr "order_delay");
      ("context", PStr "Order placed 2 weeks ago, expected delivery was last week, still not received");
      ("goal", PStr "Get information about delayed order and resolution");
      ("expected_info", PList [PStr "order_id"; PStr "tracking_number"; PStr "estimated_delivery"]) ];
    [ ("id", PStr "wrong_item");
      ("type", PStr "wrong_item");
      ("context", PStr "Received wrong item in package - ordered blue shirt size M, got red pants size L");
      ("goal", PStr "Get refund or replacement for wrong item");
      ("expected_info", PList [PStr "order_id"; PStr "return_process"]) ];
    [ ("id", PStr "refund_request");
      ("type", PStr "refund_request");
      ("context", PStr "Product doesn't meet expectations, want to return and get refund");
      ("goal", PStr "Initiate refund process");
      ("expected_info", PList [PStr "refund_policy"; PStr "return_instructions"]) ];
    [ ("id", PStr "no_order_id");
      ("type", PStr "refund_request");
      ("context", PStr "Want to return item but can't find order confirmation email");
      ("goal", PStr "Get refund without having order ID readily available");
      ("expected_info", PList [PStr "alternative_lookup_method"]) ];
    [ ("id", PStr "account_locked");
      ("type", PStr "account_locked");
      ("context", PStr "Cannot log into account, getting 'account locked' error");
      ("goal", PStr "Regain access to account");
      ("expected_info", PList [PStr "unlock_process"; PStr "security_verification"]) ];
    [ ("id", PStr "billing_dispute");
      ("type", PStr "billing_dispute");
      ("context", PStr "Charged twice for same order, credit card shows duplicate charges");
      ("goal", PStr "Get duplicate charge refunded");
      ("expected_info", PList [PStr "charge_investigation"; PStr "refund_timeline"]) ];
    [ ("id", PStr "subscription_cancel");
      ("type", PStr "subscription_cancellation");
      ("context", PStr "Want to cancel monthly subscription but can't find cancellation option");
      ("goal", PStr "Cancel subscription successfully");
      ("expected_info", PList [PStr "cancellation_confirmation"; PStr "final_billing_date"]) ];
    [ ("id", PStr "warranty_claim");
      ("type", PStr "warranty_claim");
      ("context", PStr "Product stopped working after 3 months, should be under warranty");
      ("goal", PStr "File warranty claim and get replacement or repair");
      ("expected_info", PList [PStr "warranty_coverage"; PStr "claim_process"]) ];
    [ ("id", PStr "cross_sell");
      ("type", PStr "product_inquiry");
      ("context", PStr "Looking for recommendations for compatible accessories");
      ("goal", PStr "Get product recommendations");
      ("expected_info", PList [PStr "product_suggestions"]) ];
    [ ("id", PStr "policy_complaint");
      ("type", PStr "complaint");
      ("context", PStr "Unhappy with return policy - only 14 days seems too short");
      ("goal", PStr "Express dissatisfaction and potentially get exception");
      ("expected_info", PList [PStr "policy_explanation"; PStr "exception_possibility"]) ];
    [ ("id", PStr "shipping_damage");
      ("type", PStr "damaged_item");
      ("context", PStr "Package arrived damaged, item inside is broken");
      ("goal", PStr "Get replacement or refund for damaged item");
      ("expected_info", PList [PStr "damage_claim_process"; PStr "photo_requirements"]) ];
    [ ("id", PStr "promo_code_issue");
      ("type", PStr "promo_code");
      ("context", PStr "Promo code not applying at checkout, getting error message");
      ("goal", PStr "Get promo code to work or receive discount");
      ("expected_info", PList [PStr "promo_validation"; PStr "alternative_solution"]) ];
    [ ("id", PStr "size_exchange");
      ("type", PStr "exchange");
      ("context", PStr "Item doesn't fit, want to exchange for different size");
      ("goal", PStr "Exchange item for correct size");
      ("expected_info", PList [PStr "exchange_process"; PStr "size_availability"]) ];
    [ ("id", PStr "payment_failed");
      ("type", PStr "payment_issue");
      ("context", PStr "Order keeps getting declined, payment method should be valid");
      ("goal", PStr "Successfully complete purchase");
      ("expected_info", PList [PStr "payment_troubleshooting"]) ];
    [ ("id", PStr "gift_return");
      ("type", PStr "gift_return");
      ("context", PStr "Received item as gift but want to return, don't have receipt");
      ("goal", PStr "Return gift item without receipt");
      ("expected_info", PList [PStr "gift_return_policy"; PStr "store_credit_option"]) ];
    [ ("id", PStr "international_shipping");
      ("type", PStr "shipping_inquiry");
      ("context", PStr "Want to know if you ship to specific country and customs fees");
      ("goal", PStr "Get international shipping information");
      ("expected_info", PList [PStr "shipping_availability"; PStr "customs_info"]) ];
    [ ("id", PStr "loyalty_points");
      ("type", PStr "loyalty_program");
      ("context", PStr "Points from recent purchase not showing in account");
      ("goal", PStr "Get missing loyalty points credited");
      ("expected_info", PList [PStr "points_investigation"; PStr "crediting_timeline"]) ];
    [ ("id", PStr "bulk_order");
      ("type", PStr "bulk_inquiry");
      ("context", PStr "Want to place large order for company, need bulk pricing");
      ("goal", PStr "Get bulk pricing and ordering information");
      ("expected_info", PList [PStr "bulk_discount"; PStr "business_account_info"]) ];
    [ ("id", PStr "product_recall");
      ("type", PStr "product_recall");
      ("context", PStr "Heard about product recall, want to know if my item is affected");
      ("goal", PStr "Get recall information and next steps");
      ("expected_info", PList [PStr "recall_status"; PStr "return_instructions"]) ];
    [ ("id", PStr "password_reset");
      ("type", PStr "password_reset");
      ("context", PStr "Forgot password, reset email not arriving");
      ("goal", PStr "Reset password and regain account access");
      ("expected_info", PList [PStr "alternative_reset_method"; PStr "email_troubleshooting"]) ]
  ].

Definition PERSONALITIES : list dict :=
  [
    [ ("id", PStr "calm_polite");
      ("tone", PStr "calm");
      ("technical_literacy", PStr "intermediate");
      ("formality", PStr "polite");
      ("trust_level", PStr "trusting") ];
    [ ("id", PStr "frustrated_impatient");
      ("tone", PStr "frustrated");
      ("technical_literacy", PStr "low");
      ("formality", PStr "casual");
      ("trust_level", PStr "cautious") ];
    [ ("id", PStr "angry_demanding");
      ("tone", PStr "angry");
      ("technical_literacy", PStr "intermediate");
      ("formality", PStr "casual");
      ("trust_level", PStr "distrustful") ];
    [ ("id", PStr "confused_anxious");
      ("tone", PStr "anxious");
      ("technical_literacy", PStr "low");
      ("formality", PStr "polite");
      ("trust_level", PStr "cautious") ];
    [ ("id", PStr "professional_formal");
      ("tone", PStr "neutral");
      ("technical_literacy", PStr "high");
      ("formality", PStr "formal");
      ("trust_level", PStr "cautious") ];
    [ ("id", PStr "casual_friendly");
      ("tone", PStr "friendly");
      ("technical_literacy", PStr "intermediate");
      ("formality", PStr "casual");
      ("trust_level", PStr "trusting") ];
    [ ("id", PStr "sarcastic_skeptical");
      ("tone", PStr "sarcastic");
      ("technical_literacy", PStr "high");
      ("formality", PStr "casual");
      ("trust_level", PStr "distrustful") ];
    [ ("id", PStr "urgent_stressed");
      ("tone", PStr "urgent");
      ("technical_literacy", PStr "intermediate");
      ("formality", PStr "casual");
      ("trust_level", PStr "neutral") ];
    [ ("id", PStr "elderly_patient");
      ("tone", PStr "patient");
      ("technical_literacy", PStr "low");
      ("formality", PStr "formal");
      ("trust_level", PStr "trusting") ];
    [ ("id", PStr "technical_precise");
      ("tone", PStr "neutral");
      ("technical_literacy", PStr "expert");
      ("formality", PStr "formal");
      ("trust_level", PStr "neutral") ]
  ].

(** The scan of [get_scenario] and [get_personality]: the first entry
    whose ["id"] is the one asked for, [None] when there is none. *)
Fixpoint lookup_id (catalog : list dict) (id : string) : option dict :=
  match catalog with
  | [] => None
  | entry :: rest =>
      if py_eqb_str (dict_get_default entry "id" PNone) id then Some entry
      else lookup_id rest id
  end.

Definition get_scenario (scenario_id : string) : option dict :=
  lookup_id SCENARIOS scenario_id.

Definition get_personality (personality_id : string) : option dict :=
  lookup_id PERSONALITIES personality_id.

End Config.

(* ===================================================================== *)
(** * orchestrator/simulator.py                                          *)
(* ===================================================================== *)

Definition inspect {A : Type} (a : A) : {b : A | a = b} := exist _ a eq_refl.

Module EvaluationOrchestrator.

(** What one run talks to: the methods of [self.user_agent] and
    [self.support_agent] as the controller calls them, the remote call of
    [self.judge], and the clock.  Within one run every call receives a
    longer history than the one before, so a function of the arguments
    covers every sequence of answers. *)
Record Env : Type :=
  { generate_initial_message : dict -> dict -> string;
    respond : list Message -> string -> dict -> SupportReply.t;
    generate_response : dict -> pyval -> list Message -> string -> UserReply.t;
    judge_create : string -> pyval -> res ApiReply;
    time_time : Q }.

(** [self.max_turns], set by [__init__]. *)
Definition self_max_turns : Z := 10.

(** [max_turns or self.max_turns], for [max_turns] an int or [None]. *)
Definition or_default (max_turns : option Z) (default : Z) : Z :=
  match max_turns with
  | Some n => if (n =? 0)%Z then default else n
  | None => default
  end.

(** The local variables the loop of [run_single_conversation] updates. *)
Record LoopState : Type :=
  { conversation_history : list Message;
    turns : Z;
    goal_met : bool;
    giving_up : bool }.

(** [conversation_history[-1]["content"]]; the history is never empty
    where the code reads it. *)
Definition last_content (conversation_history : list Message) : string :=
  content (last conversation_history (user_message "")).

Section Conversation.

Variable env : Env.
Variable personality : dict.
Variable goal : pyval.
Variable initial_message : string.
Variable max_turns : Z.

(** The test of the [while], line 57. *)
Definition loop_test (st : LoopState) : bool :=
  (turns st <? max_turns)%Z && negb (goal_met st) && negb (giving_up st).

(** Lines 59-69: the agent replies and the reply is appended. *)
Definition support_response (st : LoopState) : SupportReply.t :=
  respond env (conversation_history st)
    (if (turns st =? 0)%Z then initial_message
     else last_content (conversation_history st))
    personality.

Definition agent_turn (st : LoopState) : LoopState :=
  {| conversation_history :=
       conversation_history st
         ++ [assistant_message (SupportReply.response (support_response st))];
     turns := turns st;
     goal_met := goal_met st;
     giving_up := giving_up st |}.

(** Lines 76-91: the simulated user answers the reply just appended,
    and the turn is counted. *)
Definition user_turn (st : LoopState) : LoopState :=
  let st1 := agent_turn st in
  let user_response :=
    generate_response env personality goal (conversation_history st1)
      (SupportReply.response (support_response st)) in
  {| conversation_history :=
       conversation_history st1
         ++ [user_message (UserReply.message user_response)];
     turns := (turns st + 1)%Z;
     goal_met := UserReply.goal_met user_response;
     giving_up := UserReply.giving_up user_response |}.

(** The [while] loop, lines 57-91. *)
Equations? conversation_loop (st : LoopState) : LoopState
  by wf (Z.to_nat (max_turns - turns st)) lt :=
  conversation_loop st with inspect (loop_test st) => {
    | exist _ true Htest with inspect (turns st >=? max_turns - 1)%Z => {
        | exist _ true Hlast := agent_turn st
        | exist _ false Hlast := conversation_loop (user_turn st) }
    | exist _ false Htest := st }.
Proof.
  unfold loop_test in Htest. simpl. lia.
Qed.

(** Lines 40-91: the opening message, then the loop. *)
Definition conversation : LoopState :=
  conversation_loop
    {| conversation_history := [user_message initial_message];
       turns := 0;
       goal_met := false;
       giving_up := false |}.

End Conversation.

Section Run.

Variable json_loads : string -> res pyval.

Definition run_single_conversation (env : Env) (scenario personality : dict)
    (max_turns : option Z) : res dict :=
  let max_turns := or_default max_turns self_max_turns in
  goal <- dict_getitem scenario "goal" ;;
  let initial_message := generate_initial_message env personality scenario in
  let st := conversation env personality goal initial_message max_turns in
  let evaluation :=
    LLMJudge.evaluate_conversation json_loads (judge_create env)
      (conversation_history st) goal in
  scenario_id <- dict_getitem scenario "id" ;;
  personality_id <- dict_getitem personality "id" ;;
  Ok [ ("scenario_id", scenario_id);
       ("personality_id", personality_id);
       ("conversation_history",
          PList (map message_dict (conversation_history st)));
       ("turns", PInt (turns st));
       ("goal_met", PBool (goal_met st));
       ("giving_up", PBool (giving_up st));
       ("evaluation", PDict evaluation);
       ("timestamp", PFloat (time_time env)) ].

(** [random.choice(seq)], the index drawn being [draw mod len(seq)]. *)
Definition choice (draw : nat) (seq : list dict) : res dict :=
  match seq with
  | [] => Err (Raise IndexError "Cannot choose from an empty sequence")
  | first :: _ => Ok (nth (draw mod length seq) seq first)
  end.

(** [l or default] for a list or [None]. *)
Definition or_catalog (l : option (list dict)) (default : list dict) : list dict :=
  match l with
  | Some ((_ :: _) as l') => l'
  | _ => default
  end.

(** The services as they answer during run [i], and the two numbers
    drawn for it. *)
Variable env_of_run : nat -> Env.
Variable draws : nat -> nat * nat.

(** One pass through the body of the [for], lines 135-151. *)
Definition batch_step (scenarios personalities : list dict)
    (results : list dict) (i : nat) : res (list dict) :=
  scenario <- choice (fst (draws i)) scenarios ;;
  personality <- choice (snd (draws i)) personalities ;;
  (* the two ids the progress line prints *)
  _ <- dict_getitem scenario "id" ;;
  _ <- dict_getitem personality "id" ;;
  match run_single_conversation (env_of_run i) scenario personality None with
  | Ok result => Ok (results ++ [result])%list
  | Err e =>
      scenario_id <- dict_getitem scenario "id" ;;
      personality_id <- dict_getitem personality "id" ;;
      Ok (results ++ [ [ ("scenario_id", scenario_id);
                         ("personality_id", personality_id);
                         ("error", PStr (str_of_exn e));
                         ("timestamp", PFloat (time_time (env_of_run i))) ] ])%list
  end.

Definition run_batch_simulations (num_simulations : Z)
    (scenarios personalities : option (list dict)) : res (list dict) :=
  let scenarios := or_catalog scenarios Config.SCENARIOS in
  let personalities := or_catalog personalities Config.PERSONALITIES in
  fold_left
    (fun acc i => results <- acc ;; batch_step scenarios personalities results i)
    (seq 0 (Z.to_nat num_simulations))
    (Ok []).

End Run.

End EvaluationOrchestrator.

(* ===================================================================== *)
(** * orchestrator/reporter.py                                           *)
(* ===================================================================== *)

Module EvaluationReporter.

(** [self.failure_categories] *)
Definition failure_categories : list string :=
  [ "technical_failures";
    "comprehension_failures";
    "response_quality_failures";
    "knowledge_failures";
    "task_execution_failures";
    "interaction_design_failures";
    "safety_compliance_failures";
    "escalation_boundary_failures";
    "user_experience_failures";
    "business_logic_failures";
    "meta_cognitive_failures";
    "temporal_failures" ].

(** ** Dictionaries keyed by arbitrary hashable values *)

Fixpoint key_lookup {V : Type} (data : list (pyval * V)) (key : pyval) : option V :=
  match data with
  | [] => None
  | (k, v) :: data' => if key_eqb k key then Some v else key_lookup data' key
  end.

Fixpoint key_store {V : Type} (data : list (pyval * V)) (key : pyval) (v : V)
  : list (pyval * V) :=
  match data with
  | [] => [(key, v)]
  | (k, v') :: data' =>
      if key_eqb k key then (k, v) :: data' else (k, v') :: key_store data' key v
  end.

(** [sorted(items, key=..., reverse=True)] on keys that are numbers:
    greatest key first, equal keys in their original order.  (A NaN key,
    which Python cannot order, is not a value of the model.) *)
Fixpoint insert_desc {A : Type} (key : A -> Q) (x : A) (l : list A) : list A :=
  match l with
  | [] => [x]
  | y :: l' =>
      if Qle_bool (key y) (key x) then x :: l else y :: insert_desc key x l'
  end.

Definition sorted_desc {A : Type} (key : A -> Q) (l : list A) : list A :=
  fold_right (insert_desc key) [] l.

(** [num / den if den > 0 else 0] on two ints. *)
Definition ratio_or_zero (num den : Z) : Q :=
  if (den >? 0)%Z then (inject_Z num / inject_Z den)%Q else 0%Q.

Definition len {A : Type} (l : list A) : Z := Z.of_nat (length l).

(** ** The shape of the report *)

Record Summary : Type :=
  { total_simulations : Z;
    successful_simulations : Z;
    failed_simulations : Z;
    goal_met_rate : Q;
    giving_up_rate : Q;
    avg_conversation_turns : Q }.

Record FailureAnalysis : Type :=
  { avg_scores_by_category : list (string * Q);
    worst_performing_categories : list (string * Q);
    top_failure_modes : list (pyval * Z) }.

(** One entry of [dimension_data] while the loop runs ... *)
Module DimensionData.
Record t : Type :=
  { count : Z; goal_met : Z; avg_turns : pyval; avg_total_score : pyval }.
End DimensionData.

(** ... and once the averages are taken. *)
Module DimensionStats.
Record t : Type :=
  { count : Z; avg_turns : Q; avg_total_score : Q; goal_met_rate : Q }.
End DimensionStats.

(** The dict [aggregate_results] returns: [{"error": ...}], or the report
    with its four sections. *)
Inductive Aggregate : Type :=
| ErrorMarker (error : string)
| Report (summary : Summary) (failure_analysis : FailureAnalysis)
         (scenario_breakdown personality_breakdown : list (pyval * DimensionStats.t)).

(** ** Scores of one evaluation *)

(** Lines 66-67 and 141-142: the score of [category] when the evaluation
    has the category. *)
Definition category_score (evaluation : pyval) (category : string)
  : res (option pyval) :=
  present <- py_in category evaluation ;;
  if (present : bool) then
    entry <- py_getitem evaluation category ;;
    score <- py_get entry "score" (PInt 0) ;;
    Ok (Some score)
  else Ok None.

Definition evaluation_of (result : dict) : pyval :=
  dict_get_default result "evaluation" (PDict []).

(** [category_scores[category].append(score)] *)
Fixpoint append_score (category_scores : list (string * list pyval))
    (category : string) (score : pyval) : list (string * list pyval) :=
  match category_scores with
  | [] => [(category, [score])]
  | (c, scores) :: rest =>
      if String.eqb c category then (c, scores ++ [score])%list :: rest
      else (c, scores) :: append_score rest category score
  end.

(** Lines 62-68. *)
Definition collect_category_scores (valid_results : list dict)
  : res (list (string * list pyval)) :=
  fold_left
    (fun acc result =>
       fold_left
         (fun acc' category =>
            category_scores <- acc' ;;
            found <- category_score (evaluation_of result) category ;;
            match found with
            | Some score => Ok (append_score category_scores category score)
            | None => Ok category_scores
            end)
         failure_categories acc)
    valid_results (Ok []).

(** Lines 71-73. *)
Fixpoint average_scores (category_scores : list (string * list pyval))
  : res (list (string * Q)) :=
  match category_scores with
  | [] => Ok []
  | (category, scores) :: rest =>
      avg <- match scores with
             | [] => Ok 0%Q
             | _ => total <- py_sum scores ;; py_truediv total (PInt (len scores))
             end ;;
      avgs <- average_scores rest ;;
      Ok ((category, avg) :: avgs)
  end.

(** Lines 139-142: the sum of the scores of one evaluation. *)
Definition total_score (evaluation : pyval) : res pyval :=
  fold_left
    (fun acc category =>
       total <- acc ;;
       found <- category_score evaluation category ;;
       match found with
       | Some score => py_add total score
       | None => Ok total
       end)
    failure_categories (Ok (PInt 0)).

(** ** [_aggregate_by_dimension] *)

Definition new_dimension_data : DimensionData.t :=
  {| DimensionData.count := 0;
     DimensionData.goal_met := 0;
     DimensionData.avg_turns := PInt 0;
     DimensionData.avg_total_score := PInt 0 |}.

(** The body of the first loop, lines 129-143. *)
Definition dimension_step (dimension : string)
    (dimension_data : list (pyval * DimensionData.t)) (result : dict)
  : res (list (pyval * DimensionData.t)) :=
  key <- check_hashable (dict_get_default result dimension (PStr "unknown")) ;;
  let data :=
    match key_lookup dimension_data key with
    | Some data => data
    | None => new_dimension_data
    end in
  let count := (DimensionData.count data + 1)%Z in
  let goal_met :=
    if truthy (dict_get_default result "goal_met" (PBool false))
    then (DimensionData.goal_met data + 1)%Z
    else DimensionData.goal_met data in
  avg_turns <- py_add (DimensionData.avg_turns data)
                      (dict_get_default result "turns" (PInt 0)) ;;
  total <- total_score (evaluation_of result) ;;
  avg_total_score <- py_add (DimensionData.avg_total_score data) total ;;
  Ok (key_store dimension_data key
        {| DimensionData.count := count;
           DimensionData.goal_met := goal_met;
           DimensionData.avg_turns := avg_turns;
           DimensionData.avg_total_score := avg_total_score |}).

(** The body of the second loop, lines 147-151. *)
Definition dimension_average (data : DimensionData.t) : res DimensionStats.t :=
  let count := DimensionData.count data in
  avg_turns <- (if (count >? 0)%Z
                then q <- py_truediv (DimensionData.avg_turns data) (PInt count) ;;
                     Ok (py_round2 q)
                else Ok 0%Q) ;;
  avg_total_score <-
    (if (count >? 0)%Z
     then q <- py_truediv (DimensionData.avg_total_score data) (PInt count) ;;
          Ok (py_round2 q)
     else Ok 0%Q) ;;
  Ok {| DimensionStats.count := count;
        DimensionStats.avg_turns := avg_turns;
        DimensionStats.avg_total_score := avg_total_score;
        DimensionStats.goal_met_rate :=
          ratio_or_zero (DimensionData.goal_met data) count |}.

Fixpoint dimension_averages (dimension_data : list (pyval * DimensionData.t))
  : res (list (pyval * DimensionStats.t)) :=
  match dimension_data with
  | [] => Ok []
  | (key, data) :: rest =>
      stats <- dimension_average data ;;
      others <- dimension_averages rest ;;
      Ok ((key, stats) :: others)
  end.

Definition _aggregate_by_dimension (results : list dict) (dimension : string)
  : res (list (pyval * DimensionStats.t)) :=
  dimension_data <-
    fold_left (fun acc result => data <- acc ;; dimension_step dimension data result)
              results (Ok []) ;;
  dimension_averages dimension_data.

(** ** Primary failure modes, lines 89-93 *)

Definition failure_mode_step (failure_mode_counts : list (pyval * Z))
    (result : dict) : res (list (pyval * Z)) :=
  primary_failure <-
    py_get (evaluation_of result) "primary_failure_mode" (PStr "Unknown") ;;
  key <- check_hashable primary_failure ;;
  let n := match key_lookup failure_mode_counts key with
           | Some n => n
           | None => 0%Z
           end in
  Ok (key_store failure_mode_counts key (n + 1)%Z).

Definition count_failure_modes (valid_results : list dict)
  : res (list (pyval * Z)) :=
  fold_left (fun acc result => counts <- acc ;; failure_mode_step counts result)
            valid_results (Ok []).

(** ** [aggregate_results] *)

Definition is_error_result (r : dict) : bool := dict_has r "error".

(** Lines 43-44. *)
Definition valid_results_of (results : list dict) : list dict :=
  filter (fun r => negb (is_error_result r)) results.

Definition error_results_of (results : list dict) : list dict :=
  filter is_error_result results.

(** [sum(1 for r in valid_results if r.get(flag, False))] *)
Definition count_flag (flag : string) (valid_results : list dict) : Z :=
  len (filter (fun r => truthy (dict_get_default r flag (PBool false)))
              valid_results).

Definition aggregate_results (results : list dict) : res Aggregate :=
  match results with
  | [] => Ok (ErrorMarker "No results to aggregate")
  | _ =>
  let valid_results := valid_results_of results in
  let error_results := error_results_of results in
  match valid_results with
  | [] => Ok (ErrorMarker "No valid results to aggregate")
  | _ =>
  let total_simulations := len results in
  let successful_simulations := len valid_results in
  let failed_simulations := len error_results in
  let goal_met_count := count_flag "goal_met" valid_results in
  let giving_up_count := count_flag "giving_up" valid_results in
  avg_turns <-
    match valid_results with
    | [] => Ok 0%Q
    | _ =>
        total_turns <-
          py_sum (map (fun r => dict_get_default r "turns" (PInt 0))
                      valid_results) ;;
        py_truediv total_turns (PInt (len valid_results))
    end ;;
  category_scores <- collect_category_scores valid_results ;;
  avg_category_scores <- average_scores category_scores ;;
  let worst_categories := firstn 5 (sorted_desc snd avg_category_scores) in
  scenario_stats <- _aggregate_by_dimension valid_results "scenario_id" ;;
  personality_stats <- _aggregate_by_dimension valid_results "personality_id" ;;
  failure_mode_counts <- count_failure_modes valid_results ;;
  let top_failure_modes :=
    firstn 10 (sorted_desc (fun x => inject_Z (snd x)) failure_mode_counts) in
  Ok (Report
        {| total_simulations := total_simulations;
           successful_simulations := successful_simulations;
           failed_simulations := failed_simulations;
           goal_met_rate := ratio_or_zero goal_met_count successful_simulations;
           giving_up_rate := ratio_or_zero giving_up_count successful_simulations;
           avg_conversation_turns := py_round2 avg_turns |}
        {| avg_scores_by_category := avg_category_scores;
           worst_performing_categories := worst_categories;
           top_failure_modes := top_failure_modes |}
        scenario_stats personality_stats)
  end
  end.

End EvaluationReporter.

(* ===================================================================== *)
(** * Vocabulary of the specification                                    *)
(* ===================================================================== *)

Module Spec.

(** ** The judge *)

(** "Contains all 12 category keys". *)
Definition has_all_categories (evaluation : dict) : bool :=
  forallb (dict_has evaluation) LLMJudge.FAILURE_CATEGORIES.

(** The categories an evaluation does have. *)
Definition categories_of (evaluation : dict) : list string :=
  filter (dict_has evaluation) LLMJudge.FAILURE_CATEGORIES.

(** The extraction step as the specification words it: the text strictly
    between the end of the first [marker] and the next fence marker;
    nothing is said of a response whose fence is never closed. *)
Definition text_between (marker response : string) : option string :=
  match String.index 0 marker response with
  | Some i =>
      let start := i + String.length marker in
      match String.index start "```" response with
      | Some j => Some (substring start (j - start) response)
      | None => None
      end
  | None => None
  end.

Definition extract_as_specified (response : string) : option string :=
  if contains "```json" response then text_between "```json" response
  else if contains "```" response then text_between "```" response
  else Some response.

(** ** Transcripts *)

Definition roles (transcript : list Message) : list string := map role transcript.

(** The number of agent replies. *)
Definition agent_messages (transcript : list Message) : nat :=
  count_occ string_dec (roles transcript) "assistant".

Definition begins_with_user (transcript : list Message) : Prop :=
  hd_error (roles transcript) = Some "user".

(** No two consecutive entries are equal. *)
Fixpoint alternating (l : list string) : Prop :=
  match l with
  | a :: ((b :: _) as rest) => a <> b /\ alternating rest
  | _ => True
  end.

Definition alternates (transcript : list Message) : Prop :=
  alternating (roles transcript).

Definition ends_with (r : string) (transcript : list Message) : Prop :=
  exists before, roles transcript = (before ++ [r])%list.

(** The roles of an opening message followed by [k] complete exchanges
    (an agent reply, then a user message). *)
Fixpoint exchanges (k : nat) : list string :=
  match k with
  | O => []
  | S k' => "assistant" :: "user" :: exchanges k'
  end.

Definition opened (k : nat) : list string := "user" :: exchanges k.

(** The transcript stored in a run result. *)
Definition message_of (v : pyval) : Message :=
  match v with
  | PDict d =>
      {| role := match dict_get d "role" with Some (PStr s) => s | _ => "" end;
         content := match dict_get d "content" with Some (PStr s) => s | _ => "" end |}
  | _ => {| role := ""; content := "" |}
  end.

Definition transcript_of (result : dict) : list Message :=
  match dict_get result "conversation_history" with
  | Some (PList l) => map message_of l
  | _ => []
  end.

Definition flag_of (result : dict) (k : string) : bool :=
  truthy (dict_get_default result k (PBool false)).

(** ** Termination states, read off the two flags of a run result the way
    the reporter reads them. *)
Inductive TerminationState : Type := GOAL_MET | GAVE_UP | TURN_LIMIT_REACHED.

Definition holds (result : dict) (t : TerminationState) : bool :=
  match t with
  | GOAL_MET => flag_of result "goal_met"
  | GAVE_UP => flag_of result "giving_up"
  | TURN_LIMIT_REACHED =>
      negb (flag_of result "goal_met") && negb (flag_of result "giving_up")
  end.

Definition states_holding (result : dict) : list TerminationState :=
  filter (holds result) [GOAL_MET; GAVE_UP; TURN_LIMIT_REACHED].

(** A scenario and a personality carrying the keys the controller reads. *)
Definition has_keys (scenario personality : dict) : bool :=
  dict_has scenario "goal" && dict_has scenario "id" && dict_has personality "id".

(** ** The aggregator *)

(** The integers the schema has for turns and scores, with room to
    spare: an int (or bool) of magnitude at most [2**1000], so that
    twelve of them add up to less than [float_limit]. *)
Definition small_bound : Z := Eval vm_compute in (2 ^ 1000)%Z.

Definition small_int (v : pyval) : bool :=
  match as_int v with
  | Some n => (Z.abs n <=? small_bound)%Z
  | None => false
  end.

(** An entry of an evaluation under [category], as the schema types it:
    absent, or a mapping whose score (0 when absent) is such an
    integer. *)
Definition category_typed (evaluation : dict) (category : string) : bool :=
  match dict_get evaluation category with
  | None => true
  | Some (PDict entry) => small_int (dict_get_default entry "score" (PInt 0))
  | Some _ => false
  end.

(** A result the reducer can read: integer turns, hashable ids, and an
    evaluation that is a mapping with typed category entries and a
    hashable primary failure mode. *)
Definition typed_result (r : dict) : bool :=
  small_int (dict_get_default r "turns" (PInt 0))
  && hashable (dict_get_default r "scenario_id" (PStr "unknown"))
  && hashable (dict_get_default r "personality_id" (PStr "unknown"))
  && match EvaluationReporter.evaluation_of r with
     | PDict evaluation =>
         forallb (category_typed evaluation) EvaluationReporter.failure_categories
         && hashable (dict_get_default evaluation "primary_failure_mode"
                                       (PStr "Unknown"))
     | _ => false
     end.

Definition in_unit_interval (q : Q) : Prop := (0 <= q)%Q /\ (q <= 1)%Q.

(** ** The batch *)

Definition has_id (entry : dict) : bool := dict_has entry "id".

(** The entry of a non-empty catalog a draw selects. *)
Definition pick (draw : nat) (catalog : list dict) : dict :=
  nth (draw mod length catalog) catalog [].

(** The stub appended for a run that raised [e]. *)
Definition stub (scenario personality : dict) (e : exn) (now : Q) : dict :=
  [ ("scenario_id", dict_get_default scenario "id" PNone);
    ("personality_id", dict_get_default personality "id" PNone);
    ("error", PStr (str_of_exn e));
    ("timestamp", PFloat now) ].

Section Batch.

Variable json_loads : string -> res pyval.
Variable env_of_run : nat -> EvaluationOrchestrator.Env.
Variable draws : nat -> nat * nat.
Variable scenarios personalities : list dict.

(** The controller call of run [i]. *)
Definition run_of (i : nat) : res dict :=
  EvaluationOrchestrator.run_single_conversation json_loads (env_of_run i)
    (pick (fst (draws i)) scenarios) (pick (snd (draws i)) personalities) None.

Definition run_fails (i : nat) : bool := negb (is_ok (run_of i)).

(** What run [i] leaves in the collection. *)
Definition batch_entry (i : nat) : dict :=
  match run_of i with
  | Ok result => result
  | Err e =>
      stub (pick (fst (draws i)) scenarios) (pick (snd (draws i)) personalities)
        e (EvaluationOrchestrator.time_time (env_of_run i))
  end.

Definition failed_runs (n : nat) : nat := length (filter run_fails (seq 0 n)).

End Batch.

End Spec.

(* ===================================================================== *)
(** * Concrete inputs                                                    *)
(* ===================================================================== *)

Module Examples.

Import EvaluationOrchestrator.

(** A string holding one double quote. *)
Definition dq : string := String Json.dquote "".

(** A judge whose remote call answers [text]. *)
Definition judge_says (text : string) : string -> pyval -> res ApiReply :=
  fun _ _ => Ok {| reply_text := text; input_tokens := 10; output_tokens := 5 |}.

(** A judge whose remote call raises. *)
Definition judge_down : string -> pyval -> res ApiReply :=
  fun _ _ => Err (Raise APIError "Connection error.").

(** An empty object inside a labelled fence, on a line of its own. *)
Definition fenced_empty_object : string :=
  "```json" ++ PyStr.nl ++ "{}" ++ PyStr.nl ++ "```".

Definition order_delay : dict :=
  match Config.get_scenario "order_delay" with Some s => s | None => [] end.

Definition frustrated_impatient : dict :=
  match Config.get_personality "frustrated_impatient" with
  | Some p => p
  | None => []
  end.

Definition agent_reply : SupportReply.t :=
  {| SupportReply.response := "Let me check on that for you.";
     SupportReply.actions := [];
     SupportReply.meta := [] |}.

(** Drivers that never signal: every run ends by the turn limit. *)
Definition quiet_env : Env :=
  {| generate_initial_message := fun _ _ => "Where is my order?";
     respond := fun _ _ _ => agent_reply;
     generate_response := fun _ _ _ _ =>
       {| UserReply.message := "I am still waiting.";
          UserReply.goal_met := false;
          UserReply.giving_up := false;
          UserReply.meta := [] |};
     judge_create := judge_down;
     time_time := 0%Q |}.

(** The simulated user of [agents/user_agent.py], whose remote model
    writes both markers in its first answer. *)
Definition torn_env : Env :=
  {| generate_initial_message := fun _ _ => "Where is my order?";
     respond := fun _ _ _ => agent_reply;
     generate_response :=
       Agents.generate_response
         (fun _ _ _ =>
            Ok {| reply_text := "Fine, forget it. GOAL_MET GIVING_UP";
                  input_tokens := 40; output_tokens := 9 |});
     judge_create := judge_down;
     time_time := 0%Q |}.

(** A judge that scores one category with a bare number. *)
Definition terse_env : Env :=
  {| generate_initial_message := generate_initial_message quiet_env;
     respond := respond quiet_env;
     generate_response := generate_response quiet_env;
     judge_create :=
       judge_says ("{" ++ dq ++ "technical_failures" ++ dq ++ ": 5}");
     time_time := 0%Q |}.

(** A scenario without its goal: the controller raises [KeyError]. *)
Definition no_goal : dict := [("id", PStr "no_goal")].

(** A scenario without its id: the progress line of the batch cannot be
    printed. *)
Definition no_id : dict := [("goal", PStr "Get a refund")].

(** Three runs; the second one draws the scenario without goal. *)
Definition three_scenarios : list dict := [order_delay; no_goal].

Definition three_draws (i : nat) : nat * nat := (i, 1).

(** The entries the first two of these runs leave: a result whose
    evaluation is the fallback report, and a stub. *)
Definition mixed_results : list dict :=
  [ Spec.batch_entry Json.loads (fun _ => quiet_env) three_draws
      three_scenarios Config.PERSONALITIES 0;
    Spec.batch_entry Json.loads (fun _ => quiet_env) three_draws
      three_scenarios Config.PERSONALITIES 1 ].

End Examples.

(* ===================================================================== *)
(** * Invariants of the reducer                                          *)
(* ===================================================================== *)

Module Invariants.

Import EvaluationReporter.

(** The state of the loop after [k] complete exchanges. *)
Definition after_exchanges (st : EvaluationOrchestrator.LoopState) (k : nat)
  : Prop :=
  EvaluationOrchestrator.turns st = Z.of_nat k
  /\ Spec.roles (EvaluationOrchestrator.conversation_history st) = Spec.opened k.

Definition score_typed (found : option pyval) : Prop :=
  match found with
  | Some score => Spec.small_int score = true
  | None => True
  end.

Definition scores_typed (category_scores : list (string * list pyval)) : Prop :=
  Forall (fun entry => Forall (fun v => Spec.small_int v = true) (snd entry))
         category_scores.

(** A running sum of [k] such integers. *)
Definition sum_of_small (v : pyval) (k : Z) : Prop :=
  exists n, v = PInt n /\ (Z.abs n <= Spec.small_bound * k)%Z.

Definition evaluation_typed (r : dict) : Prop :=
  exists evaluation,
    evaluation_of r = PDict evaluation
    /\ Forall (fun c => Spec.category_typed evaluation c = true)
              failure_categories
    /\ hashable (dict_get_default evaluation "primary_failure_mode"
                                  (PStr "Unknown")) = true.

(** An entry of [dimension_data]: the goal count never exceeds the
    count ... *)
Definition counts_bounded (d : DimensionData.t) : Prop :=
  (0 <= DimensionData.goal_met d <= DimensionData.count d)%Z.

(** ... which is positive once the entry is stored, *)
Definition counts_ok (d : DimensionData.t) : Prop :=
  counts_bounded d /\ (0 < DimensionData.count d)%Z.

(** and the two running sums are sums of one turn count and of at most
    twelve scores for each result counted. *)
Definition sums_num (d : DimensionData.t) : Prop :=
  (0 <= DimensionData.count d)%Z
  /\ sum_of_small (DimensionData.avg_turns d) (DimensionData.count d)
  /\ sum_of_small (DimensionData.avg_total_score d)
                  (12 * DimensionData.count d).

(** The exception is a [ZeroDivisionError]. *)
Definition divides_by_zero (e : exn) : bool :=
  match e with
  | Raise ZeroDivisionError _ => true
  | _ => false
  end.

(** Whatever the computation raises, it is not a [ZeroDivisionError]. *)
Definition no_zero_division {A : Type} (c : res A) : Prop :=
  forall e, c = Err e -> divides_by_zero e = false.

(** A result whose turn count is beyond the range of a float. *)
Definition huge_turns : dict := [("turns", PInt (10 ^ 400))].

Definition rate_in_unit_interval (entry : pyval * DimensionStats.t) : Prop :=
  Spec.in_unit_interval (DimensionStats.goal_met_rate (snd entry)).

End Invariants.

(* ===================================================================== *)
(** * orchestrator/simulator.py: [run_targeted_test]                     *)
(* ===================================================================== *)

From Stdlib Require Import Sorted Permutation.

Module TargetedTest.

Import EvaluationOrchestrator.

(** What the function lets out: the [ValueError] it raises itself, or an
    exception of a call it makes. *)
Inductive raised : Type :=
| ValueError (msg : string)
| Uncaught (e : exn).

Inductive outcome : Type :=
| Returned (results : list dict)
| Raises (r : raised).

(** The two scans, lines 174-177 and 193-196: the first entry whose
    ["id"] equals the one asked for. *)
Fixpoint first_with_id (catalog : list dict) (id : string) : res (option dict) :=
  match catalog with
  | [] => Ok None
  | entry :: rest =>
      entry_id <- dict_getitem entry "id" ;;
      if py_eqb_str entry_id id then Ok (Some entry) else first_with_id rest id
  end.

(** [not found], for [found] a dict or [None]. *)
Definition absent (found : option dict) : bool :=
  match found with
  | None => true
  | Some d => negb (truthy (PDict d))
  end.

Definition found_or_empty (found : option dict) : dict :=
  match found with
  | Some d => d
  | None => []
  end.

(** [f"{personality_id}"] for a string or [None]. *)
Definition format_id (personality_id : option string) : string :=
  match personality_id with
  | Some s => s
  | None => "None"
  end.

Section Run.

Variable json_loads : string -> res pyval.

(** The services as they answer during the [i]-th conversation. *)
Variable env_of_run : nat -> Env.

(** Lines 186-188: one conversation per personality, in catalog order. *)
Fixpoint run_each (scenario : dict) (personalities : list dict) (i : nat)
    (results : list dict) : res (list dict) :=
  match personalities with
  | [] => Ok results
  | personality :: rest =>
      result <- run_single_conversation json_loads (env_of_run i) scenario
                  personality None ;;
      run_each scenario rest (S i) (results ++ [result])%list
  end.

(** Lines 191-198: the personality of a single test. *)
Definition chosen_personality (personality_id : option string)
  : res (option dict) :=
  match personality_id with
  | Some ((String _ _) as id) => first_with_id Config.PERSONALITIES id
  | _ =>
      match Config.PERSONALITIES with
      | first :: _ => Ok (Some first)
      | [] => Err (Raise IndexError "list index out of range")
      end
  end.

Definition run_targeted_test (scenario_id : string)
    (personality_id : option string) (all_personalities : bool) : outcome :=
  match first_with_id Config.SCENARIOS scenario_id with
  | Err e => Raises (Uncaught e)
  | Ok scenario =>
      if absent scenario then
        Raises (ValueError ("Scenario " ++ scenario_id ++ " not found"))
      else if all_personalities then
        match run_each (found_or_empty scenario) Config.PERSONALITIES 0 [] with
        | Ok results => Returned results
        | Err e => Raises (Uncaught e)
        end
      else
        match chosen_personality personality_id with
        | Err e => Raises (Uncaught e)
        | Ok personality =>
            if absent personality then
              Raises (ValueError ("Personality " ++ format_id personality_id
                                  ++ " not found"))
            else
              match run_single_conversation json_loads (env_of_run 0)
                      (found_or_empty scenario) (found_or_empty personality)
                      None with
              | Ok result => Returned [result]
              | Err e => Raises (Uncaught e)
              end
        end
  end.

End Run.

End TargetedTest.

(* ===================================================================== *)
(** * app.py: the batch endpoint                                         *)
(* ===================================================================== *)

Module Service.

Import EvaluationOrchestrator.

(** [[s for s in catalog if s["id"] in wanted]] *)
Fixpoint with_ids (catalog : list dict) (wanted : list string) : res (list dict) :=
  match catalog with
  | [] => Ok []
  | entry :: rest =>
      entry_id <- dict_getitem entry "id" ;;
      kept <- with_ids rest wanted ;;
      Ok (if existsb (py_eqb_str entry_id) wanted then entry :: kept else kept)
  end.

(** Lines 161-167: the whole catalog unless a non-empty list of ids is
    given. *)
Definition selected (catalog : list dict) (ids : option (list string))
  : res (list dict) :=
  match ids with
  | Some ((_ :: _) as wanted) => with_ids catalog wanted
  | _ => Ok catalog
  end.

(** What an endpoint answers: the value it returns, or the
    [HTTPException] it raises. *)
Inductive answer : Type :=
| Answered (result : dict)
| HTTPException (status_code : Z) (detail : string).

Section Single.

Variable json_loads : string -> res pyval.
Variable env : Env.

(** Lines 131-150, [simulate_single]; [max_turns] is the field of the
    request. *)
Definition simulate_single (scenario_id personality_id : string)
    (max_turns : option Z) : answer :=
  let scenario := Config.get_scenario scenario_id in
  if TargetedTest.absent scenario then
    HTTPException 404 ("Scenario " ++ scenario_id ++ " not found")
  else
    let personality := Config.get_personality personality_id in
    if TargetedTest.absent personality then
      HTTPException 404 ("Personality " ++ personality_id ++ " not found")
    else
      match run_single_conversation json_loads env
              (TargetedTest.found_or_empty scenario)
              (TargetedTest.found_or_empty personality) max_turns with
      | Ok result => Answered result
      | Err e => HTTPException 500 (str_of_exn e)
      end.

End Single.

Section Batch.

Variable json_loads : string -> res pyval.
Variable env_of_run : nat -> Env.
Variable draws : nat -> nat * nat.

(** Lines 160-173 of [simulate_batch]: the results of the batch run on
    the selected catalogs. *)
Definition batch_results (num_simulations : Z)
    (scenario_ids personality_ids : option (list string)) : res (list dict) :=
  scenarios <- selected Config.SCENARIOS scenario_ids ;;
  personalities <- selected Config.PERSONALITIES personality_ids ;;
  run_batch_simulations json_loads env_of_run draws num_simulations
    (Some scenarios) (Some personalities).

(** Line 176: the aggregate of these results. *)
Definition batch_aggregated (num_simulations : Z)
    (scenario_ids personality_ids : option (list string))
  : res EvaluationReporter.Aggregate :=
  results <- batch_results num_simulations scenario_ids personality_ids ;;
  EvaluationReporter.aggregate_results results.

End Batch.

End Service.

(* ===================================================================== *)
(** * Further vocabulary                                                 *)
(* ===================================================================== *)

Module Vocabulary.

Import EvaluationOrchestrator.
Import EvaluationReporter.

(** Greatest key first. *)
Definition descending {A : Type} (key : A -> Q) (l : list A) : Prop :=
  StronglySorted (fun a b => (key b <= key a)%Q) l.

Definition sum_Z (l : list Z) : Z := fold_right Z.add 0%Z l.

(** No two keys of the list are equal as dictionary keys. *)
Definition distinct_keys (keys : list pyval) : Prop :=
  ForallOrdPairs (fun a b => key_eqb a b = false) keys.

(** The counts of the groups of a breakdown. *)
Definition group_counts (stats : list (pyval * DimensionStats.t)) : list Z :=
  map (fun entry => DimensionStats.count (snd entry)) stats.

Definition data_counts (data : list (pyval * DimensionData.t)) : list Z :=
  map (fun entry => DimensionData.count (snd entry)) data.

(** The value a result has under a dimension. *)
Definition dimension_value (dimension : string) (r : dict) : pyval :=
  dict_get_default r dimension (PStr "unknown").

(** What holds of [dimension_data] after the results [seen]. *)
Definition grouped (dimension : string) (seen : list dict)
    (data : list (pyval * DimensionData.t)) : Prop :=
  sum_Z (data_counts data) = len seen
  /\ Forall (fun e => Invariants.counts_ok (snd e)) data
  /\ distinct_keys (map fst data)
  /\ Forall (fun k => exists r, In r seen
                                /\ k = dimension_value dimension r)
            (map fst data).

(** What holds of [failure_mode_counts] after the results [seen]. *)
Definition tallied (seen : list dict) (counts : list (pyval * Z)) : Prop :=
  Vocabulary.sum_Z (map snd counts) = len seen
  /\ Forall (fun e => (1 <= snd e)%Z) counts.

(** The groups [stats] split the results: the counts add up to the
    number of results, no group is empty, no two groups have the same
    key, and every key is the value of some result. *)
Definition partitions (dimension : string) (results : list dict)
    (stats : list (pyval * DimensionStats.t)) : Prop :=
  sum_Z (group_counts stats) = len results
  /\ Forall (fun n => (1 <= n)%Z) (group_counts stats)
  /\ distinct_keys (map fst stats)
  /\ Forall (fun k => exists r, In r results /\ k = dimension_value dimension r)
            (map fst stats).

(** The message of the error marker for an input without valid result. *)
Definition marker_message (results : list dict) : string :=
  match results with
  | [] => "No results to aggregate"
  | _ => "No valid results to aggregate"
  end.

(** The summary of the report computed from the valid results alone. *)
Definition without_failures (s : Summary) : Summary :=
  {| total_simulations := successful_simulations s;
     successful_simulations := successful_simulations s;
     failed_simulations := 0;
     goal_met_rate := goal_met_rate s;
     giving_up_rate := giving_up_rate s;
     avg_conversation_turns := avg_conversation_turns s |}.

(** A collected score that is an integer between 0 and 5. *)
Definition on_scale (v : pyval) : Prop :=
  exists n, v = PInt n /\ (0 <= n <= 5)%Z.

(** What holds of [category_scores] after the results [seen]. *)
Definition collected (seen : list dict)
    (category_scores : list (string * list pyval)) : Prop :=
  NoDup (map fst category_scores)
  /\ incl (map fst category_scores) failure_categories
  /\ Forall (fun c => exists r, In r seen
                                /\ py_in c (evaluation_of r) = Ok true)
            (map fst category_scores).

(** Every category collected has at least one score, all on the scale. *)
Definition scored (category_scores : list (string * list pyval)) : Prop :=
  Forall (fun e => snd e <> [] /\ Forall on_scale (snd e)) category_scores.

(** The state of the loop before a reply of the agent: the history is
    one the agent passes on whole, it ends with a user message, and at
    turn 0 this message is the opening one. *)
Definition before_reply (initial_message : string) (st : LoopState) : Prop :=
  (0 <= turns st)%Z
  /\ Agents.request_messages (conversation_history st) = conversation_history st
  /\ (exists earlier text,
        conversation_history st = (earlier ++ [user_message text])%list)
  /\ (turns st = 0%Z ->
      last_content (conversation_history st) = initial_message).

(** The same services with another simulated user. *)
Definition with_user (env : Env)
    (g : dict -> pyval -> list Message -> string -> UserReply.t) : Env :=
  {| generate_initial_message := generate_initial_message env;
     respond := respond env;
     generate_response := g;
     judge_create := judge_create env;
     time_time := time_time env |}.

(** The same services with another support agent. *)
Definition with_support (env : Env)
    (r : list Message -> string -> dict -> SupportReply.t) : Env :=
  {| generate_initial_message := generate_initial_message env;
     respond := r;
     generate_response := generate_response env;
     judge_create := judge_create env;
     time_time := time_time env |}.

(** A request that ends with the same user message twice. *)
Definition repeats_last (messages : list Message) : Prop :=
  exists earlier text,
    messages = (earlier ++ [user_message text; user_message text])%list.

(** A message the drivers of [env] produced: the opening message, a
    reply of the agent, or a reply of the simulated user. *)
Definition driver_output (env : Env) (scenario personality : dict)
    (goal : pyval) (m : Message) : Prop :=
  m = user_message (generate_initial_message env personality scenario)
  \/ (exists h u,
        m = assistant_message
              (SupportReply.response (respond env h u personality)))
  \/ (exists h a,
        m = user_message
              (UserReply.message (generate_response env personality goal h a))).

Definition apology (e : exn) : string :=
  "I apologize, but I'm experiencing technical difficulties. Error: "
    ++ str_of_exn e.

(** An entry of an evaluation under [category] whose score is an integer
    between 0 and 5. *)
Definition score_in_range (evaluation : dict) (category : string) : bool :=
  match dict_get evaluation category with
  | None => true
  | Some (PDict entry) =>
      match dict_get_default entry "score" (PInt 0) with
      | PInt n => (0 <=? n)%Z && (n <=? 5)%Z
      | _ => false
      end
  | Some _ => false
  end.

Definition scores_in_range (r : dict) : bool :=
  match evaluation_of r with
  | PDict evaluation => forallb (score_in_range evaluation) failure_categories
  | _ => false
  end.

(** The value an entry of a catalog has under ["id"]. *)
Definition id_value (entry : dict) : pyval := dict_get_default entry "id" PNone.

(** What every scenario of the catalog is: a non-empty dict with a goal
    and an id; and every personality: a non-empty dict with an id. *)
Definition scenario_ok (s : dict) : bool :=
  truthy (PDict s) && dict_has s "goal" && dict_has s "id".

Definition personality_ok (p : dict) : bool :=
  truthy (PDict p) && dict_has p "id".

(** The entries of a catalog whose id is among [wanted]. *)
Definition wanted_entries (catalog : list dict) (wanted : list string)
  : list dict :=
  filter (fun entry => existsb (py_eqb_str (id_value entry)) wanted) catalog.



(** [str(e)] of the [TypeError] that [v["meta"] = ...] raises when [v] is
    not a mapping. *)
Definition not_assignable (v : pyval) : string :=
  match v with
  | PList _ => "list indices must be integers or slices, not str"
  | _ => "'" ++ type_name v ++ "' object does not support item assignment"
  end.

(** The text of the ids of a catalog. *)
Definition id_of (entry : dict) : string :=
  match dict_get entry "id" with
  | Some (PStr s) => s
  | _ => ""
  end.

(** ** Inputs for the examples *)

(** A remote model that is down. *)
Definition user_api_down : dict -> pyval -> list Message -> res ApiReply :=
  fun _ _ _ => Err (Raise APIError "Connection error.").

Definition support_api_down : list Message -> res ApiReply :=
  fun _ => Err (Raise APIError "Connection error.").

Definition canned_reply : ApiReply :=
  {| reply_text := "Let me check on that for you.";
     input_tokens := 12; output_tokens := 8 |}.

(** A remote model that answers every request ... *)
Definition support_api_up : list Message -> res ApiReply :=
  fun _ => Ok canned_reply.

Definition same_message (a b : Message) : bool :=
  String.eqb (role a) (role b) && String.eqb (content a) (content b).

(** ... and one that answers only the requests whose last two messages
    are the same. *)
Definition support_api_picky : list Message -> res ApiReply :=
  fun messages =>
    match rev messages with
    | a :: b :: _ =>
        if same_message a b then Ok canned_reply
        else Err (Raise APIError "Bad request.")
    | _ => Err (Raise APIError "Bad request.")
    end.

(** The two agents of the repository, both with their remote model
    down. *)
Definition offline_env : Env :=
  {| generate_initial_message := fun _ _ => "Where is my order?";
     respond := Agents.respond support_api_down;
     generate_response := Agents.generate_response user_api_down;
     judge_create := Examples.judge_down;
     time_time := 0%Q |}.

(** A judge that scores two categories. *)
Definition scoring_env : Env :=
  {| generate_initial_message := generate_initial_message Examples.quiet_env;
     respond := respond Examples.quiet_env;
     generate_response := generate_response Examples.quiet_env;
     judge_create :=
       Examples.judge_says
         ("{" ++ Examples.dq ++ "technical_failures" ++ Examples.dq
          ++ ": {" ++ Examples.dq ++ "score" ++ Examples.dq ++ ": 3}, "
          ++ Examples.dq ++ "temporal_failures" ++ Examples.dq
          ++ ": {" ++ Examples.dq ++ "score" ++ Examples.dq ++ ": 4}, "
          ++ Examples.dq ++ "primary_failure_mode" ++ Examples.dq ++ ": "
          ++ Examples.dq ++ "slow" ++ Examples.dq ++ "}");
     time_time := 0%Q |}.

(** Three results of the default catalogs, two of them scored. *)
Definition scored_results : list dict :=
  [ Spec.batch_entry Json.loads (fun _ => scoring_env) (fun i => (i, i))
      Config.SCENARIOS Config.PERSONALITIES 0;
    Spec.batch_entry Json.loads (fun _ => scoring_env) (fun i => (i, i))
      Config.SCENARIOS Config.PERSONALITIES 1;
    Spec.batch_entry Json.loads (fun _ => Examples.quiet_env) (fun i => (i, i))
      Config.SCENARIOS Config.PERSONALITIES 0 ].

End Vocabulary.

(* ===================================================================== *)
(** * Facts about strings                                                *)
(* ===================================================================== *)

Module StrFacts.

Lemma index_ge : forall s2 n s1 m, String.index n s1 s2 = Some m -> n <= m.
Proof.
  induction s2 as [|c s2 IH]; intros n s1 m H; simpl in H.
  - destruct n; [|discriminate]. lia.
  - destruct n as [|n].
    + lia.
    + destruct (String.index n s1 s2) as [k|] eqn:E; [|discriminate].
      injection H as <-. apply IH in E. lia.
Qed.

Lemma prefix_length : forall s1 s2,
  prefix s1 s2 = true -> String.length s1 <= String.length s2.
Proof.
  induction s1 as [|a s1 IH]; intros [|b s2] H; simpl in *; try lia; try discriminate.
  destruct (ascii_dec a b); [|discriminate]. apply IH in H. lia.
Qed.

Lemma index_bound : forall s2 n s1 m,
  String.index n s1 s2 = Some m -> m + String.length s1 <= String.length s2.
Proof.
  induction s2 as [|c s2 IH]; intros n s1 m H; cbn -[prefix] in H.
  - destruct n; [|discriminate]. destruct s1; [|discriminate].
    injection H as <-. simpl. lia.
  - destruct n as [|n].
    + destruct (prefix s1 (String c s2)) eqn:P.
      * injection H as <-. apply prefix_length in P. simpl in *. lia.
      * destruct (String.index 0 s1 s2) as [k|] eqn:E; [|discriminate].
        injection H as <-. apply IH in E. simpl. lia.
    + destruct (String.index n s1 s2) as [k|] eqn:E; [|discriminate].
      injection H as <-. apply IH in E. simpl. lia.
Qed.

(** A later occurrence is an occurrence. *)
Lemma index_some_from_zero : forall n s1 s2 m,
  s1 <> "" -> String.index n s1 s2 = Some m -> contains s1 s2 = true.
Proof.
  intros n s1 s2 m Hne H. unfold contains.
  destruct (String.index 0 s1 s2) eqn:E; [reflexivity|].
  exfalso. apply (index_correct3 0 m s1 s2 E Hne); [lia|].
  eapply index_correct1; eauto.
Qed.

Lemma find_index : forall sub s n i,
  String.index n sub s = Some i -> PyStr.find sub s (Z.of_nat n) = Z.of_nat i.
Proof.
  intros sub s n i H. unfold PyStr.find. rewrite Nat2Z.id, H. reflexivity.
Qed.

Lemma slice_substring : forall s (a b : nat),
  a <= b -> b <= String.length s ->
  PyStr.slice s (Z.of_nat a) (Z.of_nat b) =
    if Nat.eqb a b then "" else substring a (b - a) s.
Proof.
  intros s a b Hab Hb. unfold PyStr.slice, PyStr.clamp.
  destruct (Z.of_nat a <? 0)%Z eqn:Ea; [lia|].
  destruct (Z.of_nat b <? 0)%Z eqn:Eb; [lia|].
  rewrite !Z.min_l by lia.
  destruct (Nat.eqb a b) eqn:E.
  - apply Nat.eqb_eq in E. subst.
    destruct (Z.of_nat b <=? Z.of_nat b)%Z eqn:F; [reflexivity|lia].
  - apply Nat.eqb_neq in E.
    destruct (Z.of_nat b <=? Z.of_nat a)%Z eqn:F; [lia|].
    f_equal; lia.
Qed.

Lemma substring_zero : forall s n, substring n 0 s = "".
Proof.
  induction s as [|c s IH]; intros [|n]; simpl; auto.
Qed.

End StrFacts.

(* ===================================================================== *)
(** * The judge: extraction and the shape of what it returns             *)
(* ===================================================================== *)

Module JudgeFacts.

Import LLMJudge.

Lemma dict_get_set_other : forall (d : dict) k k' v,
  String.eqb k k' = false -> dict_get (dict_set d k v) k' = dict_get d k'.
Proof.
  induction d as [|[k0 v0] d IH]; intros k k' v Hne; simpl.
  - rewrite Hne. reflexivity.
  - destruct (String.eqb k0 k) eqn:E; simpl.
    + apply String.eqb_eq in E. subst k0. rewrite Hne. reflexivity.
    + destruct (String.eqb k0 k'); [reflexivity|]. apply IH. exact Hne.
Qed.

Lemma dict_has_set_other : forall (d : dict) k k' v,
  String.eqb k k' = false -> dict_has (dict_set d k v) k' = dict_has d k'.
Proof.
  intros. unfold dict_has. rewrite dict_get_set_other by assumption. reflexivity.
Qed.

(** Adding ["meta"] adds and removes no category. *)
Lemma categories_of_meta : forall (d : dict) v,
  Spec.categories_of (dict_set d "meta" v) = Spec.categories_of d.
Proof.
  intros d v. unfold Spec.categories_of, FAILURE_CATEGORIES.
  cbn [filter]. rewrite !dict_has_set_other by reflexivity. reflexivity.
Qed.

Lemma has_all_categories_of : forall d,
  Spec.has_all_categories d = true <->
  Spec.categories_of d = FAILURE_CATEGORIES.
Proof.
  intros d. unfold Spec.has_all_categories, Spec.categories_of. split.
  - intros H. rewrite forallb_forall in H.
    rewrite forallb_filter_id; [reflexivity|].
    apply forallb_forall. exact H.
  - intros H. apply forallb_forall. intros c Hc.
    rewrite <- H in Hc. apply filter_In in Hc. tauto.
Qed.

(** The two markers, as the code searches them. *)
Lemma fenced_extraction : forall marker response inner,
  marker <> "" ->
  Spec.text_between marker response = Some inner ->
  PyStr.strip
    (PyStr.slice response
       (PyStr.find marker response 0 + Z.of_nat (String.length marker))
       (PyStr.find "```" response
          (PyStr.find marker response 0 + Z.of_nat (String.length marker))))
    = PyStr.strip inner
  /\ contains "```" response = true.
Proof.
  intros marker response inner Hne H. unfold Spec.text_between in H.
  destruct (String.index 0 marker response) as [i|] eqn:Ei; [|discriminate].
  destruct (String.index (i + String.length marker) "```" response)
    as [j|] eqn:Ej; [|discriminate].
  injection H as <-.
  pose proof (StrFacts.index_ge _ _ _ Ej) as Hge.
  pose proof (StrFacts.index_bound _ _ _ Ej) as Hle.
  change 0%Z with (Z.of_nat 0).
  rewrite (StrFacts.find_index _ _ _ Ei), <- Nat2Z.inj_add.
  rewrite (StrFacts.find_index _ _ _ Ej).
  split.
  - rewrite StrFacts.slice_substring by lia.
    destruct (Nat.eqb (i + String.length marker) j) eqn:E; [|reflexivity].
    apply Nat.eqb_eq in E. subst j. rewrite Nat.sub_diag.
    rewrite StrFacts.substring_zero. reflexivity.
  - eapply StrFacts.index_some_from_zero; [discriminate|exact Ej].
Qed.

End JudgeFacts.

Module JudgeTheorems.

Import LLMJudge.

(** C7, as stated, fails: on an empty object fenced on a line of its own
    the text strictly between the label and the closing fence is the
    object with a newline on each side, and the code hands the decoder
    the object alone. *)
Lemma extract_json_not_text_between :
  Spec.extract_as_specified Examples.fenced_empty_object
    = Some (PyStr.nl ++ "{}" ++ PyStr.nl)
  /\ extract_json Examples.fenced_empty_object = "{}"
  /\ Some (extract_json Examples.fenced_empty_object)
       <> Spec.extract_as_specified Examples.fenced_empty_object.
Proof.
  split; [reflexivity|]. split; [reflexivity|]. discriminate.
Qed.

(** C7, amended: the detection order is labelled fence, then any fence,
    then the whole response; for a fence that is closed, the decoder
    receives the text strictly between the opening marker and the next
    fence marker with the white space at both ends removed; a response
    without fence is passed on unchanged. *)
Theorem extract_json_strips_text_between : forall response inner,
  Spec.extract_as_specified response = Some inner ->
  extract_json response =
    if contains "```" response then PyStr.strip inner else response.
Proof.
  intros response inner H.
  unfold Spec.extract_as_specified in H. unfold extract_json.
  destruct (contains "```json" response) eqn:Elabel.
  - apply JudgeFacts.fenced_extraction in H; [|discriminate].
    destruct H as [H Hfence]. rewrite Hfence. exact H.
  - destruct (contains "```" response) eqn:Efence.
    + apply JudgeFacts.fenced_extraction in H; [|discriminate].
      destruct H as [H _]. exact H.
    + reflexivity.
Qed.

Lemma extract_json_strips_text_between_witness :
  extract_json Examples.fenced_empty_object = "{}".
Proof.
  apply (extract_json_strips_text_between Examples.fenced_empty_object
           (inner := PyStr.nl ++ "{}" ++ PyStr.nl)).
  reflexivity.
Defined.

(** C1, as stated, fails: a decoded object without any category is
    returned with its ["meta"] entry, and the fallback report holds one
    category of the twelve. *)
Lemma evaluate_conversation_partial_keys :
  evaluate_conversation Json.loads (Examples.judge_says "{}") [] PNone
    = [("meta", PDict [("model", PStr model); ("tokens_used", PInt 15)])]
  /\ Spec.has_all_categories
       (evaluate_conversation Json.loads (Examples.judge_says "{}") [] PNone)
     = false
  /\ (exists e,
        evaluate_conversation Json.loads (Examples.judge_says "not json") []
          PNone = fallback_evaluation e)
  /\ Spec.has_all_categories
       (evaluate_conversation Json.loads (Examples.judge_says "not json") [] PNone)
     = false.
Proof.
  split; [reflexivity|]. split; [reflexivity|].
  split; [eexists; reflexivity|reflexivity].
Qed.

(** C1, amended: for every raw scorer response the judge returns a
    mapping, and checks no category.  When the call answers and the
    extracted text decodes to a mapping, that mapping is returned with a
    ["meta"] entry added and with exactly the categories the scorer gave.
    In every other case the fallback report of the error is returned:
    the error of the call, the error of the decoding, or the error of
    the ["meta"] assignment on a value that is not a mapping.  The
    fallback report carries [str(e)] under ["error"] and, of the twelve
    categories, only ["technical_failures"], with score 5 and confidence
    0.0. *)
Theorem evaluate_conversation_cases :
  forall (json_loads : string -> res pyval)
         (messages_create : string -> pyval -> res ApiReply)
         (conversation_history : list Message) (user_goal : pyval),
  let call :=
    messages_create (_format_transcript conversation_history) user_goal in
  let meta (response : ApiReply) :=
    PDict [("model", PStr model); ("tokens_used", tokens_used response)] in
  let evaluation :=
    evaluate_conversation json_loads messages_create conversation_history
      user_goal in
  (forall response d,
      call = Ok response ->
      json_loads (extract_json (reply_text response)) = Ok (PDict d) ->
      evaluation = dict_set d "meta" (meta response)
      /\ Spec.categories_of evaluation = Spec.categories_of d)
  /\ (forall e, call = Err e -> evaluation = fallback_evaluation e)
  /\ (forall response e,
        call = Ok response ->
        json_loads (extract_json (reply_text response)) = Err e ->
        evaluation = fallback_evaluation e)
  /\ (forall response v,
        call = Ok response ->
        json_loads (extract_json (reply_text response)) = Ok v ->
        (forall d, v <> PDict d) ->
        exists e,
          py_setitem v "meta" (meta response) = Err e
          /\ evaluation = fallback_evaluation e)
  /\ (forall e,
        dict_get (fallback_evaluation e) "error" = Some (PStr (str_of_exn e))
        /\ Spec.categories_of (fallback_evaluation e) = ["technical_failures"]
        /\ dict_get (fallback_evaluation e) "technical_failures"
             = Some (PDict [("score", PInt 5);
                            ("justification", PStr "Judge failed to evaluate");
                            ("confidence", PFloat 0%Q)])
        /\ Spec.has_all_categories (fallback_evaluation e) = false).
Proof.
  intros json_loads messages_create conversation_history user_goal.
  cbn zeta. unfold evaluate_conversation, try_evaluate.
  split; [|split; [|split; [|split]]].
  - intros response d Hcall Hdecode. rewrite Hcall. cbn [bind].
    rewrite Hdecode. cbn [bind py_setitem]. split; [reflexivity|].
    apply JudgeFacts.categories_of_meta.
  - intros e Hcall. rewrite Hcall. reflexivity.
  - intros response e Hcall Hdecode. rewrite Hcall. cbn [bind].
    rewrite Hdecode. reflexivity.
  - intros response v Hcall Hdecode Hv. rewrite Hcall. cbn [bind].
    rewrite Hdecode. cbn [bind].
    destruct v; try (eexists; split; reflexivity).
    exfalso. apply (Hv d). reflexivity.
  - intros e. repeat split; reflexivity.
Qed.

Lemma evaluate_conversation_cases_witness :
  evaluate_conversation Json.loads (Examples.judge_says "{}") [] PNone
    = [("meta", PDict [("model", PStr model); ("tokens_used", PInt 15)])]
  /\ (exists e,
        Json.loads "not json" = Err e
        /\ evaluate_conversation Json.loads (Examples.judge_says "not json") []
             PNone = fallback_evaluation e)
  /\ evaluate_conversation Json.loads Examples.judge_down [] PNone
     = fallback_evaluation (Raise APIError "Connection error.").
Proof.
  split; [|split].
  - destruct (@evaluate_conversation_cases Json.loads
                (Examples.judge_says "{}") [] PNone) as (H & _).
    destruct (H {| reply_text := "{}"; input_tokens := 10; output_tokens := 5 |}
                [] eq_refl eq_refl) as [H1 _].
    exact H1.
  - destruct (@evaluate_conversation_cases Json.loads
                (Examples.judge_says "not json") [] PNone) as (_ & _ & H & _).
    destruct (Json.loads "not json") as [v|e] eqn:E;
      [vm_compute in E; discriminate E|].
    exists e. split; [reflexivity|].
    apply (H {| reply_text := "not json"; input_tokens := 10;
                output_tokens := 5 |} e eq_refl E).
  - destruct (@evaluate_conversation_cases Json.loads Examples.judge_down []
                PNone) as (_ & H & _).
    apply H. reflexivity.
Defined.

End JudgeTheorems.

(* ===================================================================== *)
(** * The controller: shape of the transcript and turn accounting        *)
(* ===================================================================== *)

Module ControllerFacts.

Import EvaluationOrchestrator.

(** ** Role sequences *)

Lemma exchanges_snoc : forall k,
  Spec.exchanges (S k) = (Spec.exchanges k ++ ["assistant"; "user"])%list.
Proof.
  induction k as [|k IH]; [reflexivity|].
  simpl in *. rewrite <- IH. reflexivity.
Qed.

Lemma opened_snoc : forall k,
  Spec.opened (S k) = (Spec.opened k ++ ["assistant"; "user"])%list.
Proof.
  intros k. unfold Spec.opened. rewrite exchanges_snoc. reflexivity.
Qed.

Lemma length_exchanges : forall k, length (Spec.exchanges k) = 2 * k.
Proof.
  induction k as [|k IH]; simpl; [reflexivity|]. rewrite IH. lia.
Qed.

Lemma count_exchanges : forall k tail,
  count_occ string_dec (Spec.exchanges k ++ tail) "assistant"
    = k + count_occ string_dec tail "assistant".
Proof.
  induction k as [|k IH]; intros tail; [reflexivity|].
  cbn [Spec.exchanges app].
  rewrite count_occ_cons_eq by reflexivity.
  rewrite count_occ_cons_neq by discriminate.
  rewrite IH. reflexivity.
Qed.

Lemma alternating_exchanges : forall k tail,
  Spec.alternating ("user" :: tail) ->
  Spec.alternating ("user" :: Spec.exchanges k ++ tail).
Proof.
  induction k as [|k IH]; intros tail H; [exact H|].
  cbn [Spec.exchanges app]. cbn [Spec.alternating].
  split; [discriminate|]. split; [discriminate|].
  apply IH. exact H.
Qed.

Section Loop.

Variable env : Env.
Variable personality : dict.
Variable goal : pyval.
Variable initial_message : string.
Variable max_turns : Z.

Local Abbreviation loop := (conversation_loop env personality goal initial_message max_turns).
Local Abbreviation test := (loop_test max_turns).
Local Abbreviation agent := (agent_turn env personality initial_message).
Local Abbreviation user := (user_turn env personality goal initial_message).

Lemma loop_exit : forall st, test st = false -> loop st = st.
Proof.
  intros st H. funelim (loop st); congruence.
Qed.

Lemma roles_agent : forall st,
  Spec.roles (conversation_history (agent st))
    = (Spec.roles (conversation_history st) ++ ["assistant"])%list.
Proof.
  intros st. unfold Spec.roles. simpl. rewrite map_app. reflexivity.
Qed.

Lemma roles_user : forall st,
  Spec.roles (conversation_history (user st))
    = (Spec.roles (conversation_history st) ++ ["assistant"; "user"])%list.
Proof.
  intros st. unfold Spec.roles. simpl. rewrite !map_app, <- app_assoc.
  reflexivity.
Qed.

(** Where the loop stops, from a state with no flag raised. *)
Lemma loop_final : forall st k,
  Invariants.after_exchanges st k ->
  (Z.of_nat k < max_turns)%Z ->
  goal_met st = false -> giving_up st = false ->
  exists k',
    k <= k' /\ (Z.of_nat k' < max_turns)%Z
    /\ turns (loop st) = Z.of_nat k'
    /\ ((goal_met (loop st) || giving_up (loop st) = true
         /\ k < k'
         /\ Spec.roles (conversation_history (loop st)) = Spec.opened k'
         /\ exists s, loop st = user s)
        \/ (goal_met (loop st) = false /\ giving_up (loop st) = false
            /\ Z.of_nat k' = (max_turns - 1)%Z
            /\ Spec.roles (conversation_history (loop st))
                 = (Spec.opened k' ++ ["assistant"])%list)).
Proof.
  intros st. funelim (loop st); intros k [Hturns Hroles] Hk Hg Hu.
  - (* the test of the while fails: impossible without a flag *)
    exfalso. pose proof Htest as Ht. unfold loop_test in Ht.
    rewrite Hg, Hu, Hturns in Ht. simpl in Ht. lia.
  - (* last turn: the reply is appended and the loop is left *)
    exists k. split; [lia|]. split; [exact Hk|]. split; [exact Hturns|].
    right. split; [exact Hg|]. split; [exact Hu|]. split.
    + pose proof Hlast as Hl. rewrite Hturns in Hl. lia.
    + rewrite roles_agent, Hroles. reflexivity.
  - (* a user turn follows *)
    assert (Hnext : Invariants.after_exchanges (user st) (S k)).
    { split.
      - simpl. rewrite Hturns. lia.
      - rewrite roles_user, Hroles, opened_snoc. reflexivity. }
    assert (Hk' : (Z.of_nat (S k) < max_turns)%Z).
    { pose proof Hlast as Hl. rewrite Hturns in Hl. lia. }
    destruct (goal_met (user st) || giving_up (user st)) eqn:Hflags.
    + (* a flag is raised: the loop stops on this user message *)
      assert (Hstop : loop (user st) = user st).
      { apply loop_exit. unfold loop_test.
        destruct (goal_met (user st)), (giving_up (user st));
          simpl in *; try discriminate; rewrite ?andb_false_r; reflexivity. }
      rewrite Hstop. exists (S k).
      split; [lia|]. split; [exact Hk'|]. split; [apply Hnext|].
      left. split; [exact Hflags|]. split; [lia|].
      split; [apply Hnext|]. exists st. reflexivity.
    + apply orb_false_elim in Hflags. destruct Hflags as [Hg' Hu'].
      destruct (H (S k) Hnext Hk' Hg' Hu') as (k' & Hle & Hlt & Ht & Hcases).
      exists k'. split; [lia|]. split; [exact Hlt|]. split; [exact Ht|].
      destruct Hcases as [(Hf & Hkk & Hr & Hs)|Hlimit].
      * left. split; [exact Hf|]. split; [lia|]. split; [exact Hr|exact Hs].
      * right. exact Hlimit.
Qed.

End Loop.

(** ** From the loop to the run result *)

Lemma message_of_dict : forall m, Spec.message_of (message_dict m) = m.
Proof. intros [r c]. reflexivity. Qed.

Lemma transcript_of_dicts : forall h, map Spec.message_of (map message_dict h) = h.
Proof.
  induction h as [|m h IH]; cbn [map]; [reflexivity|].
  rewrite message_of_dict. f_equal. exact IH.
Qed.

Lemma dict_has_get : forall (d : dict) k,
  dict_has d k = true -> exists v, dict_get d k = Some v.
Proof.
  intros d k H. unfold dict_has in H.
  destruct (dict_get d k) as [v|]; [eauto|discriminate].
Qed.

Section Run.

Variable json_loads : string -> res pyval.
Variable env : Env.
Variable scenario personality : dict.

(** With the three keys present the controller returns its result, whose
    entries are those of the final state of the loop. *)
Lemma run_single_conversation_returns : forall max_turns,
  Spec.has_keys scenario personality = true ->
  exists goal r,
    dict_get scenario "goal" = Some goal
    /\ run_single_conversation json_loads env scenario personality max_turns
         = Ok r
    /\ let st := conversation env personality goal
                   (generate_initial_message env personality scenario)
                   (or_default max_turns self_max_turns) in
       Spec.transcript_of r = conversation_history st
       /\ dict_get r "turns" = Some (PInt (turns st))
       /\ dict_get r "goal_met" = Some (PBool (goal_met st))
       /\ dict_get r "giving_up" = Some (PBool (giving_up st))
       /\ dict_has r "error" = false.
Proof.
  intros max_turns Hkeys. unfold Spec.has_keys in Hkeys.
  apply andb_prop in Hkeys. destruct Hkeys as [Hkeys Hpid].
  apply andb_prop in Hkeys. destruct Hkeys as [Hgoal Hsid].
  apply dict_has_get in Hgoal, Hsid, Hpid.
  destruct Hgoal as [goal Hgoal], Hsid as [sid Hsid], Hpid as [pid Hpid].
  exists goal. eexists. split; [exact Hgoal|].
  unfold run_single_conversation, dict_getitem.
  rewrite Hgoal, Hsid, Hpid. cbn [bind].
  split; [reflexivity|].
  unfold Spec.transcript_of. cbn [dict_get String.eqb Ascii.eqb Bool.eqb].
  rewrite transcript_of_dicts.
  repeat split; reflexivity.
Qed.

(** The outcome of a run with an explicit budget of at least one. *)
Lemma run_outcome : forall B,
  (1 <= B)%Z ->
  Spec.has_keys scenario personality = true ->
  exists goal r (k : nat) g u,
    dict_get scenario "goal" = Some goal
    /\ run_single_conversation json_loads env scenario personality (Some B)
         = Ok r
    /\ dict_get r "turns" = Some (PInt (Z.of_nat k))
    /\ dict_get r "goal_met" = Some (PBool g)
    /\ dict_get r "giving_up" = Some (PBool u)
    /\ (Z.of_nat k < B)%Z
    /\ ((g || u = true
         /\ 0 < k
         /\ Spec.roles (Spec.transcript_of r) = Spec.opened k
         /\ exists h a,
              let reply := generate_response env personality goal h a in
              Spec.transcript_of r
                = (h ++ [user_message (UserReply.message reply)])%list
              /\ g = UserReply.goal_met reply
              /\ u = UserReply.giving_up reply)
        \/ (g = false /\ u = false
            /\ Z.of_nat k = (B - 1)%Z
            /\ Spec.roles (Spec.transcript_of r)
                 = (Spec.opened k ++ ["assistant"])%list)).
Proof.
  intros B HB Hkeys.
  destruct (run_single_conversation_returns (Some B) Hkeys)
    as (goal & r & Hgoal & Hrun & Hh & Ht & Hg & Hu & _).
  assert (Hbudget : or_default (Some B) self_max_turns = B).
  { unfold or_default. destruct (B =? 0)%Z eqn:E; [lia|reflexivity]. }
  rewrite Hbudget in Hh, Ht, Hg, Hu.
  unfold conversation in Hh, Ht, Hg, Hu.
  set (init := {| conversation_history :=
                    [user_message (generate_initial_message env personality scenario)];
                  turns := 0; goal_met := false; giving_up := false |}) in *.
  destruct (@loop_final env personality goal
              (generate_initial_message env personality scenario) B init 0)
    as (k & _ & Hlt & Hturns & Hcases); try reflexivity; try lia.
  { split; reflexivity. }
  exists goal, r, k. do 2 eexists.
  split; [exact Hgoal|]. split; [exact Hrun|].
  rewrite Hturns in Ht. split; [exact Ht|].
  split; [exact Hg|]. split; [exact Hu|]. split; [exact Hlt|].
  rewrite Hh.
  destruct Hcases as [(Hf & Hk & Hr & s & Hs)|(Hg' & Hu' & Hk & Hr)].
  - left. split; [exact Hf|]. split; [exact Hk|]. split; [exact Hr|].
    rewrite Hs. eexists. eexists. cbn zeta.
    split; [reflexivity|]. split; reflexivity.
  - right. split; [exact Hg'|]. split; [exact Hu'|]. split; [exact Hk|exact Hr].
Qed.

End Run.

(** ** Counting on role sequences *)

Lemma agent_messages_opened : forall h k,
  Spec.roles h = Spec.opened k -> Spec.agent_messages h = k.
Proof.
  intros h k H. unfold Spec.agent_messages. rewrite H. unfold Spec.opened.
  rewrite count_occ_cons_neq by discriminate.
  rewrite <- (app_nil_r (Spec.exchanges k)), count_exchanges. simpl. lia.
Qed.

Lemma agent_messages_opened_reply : forall h k,
  Spec.roles h = (Spec.opened k ++ ["assistant"])%list ->
  Spec.agent_messages h = S k.
Proof.
  intros h k H. unfold Spec.agent_messages. rewrite H. unfold Spec.opened.
  cbn [app]. rewrite count_occ_cons_neq by discriminate.
  rewrite count_exchanges. simpl. lia.
Qed.

Lemma length_roles : forall h, length h = length (Spec.roles h).
Proof. intros h. unfold Spec.roles. rewrite length_map. reflexivity. Qed.

Lemma length_opened : forall k, length (Spec.opened k) = 2 * k + 1.
Proof. intros k. unfold Spec.opened. simpl. rewrite length_exchanges. lia. Qed.

Lemma alternating_opened : forall k, Spec.alternating (Spec.opened k).
Proof.
  intros k. unfold Spec.opened.
  rewrite <- (app_nil_r (Spec.exchanges k)).
  apply alternating_exchanges. exact I.
Qed.

Lemma alternating_opened_reply : forall k,
  Spec.alternating (Spec.opened k ++ ["assistant"]).
Proof.
  intros k. unfold Spec.opened. cbn [app].
  apply alternating_exchanges. simpl. split; [discriminate|exact I].
Qed.

Lemma opened_ends_with_user : forall k,
  exists before, Spec.opened k = (before ++ ["user"])%list.
Proof.
  intros [|k].
  - exists []. reflexivity.
  - rewrite opened_snoc. exists (Spec.opened k ++ ["assistant"])%list.
    rewrite <- app_assoc. reflexivity.
Qed.

End ControllerFacts.

Module ControllerTheorems.

Import EvaluationOrchestrator.

Lemma flag_of_bool : forall (r : dict) k b,
  dict_get r k = Some (PBool b) -> Spec.flag_of r k = b.
Proof.
  intros r k b H. unfold Spec.flag_of, dict_get_default. rewrite H. reflexivity.
Qed.

(** C3: for every budget [B >= 1] and every behaviour of the two drivers,
    the completed conversation has at most [B] agent messages, begins
    with a user message, and no two consecutive messages have the same
    role. *)
Theorem transcript_well_formed :
  forall (json_loads : string -> res pyval) (env : Env)
         (scenario personality : dict) (B : Z),
  (1 <= B)%Z ->
  Spec.has_keys scenario personality = true ->
  exists r,
    run_single_conversation json_loads env scenario personality (Some B) = Ok r
    /\ (Z.of_nat (Spec.agent_messages (Spec.transcript_of r)) <= B)%Z
    /\ Spec.begins_with_user (Spec.transcript_of r)
    /\ Spec.alternates (Spec.transcript_of r).
Proof.
  intros json_loads env scenario personality B HB Hkeys.
  destruct (@ControllerFacts.run_outcome json_loads env scenario personality _ HB Hkeys)
    as (goal & r & k & g & u & _ & Hrun & _ & _ & _ & Hk & Hcases).
  exists r. split; [exact Hrun|].
  unfold Spec.begins_with_user, Spec.alternates.
  destruct Hcases as [(_ & _ & Hr & _)|(_ & _ & _ & Hr)].
  - rewrite (ControllerFacts.agent_messages_opened _ Hr), Hr.
    split; [lia|]. split; [reflexivity|].
    apply ControllerFacts.alternating_opened.
  - rewrite (ControllerFacts.agent_messages_opened_reply _ Hr), Hr.
    split; [lia|]. split; [reflexivity|].
    apply ControllerFacts.alternating_opened_reply.
Qed.

Lemma transcript_well_formed_witness :
  exists r,
    run_single_conversation Json.loads Examples.quiet_env Examples.order_delay
      Examples.frustrated_impatient (Some 5%Z) = Ok r
    /\ (Z.of_nat (Spec.agent_messages (Spec.transcript_of r)) <= 5)%Z
    /\ Spec.begins_with_user (Spec.transcript_of r)
    /\ Spec.alternates (Spec.transcript_of r).
Proof.
  apply (@transcript_well_formed Json.loads Examples.quiet_env
           Examples.order_delay Examples.frustrated_impatient 5%Z).
  - lia.
  - reflexivity.
Defined.

(** C4, as stated, fails: with budget 5 and drivers that never signal,
    the run ends by the turn limit on a transcript of 10 messages, which
    is neither odd nor at most 9. *)
Lemma budget_five_turn_limit_has_ten_messages :
  exists r,
    run_single_conversation Json.loads Examples.quiet_env Examples.order_delay
      Examples.frustrated_impatient (Some 5%Z) = Ok r
    /\ Spec.holds r Spec.TURN_LIMIT_REACHED = true
    /\ length (Spec.transcript_of r) = 10
    /\ Nat.odd (length (Spec.transcript_of r)) = false
    /\ ~ length (Spec.transcript_of r) <= 9.
Proof.
  eexists. split; [vm_compute; reflexivity|].
  split; [reflexivity|]. split; [reflexivity|]. split; [reflexivity|].
  vm_compute. lia.
Qed.

(** C4, amended: with budget 5, a run that ends by the turn limit has a
    transcript of exactly 10 = 2*5 messages (an even number) ending on an
    agent message; a run that ends by goal met or gave up has an odd
    number of messages, at most 9 = 2*5 - 1, ending on a user message. *)
Theorem budget_five_transcript :
  forall (json_loads : string -> res pyval) (env : Env)
         (scenario personality : dict),
  Spec.has_keys scenario personality = true ->
  exists r,
    run_single_conversation json_loads env scenario personality (Some 5%Z)
      = Ok r
    /\ ((Spec.holds r Spec.TURN_LIMIT_REACHED = true
         /\ length (Spec.transcript_of r) = 10
         /\ Spec.ends_with "assistant" (Spec.transcript_of r))
        \/ (Spec.holds r Spec.TURN_LIMIT_REACHED = false
            /\ Nat.odd (length (Spec.transcript_of r)) = true
            /\ length (Spec.transcript_of r) <= 9
            /\ Spec.ends_with "user" (Spec.transcript_of r))).
Proof.
  intros json_loads env scenario personality Hkeys.
  assert (HB : (1 <= 5)%Z) by lia.
  destruct (@ControllerFacts.run_outcome json_loads env scenario personality _ HB Hkeys)
    as (goal & r & k & g & u & _ & Hrun & _ & Hg & Hu & Hk & Hcases).
  exists r. split; [exact Hrun|].
  unfold Spec.holds, Spec.ends_with.
  rewrite (flag_of_bool _ _ Hg), (flag_of_bool _ _ Hu).
  rewrite ControllerFacts.length_roles.
  destruct Hcases as [(Hf & _ & Hr & _)|(-> & -> & Hlast & Hr)].
  - right. rewrite Hr, ControllerFacts.length_opened.
    split.
    { destruct g, u; simpl in *; try reflexivity; discriminate. }
    split.
    { rewrite Nat.add_comm. rewrite Nat.odd_add_mul_2. reflexivity. }
    split; [lia|]. apply ControllerFacts.opened_ends_with_user.
  - left. rewrite Hr, length_app, ControllerFacts.length_opened.
    split; [reflexivity|]. split; [simpl; lia|]. eauto.
Qed.

Lemma budget_five_transcript_witness :
  exists r,
    run_single_conversation Json.loads Examples.torn_env Examples.order_delay
      Examples.frustrated_impatient (Some 5%Z) = Ok r
    /\ ((Spec.holds r Spec.TURN_LIMIT_REACHED = true
         /\ length (Spec.transcript_of r) = 10
         /\ Spec.ends_with "assistant" (Spec.transcript_of r))
        \/ (Spec.holds r Spec.TURN_LIMIT_REACHED = false
            /\ Nat.odd (length (Spec.transcript_of r)) = true
            /\ length (Spec.transcript_of r) <= 9
            /\ Spec.ends_with "user" (Spec.transcript_of r))).
Proof.
  apply (@budget_five_transcript Json.loads Examples.torn_env
           Examples.order_delay Examples.frustrated_impatient).
  reflexivity.
Defined.

(** C5 at budget 1 (this half of the claim holds): the opening user
    message and exactly one agent reply. *)
Lemma budget_one_single_reply :
  forall (json_loads : string -> res pyval) (env : Env)
         (scenario personality : dict),
  Spec.has_keys scenario personality = true ->
  exists r,
    run_single_conversation json_loads env scenario personality (Some 1%Z)
      = Ok r
    /\ Spec.roles (Spec.transcript_of r) = ["user"; "assistant"].
Proof.
  intros json_loads env scenario personality Hkeys.
  assert (HB : (1 <= 1)%Z) by lia.
  destruct (@ControllerFacts.run_outcome json_loads env scenario personality _ HB Hkeys)
    as (goal & r & k & g & u & _ & Hrun & _ & _ & _ & Hk & Hcases).
  exists r. split; [exact Hrun|].
  destruct Hcases as [(_ & Hpos & _)|(_ & _ & Hlast & Hr)]; [lia|].
  assert (k = 0) by lia. subst k. exact Hr.
Qed.

(** C5 at budget 0: the code replaces the budget by the default of 10
    before the loop starts, so the run is the run of budget 10; with
    drivers that never signal it holds 10 agent replies, where the loop
    itself, started with budget 0, would have appended none. *)
Theorem budget_zero_runs_default_budget :
  (forall (json_loads : string -> res pyval) (env : Env)
          (scenario personality : dict),
      run_single_conversation json_loads env scenario personality (Some 0%Z)
        = run_single_conversation json_loads env scenario personality
            (Some 10%Z))
  /\ (exists r,
        run_single_conversation Json.loads Examples.quiet_env
          Examples.order_delay Examples.frustrated_impatient (Some 0%Z) = Ok r
        /\ Spec.agent_messages (Spec.transcript_of r) = 10
        /\ length (Spec.transcript_of r) = 20)
  /\ (forall env personality goal initial_message,
        conversation_history
          (conversation env personality goal initial_message 0%Z)
          = [user_message initial_message]).
Proof.
  split; [reflexivity|]. split.
  - eexists. split; [vm_compute; reflexivity|]. split; reflexivity.
  - intros env personality goal initial_message. unfold conversation.
    rewrite ControllerFacts.loop_exit; reflexivity.
Qed.

(** C6, as stated, fails: when the simulated user writes both markers
    the result carries both flags, so two termination states hold. *)
Lemma both_flags_recorded :
  exists r,
    run_single_conversation Json.loads Examples.torn_env Examples.order_delay
      Examples.frustrated_impatient (Some 5%Z) = Ok r
    /\ dict_get r "goal_met" = Some (PBool true)
    /\ dict_get r "giving_up" = Some (PBool true)
    /\ Spec.states_holding r = [Spec.GOAL_MET; Spec.GAVE_UP].
Proof.
  eexists. split; [vm_compute; reflexivity|]. repeat split; reflexivity.
Qed.

(** C6, amended: the controller applies no precedence.  For a budget
    [B >= 1] the run either ends by the turn limit, with neither flag
    set, or ends on a user message whose two flags, at least one of them
    true, are copied into the result exactly as the driver returned
    them; when the driver returns both true, both are recorded and both
    GOAL_MET and GAVE_UP hold. *)
Theorem flags_recorded_verbatim :
  forall (json_loads : string -> res pyval) (env : Env)
         (scenario personality : dict) (B : Z),
  (1 <= B)%Z ->
  Spec.has_keys scenario personality = true ->
  exists goal r,
    dict_get scenario "goal" = Some goal
    /\ run_single_conversation json_loads env scenario personality (Some B)
         = Ok r
    /\ (Spec.states_holding r = [Spec.TURN_LIMIT_REACHED]
        \/ exists h a,
             let reply := generate_response env personality goal h a in
             Spec.transcript_of r
               = (h ++ [user_message (UserReply.message reply)])%list
             /\ dict_get r "goal_met"
                  = Some (PBool (UserReply.goal_met reply))
             /\ dict_get r "giving_up"
                  = Some (PBool (UserReply.giving_up reply))
             /\ UserReply.goal_met reply || UserReply.giving_up reply = true
             /\ Spec.states_holding r
                  = ((if UserReply.goal_met reply then [Spec.GOAL_MET] else [])
                     ++ (if UserReply.giving_up reply then [Spec.GAVE_UP]
                         else []))%list).
Proof.
  intros json_loads env scenario personality B HB Hkeys.
  destruct (@ControllerFacts.run_outcome json_loads env scenario personality _ HB Hkeys)
    as (goal & r & k & g & u & Hgoal & Hrun & _ & Hg & Hu & Hk & Hcases).
  exists goal, r. split; [exact Hgoal|]. split; [exact Hrun|].
  assert (Hstates : Spec.states_holding r
            = ((if g then [Spec.GOAL_MET] else [])
               ++ (if u then [Spec.GAVE_UP] else [])
               ++ (if negb g && negb u then [Spec.TURN_LIMIT_REACHED] else []))%list).
  { unfold Spec.states_holding, Spec.holds. cbn [filter].
    rewrite (flag_of_bool _ _ Hg), (flag_of_bool _ _ Hu).
    destruct g, u; reflexivity. }
  destruct Hcases as [(Hf & _ & _ & h & a & Hh & Hg' & Hu')|(-> & -> & _)].
  - right. exists h, a. cbn zeta in *. subst g u.
    split; [exact Hh|]. split; [exact Hg|]. split; [exact Hu|].
    split; [exact Hf|]. rewrite Hstates.
    destruct (UserReply.goal_met _), (UserReply.giving_up _);
      try reflexivity; discriminate.
  - left. rewrite Hstates. reflexivity.
Qed.

Lemma flags_recorded_verbatim_witness :
  exists goal r,
    dict_get Examples.order_delay "goal" = Some goal
    /\ run_single_conversation Json.loads Examples.torn_env
         Examples.order_delay Examples.frustrated_impatient (Some 5%Z) = Ok r
    /\ (Spec.states_holding r = [Spec.TURN_LIMIT_REACHED]
        \/ exists h a,
             let reply :=
               generate_response Examples.torn_env
                 Examples.frustrated_impatient goal h a in
             Spec.transcript_of r
               = (h ++ [user_message (UserReply.message reply)])%list
             /\ dict_get r "goal_met"
                  = Some (PBool (UserReply.goal_met reply))
             /\ dict_get r "giving_up"
                  = Some (PBool (UserReply.giving_up reply))
             /\ UserReply.goal_met reply || UserReply.giving_up reply = true
             /\ Spec.states_holding r
                  = ((if UserReply.goal_met reply then [Spec.GOAL_MET] else [])
                     ++ (if UserReply.giving_up reply then [Spec.GAVE_UP]
                         else []))%list).
Proof.
  apply (@flags_recorded_verbatim Json.loads Examples.torn_env
           Examples.order_delay Examples.frustrated_impatient 5%Z).
  - lia.
  - reflexivity.
Defined.

(** C10: for every explicit budget [B >= 1] the [turns] entry of the
    result is at most [B - 1]; in a run ended by the turn limit it is
    exactly [B - 1] while the transcript holds [B] agent messages, so it
    differs from the number of agent messages. *)
Theorem turns_below_budget :
  forall (json_loads : string -> res pyval) (env : Env)
         (scenario personality : dict) (B : Z),
  (1 <= B)%Z ->
  Spec.has_keys scenario personality = true ->
  exists r t,
    run_single_conversation json_loads env scenario personality (Some B) = Ok r
    /\ dict_get r "turns" = Some (PInt t)
    /\ (0 <= t <= B - 1)%Z
    /\ (Spec.holds r Spec.TURN_LIMIT_REACHED = true ->
        t = (B - 1)%Z
        /\ Z.of_nat (Spec.agent_messages (Spec.transcript_of r)) = B
        /\ t <> Z.of_nat (Spec.agent_messages (Spec.transcript_of r))).
Proof.
  intros json_loads env scenario personality B HB Hkeys.
  destruct (@ControllerFacts.run_outcome json_loads env scenario personality _ HB Hkeys)
    as (goal & r & k & g & u & _ & Hrun & Ht & Hg & Hu & Hk & Hcases).
  exists r, (Z.of_nat k). split; [exact Hrun|]. split; [exact Ht|].
  split; [lia|].
  unfold Spec.holds. rewrite (flag_of_bool _ _ Hg), (flag_of_bool _ _ Hu).
  intros Hlimit.
  destruct Hcases as [(Hf & _)|(_ & _ & Hlast & Hr)].
  - destruct g, u; discriminate.
  - rewrite (ControllerFacts.agent_messages_opened_reply _ Hr). lia.
Qed.

Lemma turns_below_budget_witness :
  exists r t,
    run_single_conversation Json.loads Examples.quiet_env Examples.order_delay
      Examples.frustrated_impatient (Some 5%Z) = Ok r
    /\ dict_get r "turns" = Some (PInt t)
    /\ (0 <= t <= 5 - 1)%Z
    /\ (Spec.holds r Spec.TURN_LIMIT_REACHED = true ->
        t = (5 - 1)%Z
        /\ Z.of_nat (Spec.agent_messages (Spec.transcript_of r)) = 5%Z
        /\ t <> Z.of_nat (Spec.agent_messages (Spec.transcript_of r))).
Proof.
  apply (@turns_below_budget Json.loads Examples.quiet_env
           Examples.order_delay Examples.frustrated_impatient 5%Z).
  - lia.
  - reflexivity.
Defined.

End ControllerTheorems.

(* ===================================================================== *)
(** * The aggregator                                                     *)
(* ===================================================================== *)

Module ReporterFacts.

Import EvaluationReporter.
Import Invariants.

(** ** The result monad *)

Lemma bind_ok : forall (A B : Type) (c : res A) (k : A -> res B) b,
  bind c k = Ok b -> exists a, c = Ok a /\ k a = Ok b.
Proof.
  intros A B [a|e] k b H; simpl in H; [eauto|discriminate].
Qed.

Ltac bind_inv H :=
  let a := fresh "a" in
  let Ha := fresh "Ha" in
  apply bind_ok in H; destruct H as (a & Ha & H).

(** A monadic fold that starts from an error stays there. *)
Lemma fold_left_err : forall (A B : Type) (f : A -> B -> res A) l e,
  fold_left (fun acc x => bind acc (fun a => f a x)) l (Err e) = Err e.
Proof.
  induction l as [|x l IH]; intros e; simpl; [reflexivity|apply IH].
Qed.

(** An invariant kept by every step is kept by the fold. *)
Lemma fold_left_ok_inv : forall (A B : Type) (f : A -> B -> res A)
    (I : A -> Prop) l a0 a,
  (forall a x a', In x l -> I a -> f a x = Ok a' -> I a') ->
  I a0 ->
  fold_left (fun acc x => bind acc (fun a => f a x)) l (Ok a0) = Ok a ->
  I a.
Proof.
  induction l as [|x l IH]; intros a0 a Hstep H0 H; simpl in H.
  - injection H as <-. exact H0.
  - destruct (f a0 x) as [a1|e] eqn:E.
    + apply (IH a1 a); auto.
      * intros. eapply Hstep; eauto. right. assumption.
      * eapply Hstep; eauto. left. reflexivity.
    + rewrite fold_left_err in H. discriminate.
Qed.

(** A fold whose steps all succeed under the invariant succeeds. *)
Lemma fold_left_total : forall (A B : Type) (f : A -> B -> res A)
    (I : A -> Prop) (P : B -> Prop) l a0,
  (forall a x, P x -> I a -> exists a', f a x = Ok a' /\ I a') ->
  Forall P l -> I a0 ->
  exists a, fold_left (fun acc x => bind acc (fun a => f a x)) l (Ok a0) = Ok a
            /\ I a.
Proof.
  induction l as [|x l IH]; intros a0 Hstep Hl H0; simpl.
  - eauto.
  - inversion Hl as [|? ? Hx Hl']; subst.
    destruct (Hstep a0 x Hx H0) as (a1 & E & H1). rewrite E.
    apply IH; assumption.
Qed.

(** ** Numbers *)

Lemma small_bound_pos : (0 < Spec.small_bound)%Z.
Proof. reflexivity. Qed.

Lemma twelve_small : (12 * Spec.small_bound < float_limit)%Z.
Proof. reflexivity. Qed.

Lemma small_int_bound : forall v,
  Spec.small_int v = true ->
  exists n, as_int v = Some n /\ (Z.abs n <= Spec.small_bound)%Z.
Proof.
  intros v H. unfold Spec.small_int in H.
  destruct (as_int v) as [n|]; [|discriminate].
  exists n. split; [reflexivity|]. apply Z.leb_le. exact H.
Qed.

(** Adding such an integer to a sum of [k] gives a sum of [k + 1]. *)
Lemma py_add_small : forall a b k,
  sum_of_small a k -> Spec.small_int b = true ->
  exists c, py_add a b = Ok c /\ sum_of_small c (k + 1).
Proof.
  intros a b k (n & -> & Hn) Hb.
  destruct (small_int_bound _ Hb) as (m & Hm & Hbound).
  unfold py_add. cbn [as_int]. rewrite Hm.
  eexists. split; [reflexivity|]. exists (n + m)%Z. split; [reflexivity|].
  pose proof (Z.abs_triangle n m). lia.
Qed.

(** Adding a sum of [j] to a sum of [k] gives a sum of [k + j]. *)
Lemma py_add_sums : forall a b k j,
  sum_of_small a k -> sum_of_small b j ->
  exists c, py_add a b = Ok c /\ sum_of_small c (k + j).
Proof.
  intros a b k j (n & -> & Hn) (m & -> & Hm).
  eexists. split; [reflexivity|]. exists (n + m)%Z. split; [reflexivity|].
  pose proof (Z.abs_triangle n m). lia.
Qed.

Lemma py_sum_from : forall l n k,
  (Z.abs n <= Spec.small_bound * k)%Z ->
  Forall (fun v => Spec.small_int v = true) l ->
  exists c,
    fold_left (fun acc x => bind acc (fun a => py_add a x)) l (Ok (PInt n))
      = Ok c
    /\ sum_of_small c (k + len l).
Proof.
  induction l as [|v l IH]; intros n k Hn Hl.
  - eexists. split; [reflexivity|]. exists n. split; [reflexivity|].
    unfold len. cbn [length Z.of_nat]. rewrite Z.add_0_r. exact Hn.
  - inversion Hl as [|? ? Hv Hl']; subst.
    destruct (@py_add_small (PInt n) v k) as (c & Hc & (m & -> & Hm));
      [exists n; auto|exact Hv|].
    cbn [fold_left bind]. rewrite Hc.
    destruct (IH m (k + 1)%Z Hm Hl') as (c' & Hc' & Hsum).
    exists c'. split; [exact Hc'|].
    unfold len in *. cbn [length]. rewrite Nat2Z.inj_succ.
    replace (k + Z.succ (Z.of_nat (length l)))%Z
      with (k + 1 + Z.of_nat (length l))%Z by lia.
    exact Hsum.
Qed.

(** The sum of such integers is the sum of as many as there are. *)
Lemma py_sum_num : forall l,
  Forall (fun v => Spec.small_int v = true) l ->
  exists c, py_sum l = Ok c /\ sum_of_small c (len l).
Proof.
  intros l Hl. unfold py_sum.
  destruct (@py_sum_from l 0 0) as (c & Hc & Hsum);
    [rewrite Z.mul_0_r; reflexivity|exact Hl|].
  exists c. split; [exact Hc|exact Hsum].
Qed.

Lemma inject_Z_pos_nonzero : forall n, (0 < n)%Z -> Qeq_bool (inject_Z n) 0 = false.
Proof.
  intros n Hn. destruct (Qeq_bool (inject_Z n) 0) eqn:E; [|reflexivity].
  apply Qeq_bool_iff in E. unfold Qeq in E. simpl in E. lia.
Qed.

(** A quotient of two ints that fits a float. *)
Lemma py_truediv_fits : forall x n bound,
  (0 < n)%Z -> (Z.abs x <= bound * n)%Z -> (bound < float_limit)%Z ->
  py_truediv (PInt x) (PInt n) = Ok (inject_Z x / inject_Z n)%Q.
Proof.
  intros x n bound Hn Hx Hb. unfold py_truediv. cbn [as_int].
  destruct (n =? 0)%Z eqn:E0; [apply Z.eqb_eq in E0; lia|].
  destruct (float_limit * Z.abs n <=? Z.abs x)%Z eqn:E; [|reflexivity].
  exfalso. apply Z.leb_le in E. rewrite (Z.abs_eq n) in E by lia.
  assert (H1 : (bound * n < float_limit * n)%Z).
  { apply Z.mul_lt_mono_pos_r; assumption. }
  lia.
Qed.

(** The mean of [m] such integers for each of [n > 0] items, [m <= 12]. *)
Lemma py_truediv_num : forall a m n,
  sum_of_small a (m * n) -> (0 <= m <= 12)%Z -> (0 < n)%Z ->
  exists q, py_truediv a (PInt n) = Ok q.
Proof.
  intros a m n (x & -> & Hx) Hm Hn.
  eexists. apply (@py_truediv_fits x n (12 * Spec.small_bound)%Z Hn).
  - pose proof small_bound_pos.
    assert (H1 : (Spec.small_bound * (m * n) <= Spec.small_bound * (12 * n))%Z).
    { apply Z.mul_le_mono_nonneg_l; [lia|].
      apply Z.mul_le_mono_nonneg_r; lia. }
    lia.
  - exact twelve_small.
Qed.

Lemma ratio_in_unit_interval : forall num den,
  (0 <= num <= den)%Z -> Spec.in_unit_interval (ratio_or_zero num den).
Proof.
  intros num den [H0 H1]. unfold ratio_or_zero, Spec.in_unit_interval.
  destruct (den >? 0)%Z eqn:E.
  - assert (Hden : (0 < inject_Z den)%Q).
    { change 0%Q with (inject_Z 0). rewrite <- Zlt_Qlt. lia. }
    split.
    + apply Qle_shift_div_l; [exact Hden|].
      rewrite Qmult_0_l. change 0%Q with (inject_Z 0).
      rewrite <- Zle_Qle. exact H0.
    + apply Qle_shift_div_r; [exact Hden|].
      rewrite Qmult_1_l. rewrite <- Zle_Qle. exact H1.
  - split; [apply Qle_refl|]. unfold Qle. simpl. lia.
Qed.

Lemma len_filter_le : forall (A : Type) (f : A -> bool) (l : list A),
  (0 <= len (filter f l) <= len l)%Z.
Proof.
  intros A f l. unfold len. pose proof (filter_length_le f l). lia.
Qed.

(** ** Scores of a typed evaluation *)

Lemma category_score_typed : forall evaluation category,
  Spec.category_typed evaluation category = true ->
  exists found,
    category_score (PDict evaluation) category = Ok found /\ score_typed found.
Proof.
  intros evaluation category H.
  unfold category_score, Spec.category_typed in *. cbn [py_in bind].
  unfold dict_has. cbn [py_getitem]. unfold dict_getitem.
  destruct (dict_get evaluation category) as [entry|]; cbn [bind].
  - destruct entry; try discriminate. cbn [py_get bind].
    eexists. split; [reflexivity|]. exact H.
  - exists None. split; [reflexivity|exact I].
Qed.

Lemma append_score_typed : forall category_scores category score,
  scores_typed category_scores -> Spec.small_int score = true ->
  scores_typed (append_score category_scores category score).
Proof.
  induction category_scores as [|[c scores] rest IH];
    intros category score Hcs Hs; simpl.
  - repeat constructor. exact Hs.
  - inversion Hcs as [|? ? Hhd Htl]; subst.
    destruct (String.eqb c category).
    + constructor; [|exact Htl]. simpl in *.
      apply Forall_app. split; [exact Hhd|]. repeat constructor. exact Hs.
    + constructor; [exact Hhd|]. apply IH; assumption.
Qed.

Lemma typed_result_parts : forall r,
  Spec.typed_result r = true ->
  Spec.small_int (dict_get_default r "turns" (PInt 0)) = true
  /\ hashable (dict_get_default r "scenario_id" (PStr "unknown")) = true
  /\ hashable (dict_get_default r "personality_id" (PStr "unknown")) = true
  /\ evaluation_typed r.
Proof.
  intros r H. unfold Spec.typed_result in H.
  apply andb_prop in H. destruct H as [H Hev].
  apply andb_prop in H. destruct H as [H Hpid].
  apply andb_prop in H. destruct H as [Hturns Hsid].
  repeat split; try assumption.
  unfold evaluation_typed.
  destruct (evaluation_of r) as [| | | | | |evaluation]; try discriminate.
  apply andb_prop in Hev. destruct Hev as [Hcats Hmode].
  exists evaluation. split; [reflexivity|]. split; [|exact Hmode].
  apply Forall_forall. rewrite forallb_forall in Hcats. exact Hcats.
Qed.

Lemma collect_category_scores_typed : forall valid_results,
  Forall evaluation_typed valid_results ->
  exists category_scores,
    collect_category_scores valid_results = Ok category_scores
    /\ scores_typed category_scores.
Proof.
  intros valid_results Hall. unfold collect_category_scores.
  assert (Hinner : forall r cats cs,
    (exists evaluation, evaluation_of r = PDict evaluation
       /\ Forall (fun c => Spec.category_typed evaluation c = true) cats) ->
    scores_typed cs ->
    exists cs',
      fold_left
        (fun acc' category =>
           bind acc' (fun category_scores =>
           bind (category_score (evaluation_of r) category) (fun found =>
           match found with
           | Some score => Ok (append_score category_scores category score)
           | None => Ok category_scores
           end)))
        cats (Ok cs) = Ok cs'
      /\ scores_typed cs').
  { intros r cats. induction cats as [|c cats IH]; intros cs Hev Hcs; simpl.
    - eauto.
    - destruct Hev as (evaluation & Heq & Hcats).
      inversion Hcats as [|? ? Hc Hcats']; subst.
      rewrite Heq.
      destruct (category_score_typed _ _ Hc) as (found & Hfound & Hty).
      rewrite Hfound. cbn [bind]. rewrite <- Heq.
      destruct found as [score|].
      + apply IH; [eauto|]. apply append_score_typed; assumption.
      + apply IH; [eauto|]. assumption. }
  remember failure_categories as cats eqn:Hcats.
  assert (Houter : forall rs cs,
    Forall evaluation_typed rs -> scores_typed cs ->
    exists cs',
      fold_left
        (fun acc result =>
           fold_left
             (fun acc' category =>
                bind acc' (fun category_scores =>
                bind (category_score (evaluation_of result) category)
                  (fun found =>
                match found with
                | Some score => Ok (append_score category_scores category score)
                | None => Ok category_scores
                end)))
             cats acc)
        rs (Ok cs) = Ok cs'
      /\ scores_typed cs').
  { induction rs as [|r rs IH]; intros cs Hrs Hcs; cbn [fold_left].
    - eauto.
    - apply Forall_cons_iff in Hrs. destruct Hrs as [Hr Hrs'].
      destruct Hr as (evaluation & Heq & Hty & _).
      destruct (Hinner r cats cs) as (cs1 & E & Hcs1);
        [subst cats; eauto|assumption|].
      rewrite E. apply IH; assumption. }
  apply Houter; [exact Hall|constructor].
Qed.

Lemma average_scores_typed : forall category_scores,
  scores_typed category_scores ->
  exists avgs, average_scores category_scores = Ok avgs.
Proof.
  induction category_scores as [|[c scores] rest IH]; intros H; simpl.
  - eauto.
  - inversion H as [|? ? Hhd Htl]; subst. simpl in Hhd.
    destruct (IH Htl) as (avgs & E). rewrite E.
    destruct scores as [|s scores].
    + cbn [bind]. eauto.
    + destruct (py_sum_num Hhd) as (total & Hsum & Hnum). rewrite Hsum.
      cbn [bind].
      destruct (@py_truediv_num total 1 (len (s :: scores))) as (q & Hq).
      { rewrite Z.mul_1_l. exact Hnum. }
      { lia. }
      { unfold len. simpl. lia. }
      rewrite Hq. cbn [bind]. eauto.
Qed.

Lemma total_score_from : forall evaluation cats total k,
  Forall (fun c => Spec.category_typed evaluation c = true) cats ->
  sum_of_small total k ->
  exists total',
    fold_left
      (fun acc category =>
         bind acc (fun total =>
         bind (category_score (PDict evaluation) category) (fun found =>
         match found with
         | Some score => py_add total score
         | None => Ok total
         end)))
      cats (Ok total) = Ok total'
    /\ sum_of_small total' (k + len cats).
Proof.
  intros evaluation. induction cats as [|c cats IH]; intros total k Hcats Ht.
  - exists total. split; [reflexivity|]. unfold len. simpl.
    rewrite Z.add_0_r. exact Ht.
  - inversion Hcats as [|? ? Hc Hcats']; subst.
    destruct (category_score_typed _ _ Hc) as (found & Hfound & Hty).
    cbn [fold_left bind]. rewrite Hfound. cbn [bind].
    assert (Hlen : (k + len (c :: cats) = k + 1 + len cats)%Z).
    { unfold len. cbn [length]. lia. }
    rewrite Hlen.
    destruct found as [score|].
    + destruct (@py_add_small _ _ _ Ht Hty) as (t & Hadd & Hsum). rewrite Hadd.
      apply IH; assumption.
    + apply IH; [exact Hcats'|].
      destruct Ht as (n & -> & Hn). exists n. split; [reflexivity|].
      pose proof small_bound_pos. nia.
Qed.

(** The total of one evaluation is a sum of at most twelve scores. *)
Lemma total_score_typed : forall evaluation,
  Forall (fun c => Spec.category_typed evaluation c = true) failure_categories ->
  exists total,
    total_score (PDict evaluation) = Ok total /\ sum_of_small total 12.
Proof.
  intros evaluation Hcats. unfold total_score.
  destruct (@total_score_from evaluation failure_categories (PInt 0) 0 Hcats)
    as (total & Htotal & Hsum).
  { exists 0%Z. split; [reflexivity|]. simpl. lia. }
  exists total. split; [exact Htotal|exact Hsum].
Qed.

(** ** Per-dimension data *)

Lemma key_store_forall : forall (V : Type) (P : V -> Prop)
    (data : list (pyval * V)) key v,
  Forall (fun e => P (snd e)) data -> P v ->
  Forall (fun e => P (snd e)) (key_store data key v).
Proof.
  induction data as [|[k v0] data IH]; intros key v Hdata Hv; simpl.
  - repeat constructor. exact Hv.
  - apply Forall_cons_iff in Hdata. destruct Hdata as [Hhd Htl].
    destruct (key_eqb k key); constructor; auto.
Qed.

Lemma key_lookup_forall : forall (V : Type) (P : V -> Prop)
    (data : list (pyval * V)) key v,
  Forall (fun e => P (snd e)) data -> key_lookup data key = Some v -> P v.
Proof.
  induction data as [|[k v0] data IH]; intros key v Hdata H; simpl in H.
  - discriminate.
  - apply Forall_cons_iff in Hdata. destruct Hdata as [Hhd Htl].
    destruct (key_eqb k key).
    + injection H as <-. exact Hhd.
    + eapply IH; eauto.
Qed.

Lemma dimension_step_counts : forall dimension data r data',
  Forall (fun e => counts_ok (snd e)) data ->
  dimension_step dimension data r = Ok data' ->
  Forall (fun e => counts_ok (snd e)) data'.
Proof.
  intros dimension data r data' Hdata H. unfold dimension_step in H.
  bind_inv H. bind_inv H. bind_inv H. bind_inv H. injection H as <-.
  apply key_store_forall; [exact Hdata|].
  assert (Hold : counts_bounded
            match key_lookup data a with
            | Some d => d
            | None => new_dimension_data
            end
          /\ (0 <= DimensionData.count
                     match key_lookup data a with
                     | Some d => d
                     | None => new_dimension_data
                     end)%Z).
  { destruct (key_lookup data a) as [d|] eqn:E.
    - apply (@key_lookup_forall _ counts_ok _ _ _ Hdata) in E.
      destruct E as [Hb Hp]. split; [exact Hb|lia].
    - unfold counts_bounded. simpl. lia. }
  destruct Hold as [[H0 H1] Hc].
  unfold counts_ok, counts_bounded. cbn [DimensionData.count DimensionData.goal_met].
  destruct (truthy _); lia.
Qed.

Lemma dimension_step_typed : forall dimension data r,
  hashable (dict_get_default r dimension (PStr "unknown")) = true ->
  Spec.small_int (dict_get_default r "turns" (PInt 0)) = true ->
  evaluation_typed r ->
  Forall (fun e => sums_num (snd e)) data ->
  exists data',
    dimension_step dimension data r = Ok data'
    /\ Forall (fun e => sums_num (snd e)) data'.
Proof.
  intros dimension data r Hkey Hturns (evaluation & Heq & Hcats & _) Hdata.
  unfold dimension_step, check_hashable. rewrite Hkey. cbn [bind].
  set (key := dict_get_default r dimension (PStr "unknown")).
  assert (Hold : sums_num match key_lookup data key with
                          | Some d => d
                          | None => new_dimension_data
                          end).
  { destruct (key_lookup data key) as [d|] eqn:E.
    - apply (@key_lookup_forall _ sums_num _ _ _ Hdata) in E. exact E.
    - split; [simpl; lia|].
      split; exists 0%Z; (split; [reflexivity|simpl; lia]). }
  destruct Hold as (Hcount & Hsum1 & Hsum2).
  destruct (@py_add_small _ _ _ Hsum1 Hturns) as (t & Ht & Htsum). rewrite Ht.
  cbn [bind]. rewrite Heq.
  destruct (@total_score_typed evaluation Hcats) as (total & Htotal & Hnum).
  rewrite Htotal. cbn [bind].
  destruct (@py_add_sums _ _ _ _ Hsum2 Hnum) as (sc & Hsc & Hscsum). rewrite Hsc.
  cbn [bind]. eexists. split; [reflexivity|].
  apply key_store_forall; [exact Hdata|].
  unfold sums_num.
  cbn [DimensionData.count DimensionData.avg_turns
       DimensionData.avg_total_score].
  split; [lia|]. split; [exact Htsum|].
  match goal with
  | |- sum_of_small _ ?k =>
      replace k with (12 * DimensionData.count
                             match key_lookup data key with
                             | Some d => d
                             | None => new_dimension_data
                             end + 12)%Z by lia
  end.
  exact Hscsum.
Qed.

Lemma dimension_averages_typed : forall data,
  Forall (fun e => sums_num (snd e)) data ->
  exists stats, dimension_averages data = Ok stats.
Proof.
  induction data as [|[key d] data IH]; intros H; simpl.
  - eauto.
  - apply Forall_cons_iff in H. destruct H as [(Hc & Hs1 & Hs2) Htl].
    cbn [snd] in Hc, Hs1, Hs2.
    destruct (IH Htl) as (stats & E). rewrite E.
    unfold dimension_average.
    destruct (DimensionData.count d >? 0)%Z eqn:Ec.
    + destruct (@py_truediv_num (DimensionData.avg_turns d) 1
                  (DimensionData.count d)) as (q1 & E1);
        [rewrite Z.mul_1_l; exact Hs1|lia|lia|].
      destruct (@py_truediv_num (DimensionData.avg_total_score d) 12
                  (DimensionData.count d)) as (q2 & E2);
        [exact Hs2|lia|lia|].
      rewrite E1, E2. cbn [bind]. eauto.
    + cbn [bind]. eauto.
Qed.

Lemma dimension_averages_rates : forall data stats,
  Forall (fun e => counts_ok (snd e)) data ->
  dimension_averages data = Ok stats ->
  Forall rate_in_unit_interval stats.
Proof.
  induction data as [|[key d] data IH]; intros stats Hdata H; simpl in H.
  - injection H as <-. constructor.
  - apply Forall_cons_iff in Hdata. destruct Hdata as [[Hb Hp] Htl].
    bind_inv H. bind_inv H. injection H as <-.
    constructor; [|eapply IH; eauto].
    unfold dimension_average in Ha. bind_inv Ha. bind_inv Ha.
    injection Ha as <-. unfold rate_in_unit_interval. simpl.
    apply ratio_in_unit_interval. exact Hb.
Qed.

Lemma aggregate_by_dimension_rates : forall results dimension stats,
  _aggregate_by_dimension results dimension = Ok stats ->
  Forall rate_in_unit_interval stats.
Proof.
  intros results dimension stats H. unfold _aggregate_by_dimension in H.
  bind_inv H. eapply dimension_averages_rates; [|exact H].
  eapply (@fold_left_ok_inv _ _ (dimension_step dimension)
            (fun data => Forall (fun e => counts_ok (snd e)) data));
    [| |exact Ha].
  - intros data r data' _ Hdata Hstep. eapply dimension_step_counts; eauto.
  - constructor.
Qed.

Lemma aggregate_by_dimension_typed : forall results dimension,
  Forall (fun r =>
            hashable (dict_get_default r dimension (PStr "unknown")) = true
            /\ Spec.small_int (dict_get_default r "turns" (PInt 0)) = true
            /\ evaluation_typed r) results ->
  exists stats, _aggregate_by_dimension results dimension = Ok stats.
Proof.
  intros results dimension Hall. unfold _aggregate_by_dimension.
  destruct (@fold_left_total _ _ (dimension_step dimension)
              (fun data => Forall (fun e => sums_num (snd e)) data)
              (fun r =>
                 hashable (dict_get_default r dimension (PStr "unknown")) = true
                 /\ Spec.small_int (dict_get_default r "turns" (PInt 0)) = true
                 /\ evaluation_typed r)
              results [])
    as (data & E & Hdata).
  - intros data r (Hk & Ht & He) Hd. apply dimension_step_typed; assumption.
  - exact Hall.
  - constructor.
  - rewrite E. cbn [bind]. apply dimension_averages_typed. exact Hdata.
Qed.

Lemma count_failure_modes_typed : forall valid_results,
  Forall evaluation_typed valid_results ->
  exists counts, count_failure_modes valid_results = Ok counts.
Proof.
  intros valid_results Hall. unfold count_failure_modes.
  destruct (@fold_left_total _ _ failure_mode_step (fun _ => True)
              evaluation_typed valid_results [])
    as (counts & E & _).
  - intros counts r (evaluation & Heq & _ & Hmode) _.
    unfold failure_mode_step. rewrite Heq. cbn [py_get bind].
    unfold check_hashable. rewrite Hmode. cbn [bind]. eauto.
  - exact Hall.
  - exact I.
  - eauto.
Qed.

(** ** [aggregate_results] *)

(** What a report says, read back from the code. *)
Lemma aggregate_results_report : forall results s fa sb pb,
  aggregate_results results = Ok (Report s fa sb pb) ->
  let valid_results := valid_results_of results in
  total_simulations s = len results
  /\ successful_simulations s = len valid_results
  /\ failed_simulations s = len (error_results_of results)
  /\ goal_met_rate s
       = ratio_or_zero (count_flag "goal_met" valid_results) (len valid_results)
  /\ giving_up_rate s
       = ratio_or_zero (count_flag "giving_up" valid_results) (len valid_results)
  /\ (exists total q,
        py_sum (map (fun r => dict_get_default r "turns" (PInt 0)) valid_results)
          = Ok total
        /\ py_truediv total (PInt (len valid_results)) = Ok q
        /\ avg_conversation_turns s = py_round2 q)
  /\ _aggregate_by_dimension valid_results "scenario_id" = Ok sb
  /\ _aggregate_by_dimension valid_results "personality_id" = Ok pb.
Proof.
  intros results s fa sb pb H. cbn zeta. unfold aggregate_results in H.
  destruct results as [|r0 results]; [discriminate|].
  set (all := r0 :: results) in *.
  destruct (valid_results_of all) as [|v valid] eqn:Ev; [discriminate|].
  set (valid_results := v :: valid) in *.
  bind_inv H. bind_inv H. bind_inv H. bind_inv H. bind_inv H. bind_inv H.
  injection H as <- <- <- <-. cbn [total_simulations successful_simulations
    failed_simulations goal_met_rate giving_up_rate avg_conversation_turns].
  bind_inv Ha.
  repeat split; try reflexivity; try assumption.
  eauto.
Qed.

(** No exception on typed input. *)
Lemma aggregate_results_typed : forall results,
  Forall (fun r => Spec.typed_result r = true) (valid_results_of results) ->
  exists agg, aggregate_results results = Ok agg.
Proof.
  intros results Hall. unfold aggregate_results.
  destruct results as [|r0 results]; [eauto|].
  set (all := r0 :: results) in *.
  destruct (valid_results_of all) as [|v valid] eqn:Ev; [eauto|].
  set (valid_results := v :: valid) in *.
  assert (Hparts : Forall (fun r =>
            Spec.small_int (dict_get_default r "turns" (PInt 0)) = true
            /\ hashable (dict_get_default r "scenario_id" (PStr "unknown")) = true
            /\ hashable (dict_get_default r "personality_id" (PStr "unknown")) = true
            /\ evaluation_typed r) valid_results).
  { eapply Forall_impl; [|exact Hall]. intros r. apply typed_result_parts. }
  assert (Hturns : Forall (fun v => Spec.small_int v = true)
            (map (fun r => dict_get_default r "turns" (PInt 0)) valid_results)).
  { apply Forall_map. eapply Forall_impl; [|exact Hparts].
    intros r (Ht & _). exact Ht. }
  assert (Hevals : Forall evaluation_typed valid_results).
  { eapply Forall_impl; [|exact Hparts]. intros r (_ & _ & _ & He). exact He. }
  destruct (py_sum_num Hturns) as (total & Hsum & Hnum). rewrite Hsum.
  cbn [bind].
  destruct (@py_truediv_num total 1 (len valid_results)) as (q & Hq).
  { rewrite Z.mul_1_l. unfold len in *. rewrite length_map in Hnum.
    exact Hnum. }
  { lia. }
  { unfold len, valid_results. simpl. lia. }
  rewrite Hq. cbn [bind].
  destruct (collect_category_scores_typed Hevals) as (cs & Hcs & Hty).
  rewrite Hcs. cbn [bind].
  destruct (average_scores_typed Hty) as (avgs & Havgs). rewrite Havgs.
  cbn [bind].
  destruct (@aggregate_by_dimension_typed valid_results "scenario_id")
    as (sb & Hsb).
  { eapply Forall_impl; [|exact Hparts]. intros r (Ht & Hs & _ & He). auto. }
  rewrite Hsb. cbn [bind].
  destruct (@aggregate_by_dimension_typed valid_results "personality_id")
    as (pb & Hpb).
  { eapply Forall_impl; [|exact Hparts]. intros r (Ht & _ & Hp & He). auto. }
  rewrite Hpb. cbn [bind].
  destruct (count_failure_modes_typed Hevals) as (counts & Hcounts).
  rewrite Hcounts. cbn [bind]. eauto.
Qed.

(** ** No division by zero, on any input *)

Lemma nzd_ok : forall (A : Type) (a : A), no_zero_division (Ok a).
Proof. intros A a e H. discriminate H. Qed.

Lemma nzd_bind : forall (A B : Type) (c : res A) (k : A -> res B),
  no_zero_division c -> (forall a, no_zero_division (k a)) ->
  no_zero_division (bind c k).
Proof.
  intros A B [a|e0] k Hc Hk e H; simpl in H.
  - apply (Hk a e H).
  - injection H as <-. apply (Hc e0 eq_refl).
Qed.

Lemma nzd_fold_res : forall (A B : Type) (g : res A -> B -> res A) l init,
  (forall acc x, no_zero_division acc -> no_zero_division (g acc x)) ->
  no_zero_division init ->
  no_zero_division (fold_left g l init).
Proof.
  induction l as [|x l IH]; intros init Hg Hinit; simpl; [exact Hinit|].
  apply IH; [exact Hg|]. apply Hg. exact Hinit.
Qed.

Lemma nzd_fold : forall (A B : Type) (f : A -> B -> res A) l init,
  (forall a x, no_zero_division (f a x)) ->
  no_zero_division init ->
  no_zero_division (fold_left (fun acc x => bind acc (fun a => f a x)) l init).
Proof.
  intros A B f l init Hf Hinit. apply nzd_fold_res; [|exact Hinit].
  intros acc x Hacc. apply nzd_bind; [exact Hacc|]. intros a. apply Hf.
Qed.

Lemma nzd_int_to_float : forall n, no_zero_division (int_to_float n).
Proof.
  intros n e H. unfold int_to_float in H.
  destruct (Z.abs n <? float_limit)%Z; [discriminate|].
  injection H as <-. reflexivity.
Qed.

Lemma nzd_add : forall a b, no_zero_division (py_add a b).
Proof.
  intros a b e H. unfold py_add in H.
  destruct (as_int a) as [x|], (as_int b) as [y|].
  - discriminate.
  - destruct b; try (injection H as <-; reflexivity).
    revert e H. apply nzd_bind; [apply nzd_int_to_float|]. intros f. apply nzd_ok.
  - destruct a; try (injection H as <-; reflexivity).
    revert e H. apply nzd_bind; [apply nzd_int_to_float|]. intros f. apply nzd_ok.
  - destruct a, b; try discriminate; injection H as <-; reflexivity.
Qed.

Lemma nzd_sum : forall l, no_zero_division (py_sum l).
Proof.
  intros l. unfold py_sum. apply nzd_fold; [|apply nzd_ok].
  intros a x. apply nzd_add.
Qed.

(** A division by a positive count raises no [ZeroDivisionError]. *)
Lemma nzd_truediv : forall a n,
  (0 < n)%Z -> no_zero_division (py_truediv a (PInt n)).
Proof.
  intros a n Hn e H. unfold py_truediv in H. cbn [as_int] in H.
  destruct (as_int a) as [x|].
  - destruct (n =? 0)%Z eqn:E0; [apply Z.eqb_eq in E0; lia|].
    destruct (float_limit * Z.abs n <=? Z.abs x)%Z; [|discriminate].
    injection H as <-. reflexivity.
  - destruct a; try (injection H as <-; reflexivity).
    unfold int_to_float in H.
    destruct (Z.abs n <? float_limit)%Z; cbn [bind] in H.
    + unfold float_div in H.
      rewrite inject_Z_pos_nonzero in H by exact Hn. discriminate.
    + injection H as <-. reflexivity.
Qed.

Lemma nzd_category_score : forall evaluation category,
  no_zero_division (category_score evaluation category).
Proof.
  intros evaluation category e H. unfold category_score in H.
  destruct evaluation; cbn [py_in bind] in H;
    try (injection H as <-; reflexivity).
  - destruct (contains category s); [|discriminate].
    cbn [py_getitem bind] in H. injection H as <-. reflexivity.
  - destruct (existsb _ l); [|discriminate].
    cbn [py_getitem bind] in H. injection H as <-. reflexivity.
  - destruct (dict_has d category); [|discriminate].
    cbn [py_getitem] in H. unfold dict_getitem in H.
    destruct (dict_get d category) as [entry|]; cbn [bind] in H.
    + destruct entry; cbn [py_get bind] in H;
        try discriminate; injection H as <-; reflexivity.
    + injection H as <-. reflexivity.
Qed.

Lemma nzd_check_hashable : forall v, no_zero_division (check_hashable v).
Proof.
  intros v e H. unfold check_hashable in H.
  destruct (hashable v); [discriminate|]. injection H as <-. reflexivity.
Qed.

Lemma nzd_collect : forall valid_results,
  no_zero_division (collect_category_scores valid_results).
Proof.
  intros valid_results. unfold collect_category_scores.
  apply nzd_fold_res; [|apply nzd_ok].
  intros acc r Hacc. apply nzd_fold; [|exact Hacc].
  intros cs c. apply nzd_bind; [apply nzd_category_score|].
  intros [score|]; apply nzd_ok.
Qed.

Lemma nzd_average_scores : forall category_scores,
  no_zero_division (average_scores category_scores).
Proof.
  induction category_scores as [|[c scores] rest IH]; simpl; [apply nzd_ok|].
  apply nzd_bind.
  - destruct scores as [|v scores]; [apply nzd_ok|].
    apply nzd_bind; [apply nzd_sum|]. intros total.
    apply nzd_truediv. unfold len. simpl. lia.
  - intros avg. apply nzd_bind; [exact IH|]. intros avgs. apply nzd_ok.
Qed.

Lemma nzd_total_score : forall evaluation,
  no_zero_division (total_score evaluation).
Proof.
  intros evaluation. unfold total_score. apply nzd_fold; [|apply nzd_ok].
  intros total c. apply nzd_bind; [apply nzd_category_score|].
  intros [score|]; [apply nzd_add|apply nzd_ok].
Qed.

Lemma nzd_dimension_step : forall dimension data r,
  no_zero_division (dimension_step dimension data r).
Proof.
  intros dimension data r. unfold dimension_step.
  apply nzd_bind; [apply nzd_check_hashable|]. intros key. cbn zeta.
  apply nzd_bind; [apply nzd_add|]. intros t.
  apply nzd_bind; [apply nzd_total_score|]. intros total.
  apply nzd_bind; [apply nzd_add|]. intros sc. apply nzd_ok.
Qed.

Lemma nzd_dimension_averages : forall data,
  no_zero_division (dimension_averages data).
Proof.
  induction data as [|[key d] data IH]; simpl; [apply nzd_ok|].
  apply nzd_bind.
  - unfold dimension_average. cbn zeta.
    destruct (DimensionData.count d >? 0)%Z eqn:E.
    + apply nzd_bind.
      * apply nzd_bind; [apply nzd_truediv; lia|]. intros q. apply nzd_ok.
      * intros q1. apply nzd_bind.
        -- apply nzd_bind; [apply nzd_truediv; lia|]. intros q. apply nzd_ok.
        -- intros q2. apply nzd_ok.
    + apply nzd_bind; [apply nzd_ok|]. intros q1.
      apply nzd_bind; [apply nzd_ok|]. intros q2. apply nzd_ok.
  - intros stats. apply nzd_bind; [exact IH|]. intros others. apply nzd_ok.
Qed.

Lemma nzd_aggregate_by_dimension : forall results dimension,
  no_zero_division (_aggregate_by_dimension results dimension).
Proof.
  intros results dimension. unfold _aggregate_by_dimension.
  apply nzd_bind.
  - apply nzd_fold; [|apply nzd_ok]. intros data r. apply nzd_dimension_step.
  - intros data. apply nzd_dimension_averages.
Qed.

Lemma nzd_count_failure_modes : forall valid_results,
  no_zero_division (count_failure_modes valid_results).
Proof.
  intros valid_results. unfold count_failure_modes.
  apply nzd_fold; [|apply nzd_ok]. intros counts r. unfold failure_mode_step.
  apply nzd_bind.
  - intros e H. destruct (evaluation_of r); cbn [py_get] in H;
      try discriminate; injection H as <-; reflexivity.
  - intros mode. apply nzd_bind; [apply nzd_check_hashable|].
    intros key. apply nzd_ok.
Qed.

(** Every division of the aggregator is by a positive count. *)
Lemma aggregate_results_no_zero_division : forall results,
  no_zero_division (aggregate_results results).
Proof.
  intros results. unfold aggregate_results.
  destruct results as [|r0 results]; [apply nzd_ok|].
  set (all := r0 :: results).
  destruct (valid_results_of all) as [|v valid]; [apply nzd_ok|].
  set (valid_results := v :: valid).
  apply nzd_bind.
  { apply nzd_bind; [apply nzd_sum|]. intros total.
    apply nzd_truediv. unfold len, valid_results. simpl. lia. }
  intros avg_turns. apply nzd_bind; [apply nzd_collect|]. intros cs.
  apply nzd_bind; [apply nzd_average_scores|]. intros avgs.
  apply nzd_bind; [apply nzd_aggregate_by_dimension|]. intros sb.
  apply nzd_bind; [apply nzd_aggregate_by_dimension|]. intros pb.
  apply nzd_bind; [apply nzd_count_failure_modes|]. intros counts.
  apply nzd_ok.
Qed.

(** An integer beyond the range of a float makes the mean raise. *)
Lemma aggregate_results_overflow :
  Spec.small_int (PInt (10 ^ 400)) = false
  /\ aggregate_results [huge_turns]
     = Err (Raise OverflowError
              "integer division result too large for a float").
Proof.
  split; vm_compute; reflexivity.
Qed.

End ReporterFacts.

Module ReporterTheorems.

Import EvaluationOrchestrator.
Import EvaluationReporter.

(** C2, as stated, fails: a result whose evaluation is the fallback
    report, with one category of the twelve, is counted as successful. *)
Lemma partial_evaluation_counts_as_valid :
  exists r evaluation s fa sb pb,
    run_single_conversation Json.loads Examples.quiet_env Examples.order_delay
      Examples.frustrated_impatient (Some 5%Z) = Ok r
    /\ evaluation_of r = PDict evaluation
    /\ Spec.has_all_categories evaluation = false
    /\ aggregate_results [r] = Ok (Report s fa sb pb)
    /\ successful_simulations s = 1%Z
    /\ valid_results_of [r] = [r].
Proof.
  do 6 eexists. split; [vm_compute; reflexivity|].
  split; [reflexivity|]. split; [reflexivity|].
  split; [vm_compute; reflexivity|]. split; reflexivity.
Qed.

(** C2, amended: the aggregator partitions by the predicate "the result
    has no top-level [error] key", whatever its evaluation holds: a
    result is valid, and contributes to [successful_simulations], to the
    two rates and to the mean turn count, if and only if it is in the
    input and has no ["error"] key. *)
Theorem valid_iff_no_error_key :
  forall results s fa sb pb,
  aggregate_results results = Ok (Report s fa sb pb) ->
  let valid_results := valid_results_of results in
  (forall r, In r valid_results <-> In r results /\ dict_has r "error" = false)
  /\ successful_simulations s = len valid_results
  /\ failed_simulations s = (len results - len valid_results)%Z
  /\ goal_met_rate s
       = ratio_or_zero (count_flag "goal_met" valid_results) (len valid_results)
  /\ giving_up_rate s
       = ratio_or_zero (count_flag "giving_up" valid_results) (len valid_results)
  /\ exists total q,
       py_sum (map (fun r => dict_get_default r "turns" (PInt 0)) valid_results)
         = Ok total
       /\ py_truediv total (PInt (len valid_results)) = Ok q
       /\ avg_conversation_turns s = py_round2 q.
Proof.
  intros results s fa sb pb H. cbn zeta.
  destruct (ReporterFacts.aggregate_results_report _ H)
    as (_ & Hs & Hf & Hg & Hu & Hturns & _).
  split.
  { intros r. unfold valid_results_of, is_error_result. rewrite filter_In.
    rewrite negb_true_iff. reflexivity. }
  split; [exact Hs|]. split.
  { rewrite Hf. unfold error_results_of, valid_results_of, len.
    pose proof (filter_length is_error_result results). lia. }
  split; [exact Hg|]. split; [exact Hu|exact Hturns].
Qed.

Lemma valid_iff_no_error_key_witness :
  exists s fa sb pb,
    aggregate_results Examples.mixed_results = Ok (Report s fa sb pb)
    /\ successful_simulations s = 1%Z
    /\ failed_simulations s = 1%Z.
Proof.
  do 4 eexists. split; [vm_compute; reflexivity|].
  match goal with
  | |- successful_simulations ?s = _ /\ _ =>
      destruct (@valid_iff_no_error_key Examples.mixed_results s _ _ _ eq_refl)
        as (_ & Hs & Hf & _)
  end.
  split; [exact Hs|exact Hf].
Defined.

(** C8, as stated, fails: the judge may answer a category with a bare
    number; the result reaches the aggregator, which raises. *)
Lemma aggregate_results_raises :
  exists r,
    run_single_conversation Json.loads Examples.terse_env Examples.order_delay
      Examples.frustrated_impatient (Some 5%Z) = Ok r
    /\ evaluation_of r
         = PDict [("technical_failures", PInt 5);
                  ("meta", PDict [("model", PStr LLMJudge.model);
                                  ("tokens_used", PInt 15)])]
    /\ aggregate_results [r]
         = Err (Raise AttributeError "'int' object has no attribute 'get'").
Proof.
  eexists. split; [vm_compute; reflexivity|]. split; reflexivity.
Qed.

(** C8, amended: an empty input yields the error marker; on every input
    whatever, the aggregator never divides by zero: no exception it
    raises is a [ZeroDivisionError], and every rate with denominator 0 is
    0; on every input whose valid results are typed as the schema has
    them (integer turns and scores of magnitude at most [2**1000],
    hashable ids, an evaluation mapping whose category entries are
    mappings and whose primary failure mode is hashable) it returns
    without raising; and every rate of a report that is produced lies in
    [0,1]. *)
Theorem aggregate_results_total_on_typed :
  forall results,
  aggregate_results [] = Ok (ErrorMarker "No results to aggregate")
  /\ (forall e, aggregate_results results = Err e ->
        Invariants.divides_by_zero e = false)
  /\ (Forall (fun r => Spec.typed_result r = true) (valid_results_of results) ->
      exists agg, aggregate_results results = Ok agg)
  /\ (forall num, ratio_or_zero num 0 = 0%Q)
  /\ (forall s fa sb pb,
        aggregate_results results = Ok (Report s fa sb pb) ->
        Spec.in_unit_interval (goal_met_rate s)
        /\ Spec.in_unit_interval (giving_up_rate s)
        /\ Forall Invariants.rate_in_unit_interval sb
        /\ Forall Invariants.rate_in_unit_interval pb).
Proof.
  intros results. split; [reflexivity|]. split.
  { apply ReporterFacts.aggregate_results_no_zero_division. }
  split.
  { apply ReporterFacts.aggregate_results_typed. }
  split; [reflexivity|].
  intros s fa sb pb H.
  destruct (ReporterFacts.aggregate_results_report _ H)
    as (_ & _ & _ & Hg & Hu & _ & Hsb & Hpb).
  rewrite Hg, Hu. repeat split.
  - apply ReporterFacts.ratio_in_unit_interval. apply ReporterFacts.len_filter_le.
  - apply ReporterFacts.ratio_in_unit_interval. apply ReporterFacts.len_filter_le.
  - apply ReporterFacts.ratio_in_unit_interval. apply ReporterFacts.len_filter_le.
  - apply ReporterFacts.ratio_in_unit_interval. apply ReporterFacts.len_filter_le.
  - eapply ReporterFacts.aggregate_by_dimension_rates; eauto.
  - eapply ReporterFacts.aggregate_by_dimension_rates; eauto.
Qed.

Lemma aggregate_results_total_on_typed_witness :
  (exists agg, aggregate_results Examples.mixed_results = Ok agg)
  /\ (exists s fa sb pb,
        aggregate_results Examples.mixed_results = Ok (Report s fa sb pb)
        /\ Spec.in_unit_interval (goal_met_rate s)
        /\ Spec.in_unit_interval (giving_up_rate s)
        /\ Forall Invariants.rate_in_unit_interval sb
        /\ Forall Invariants.rate_in_unit_interval pb).
Proof.
  destruct (aggregate_results_total_on_typed Examples.mixed_results)
    as (_ & _ & Htotal & _ & Hrates).
  split.
  - apply Htotal. apply Forall_forall. apply forallb_forall.
    vm_compute. reflexivity.
  - do 4 eexists. split; [vm_compute; reflexivity|].
    eapply Hrates. reflexivity.
Defined.

End ReporterTheorems.

(* ===================================================================== *)
(** * The batch runner                                                   *)
(* ===================================================================== *)

Module BatchFacts.

Import EvaluationOrchestrator.
Import EvaluationReporter.

(** A result the controller returns has no ["error"] key. *)
Lemma run_ok_no_error : forall json_loads env scenario personality max_turns r,
  run_single_conversation json_loads env scenario personality max_turns = Ok r ->
  dict_has r "error" = false.
Proof.
  intros json_loads env scenario personality max_turns r H.
  unfold run_single_conversation in H.
  apply ReporterFacts.bind_ok in H. destruct H as (goal & _ & H).
  apply ReporterFacts.bind_ok in H. destruct H as (sid & _ & H).
  apply ReporterFacts.bind_ok in H. destruct H as (pid & _ & H).
  injection H as <-. reflexivity.
Qed.

Lemma pick_in : forall draw (catalog : list dict),
  catalog <> [] -> In (Spec.pick draw catalog) catalog.
Proof.
  intros draw catalog Hne. unfold Spec.pick. apply nth_In.
  apply Nat.mod_upper_bound. destruct catalog; [congruence|discriminate].
Qed.

Lemma choice_pick : forall draw (catalog : list dict),
  catalog <> [] -> choice draw catalog = Ok (Spec.pick draw catalog).
Proof.
  intros draw catalog Hne. unfold choice, Spec.pick.
  destruct catalog as [|first rest]; [congruence|].
  f_equal. apply nth_indep. apply Nat.mod_upper_bound. discriminate.
Qed.

Lemma or_catalog_nonempty : forall l default,
  default <> [] -> or_catalog l default <> [].
Proof.
  intros [[|x l]|] default H; simpl; try assumption. discriminate.
Qed.

Lemma has_id_getitem : forall entry,
  Spec.has_id entry = true ->
  dict_getitem entry "id" = Ok (dict_get_default entry "id" PNone).
Proof.
  intros entry H. unfold Spec.has_id, dict_has, dict_getitem, dict_get_default in *.
  destruct (dict_get entry "id"); [reflexivity|discriminate].
Qed.

Section Batch.

Variable json_loads : string -> res pyval.
Variable env_of_run : nat -> Env.
Variable draws : nat -> nat * nat.
Variable scenarios personalities : list dict.

Hypothesis scenarios_nonempty : scenarios <> [].
Hypothesis personalities_nonempty : personalities <> [].
Hypothesis scenarios_have_id :
  Forall (fun entry => Spec.has_id entry = true) scenarios.
Hypothesis personalities_have_id :
  Forall (fun entry => Spec.has_id entry = true) personalities.

Local Abbreviation entry :=
  (Spec.batch_entry json_loads env_of_run draws scenarios personalities).
Local Abbreviation fails :=
  (Spec.run_fails json_loads env_of_run draws scenarios personalities).

(** One pass of the loop appends exactly one entry, raise or not. *)
Lemma batch_step_entry : forall results i,
  batch_step json_loads env_of_run draws scenarios personalities results i
    = Ok (results ++ [entry i])%list.
Proof.
  intros results i. unfold batch_step.
  rewrite !choice_pick by assumption. cbn [bind].
  assert (Hs : Spec.has_id (Spec.pick (fst (draws i)) scenarios) = true).
  { rewrite Forall_forall in scenarios_have_id.
    apply scenarios_have_id, pick_in, scenarios_nonempty. }
  assert (Hp : Spec.has_id (Spec.pick (snd (draws i)) personalities) = true).
  { rewrite Forall_forall in personalities_have_id.
    apply personalities_have_id, pick_in, personalities_nonempty. }
  rewrite (has_id_getitem _ Hs), (has_id_getitem _ Hp). cbn [bind].
  unfold Spec.batch_entry, Spec.run_of.
  destruct (run_single_conversation _ _ _ _ _) as [r|e]; reflexivity.
Qed.

Lemma batch_fold : forall n a acc,
  fold_left
    (fun acc i =>
       bind acc (fun results =>
         batch_step json_loads env_of_run draws scenarios personalities
           results i))
    (seq a n) (Ok acc)
  = Ok (acc ++ map entry (seq a n))%list.
Proof.
  induction n as [|n IH]; intros a acc; simpl.
  - rewrite app_nil_r. reflexivity.
  - rewrite batch_step_entry, IH, <- app_assoc. reflexivity.
Qed.

Lemma entry_is_error : forall i, is_error_result (entry i) = fails i.
Proof.
  intros i. unfold Spec.batch_entry, Spec.run_fails, is_error_result.
  destruct (Spec.run_of _ _ _ _ _ i) as [r|e] eqn:E.
  - simpl. unfold Spec.run_of in E. apply run_ok_no_error in E. exact E.
  - reflexivity.
Qed.

Lemma valid_entries : forall l,
  length (valid_results_of (map entry l))
    = length l - length (filter fails l).
Proof.
  intros l. unfold valid_results_of.
  pose proof (filter_length fails l) as Hsplit.
  assert (Hmap : forall l',
    length (filter (fun r => negb (is_error_result r)) (map entry l'))
      = length (filter (fun i => negb (fails i)) l')).
  { induction l' as [|i l' IH]; [reflexivity|]. simpl.
    rewrite entry_is_error. destruct (fails i); simpl; rewrite IH; reflexivity. }
  rewrite Hmap. lia.
Qed.

End Batch.

(** Whenever the aggregator answers with the error marker, no result was
    valid. *)
Lemma marker_means_no_valid_result : forall results msg,
  aggregate_results results = Ok (ErrorMarker msg) ->
  valid_results_of results = [].
Proof.
  intros results msg H. unfold aggregate_results in H.
  destruct results as [|r0 results]; [reflexivity|].
  destruct (valid_results_of (r0 :: results)) as [|v valid]; [reflexivity|].
  repeat (apply ReporterFacts.bind_ok in H; destruct H as (? & _ & H)).
  discriminate.
Qed.

End BatchFacts.

Module BatchTheorems.

Import EvaluationOrchestrator.
Import EvaluationReporter.

(** C9, as stated, fails: the progress line is printed before the [try]
    and reads both ids, so a catalog entry without ["id"] makes the
    batch raise [KeyError] at the run that draws it: no collection is
    returned, and the result of the run completed before is lost. *)
Lemma batch_aborts_without_id :
  run_batch_simulations Json.loads (fun _ => Examples.quiet_env)
    Examples.three_draws 3 (Some [Examples.order_delay; Examples.no_id]) None
    = Err (Raise KeyError "'id'")
  /\ is_ok (Spec.run_of Json.loads (fun _ => Examples.quiet_env)
              Examples.three_draws [Examples.order_delay; Examples.no_id]
              Config.PERSONALITIES 0) = true
  /\ dict_has Examples.no_id "goal" = true.
Proof.
  split; [vm_compute; reflexivity|]. split; [vm_compute; reflexivity|].
  reflexivity.
Qed.

(** C9, amended: when every entry of the two catalogs carries an ["id"],
    for every requested size [N] the batch runner returns exactly [N]
    entries, raise or no raise: run [i] leaves its result, or, when the
    controller call raises [e], the stub with the scenario id, the
    persona id and [str(e)], and the runs after it still take place.  The
    entries the aggregator counts as valid are the runs that did not
    raise; so in a batch of 3 runs of which exactly one fails there are 3
    entries, 2 of them valid; whenever the aggregator returns, it returns
    a report whose [successful_simulations] is 2, and it does return when
    the valid results are typed. *)
Theorem batch_keeps_every_run :
  forall (json_loads : string -> res pyval) (env_of_run : nat -> Env)
         (draws : nat -> nat * nat) (N : Z)
         (scenarios personalities : option (list dict)),
  let catalog := or_catalog scenarios Config.SCENARIOS in
  let personas := or_catalog personalities Config.PERSONALITIES in
  Forall (fun entry => Spec.has_id entry = true) catalog ->
  Forall (fun entry => Spec.has_id entry = true) personas ->
  exists results,
    run_batch_simulations json_loads env_of_run draws N scenarios personalities
      = Ok results
    /\ length results = Z.to_nat N
    /\ (forall i, i < Z.to_nat N ->
          nth_error results i
            = Some (Spec.batch_entry json_loads env_of_run draws catalog
                      personas i))
    /\ (forall i e, i < Z.to_nat N ->
          Spec.run_of json_loads env_of_run draws catalog personas i = Err e ->
          exists scenario_id personality_id,
            dict_get (Spec.pick (fst (draws i)) catalog) "id" = Some scenario_id
            /\ dict_get (Spec.pick (snd (draws i)) personas) "id"
                 = Some personality_id
            /\ nth_error results i
                 = Some [ ("scenario_id", scenario_id);
                          ("personality_id", personality_id);
                          ("error", PStr (str_of_exn e));
                          ("timestamp", PFloat (time_time (env_of_run i))) ])
    /\ length (valid_results_of results)
         = Z.to_nat N
           - Spec.failed_runs json_loads env_of_run draws catalog personas
               (Z.to_nat N)
    /\ (N = 3%Z ->
        Spec.failed_runs json_loads env_of_run draws catalog personas 3 = 1 ->
        length results = 3
        /\ len (valid_results_of results) = 2%Z
        /\ (forall agg, aggregate_results results = Ok agg ->
              exists s fa sb pb,
                agg = Report s fa sb pb /\ successful_simulations s = 2%Z)
        /\ (Forall (fun r => Spec.typed_result r = true)
                   (valid_results_of results) ->
            exists s fa sb pb,
              aggregate_results results = Ok (Report s fa sb pb)
              /\ successful_simulations s = 2%Z)).
Proof.
  intros json_loads env_of_run draws N scenarios personalities catalog personas
         Hcatalog Hpersonas.
  assert (Hne1 : catalog <> []).
  { apply BatchFacts.or_catalog_nonempty. discriminate. }
  assert (Hne2 : personas <> []).
  { apply BatchFacts.or_catalog_nonempty. discriminate. }
  pose proof (@BatchFacts.batch_fold json_loads env_of_run draws catalog
                personas Hne1 Hne2 Hcatalog Hpersonas (Z.to_nat N) 0 [])
    as Hfold.
  cbn [app] in Hfold.
  eexists. split; [exact Hfold|].
  assert (Hlen : length
            (map (Spec.batch_entry json_loads env_of_run draws catalog personas)
                 (seq 0 (Z.to_nat N))) = Z.to_nat N).
  { rewrite length_map, length_seq. reflexivity. }
  assert (Hnth : forall i, i < Z.to_nat N ->
            nth_error
              (map (Spec.batch_entry json_loads env_of_run draws catalog personas)
                   (seq 0 (Z.to_nat N))) i
            = Some (Spec.batch_entry json_loads env_of_run draws catalog
                      personas i)).
  { intros i Hi. rewrite nth_error_map.
    rewrite (nth_error_nth' _ 0) by (rewrite length_seq; exact Hi).
    rewrite seq_nth by exact Hi. reflexivity. }
  assert (Hvalid : length (valid_results_of
            (map (Spec.batch_entry json_loads env_of_run draws catalog personas)
                 (seq 0 (Z.to_nat N))))
          = Z.to_nat N
            - Spec.failed_runs json_loads env_of_run draws catalog personas
                (Z.to_nat N)).
  { rewrite BatchFacts.valid_entries, length_seq. reflexivity. }
  split; [exact Hlen|]. split; [exact Hnth|]. split.
  { intros i e Hi Hrun.
    assert (Hs : Spec.has_id (Spec.pick (fst (draws i)) catalog) = true).
    { rewrite Forall_forall in Hcatalog.
      apply Hcatalog, BatchFacts.pick_in, Hne1. }
    assert (Hp : Spec.has_id (Spec.pick (snd (draws i)) personas) = true).
    { rewrite Forall_forall in Hpersonas.
      apply Hpersonas, BatchFacts.pick_in, Hne2. }
    apply ControllerFacts.dict_has_get in Hs, Hp.
    destruct Hs as [sid Hs], Hp as [pid Hp].
    exists sid, pid. split; [exact Hs|]. split; [exact Hp|].
    rewrite (Hnth i Hi). unfold Spec.batch_entry. rewrite Hrun.
    unfold Spec.stub, dict_get_default. rewrite Hs, Hp. reflexivity. }
  split; [exact Hvalid|].
  intros HN Hone. subst N. change (Z.to_nat 3) with 3 in *.
  rewrite Hone in Hvalid.
  assert (Hlen2 : len (valid_results_of
            (map (Spec.batch_entry json_loads env_of_run draws catalog personas)
                 (seq 0 3))) = 2%Z).
  { unfold len. rewrite Hvalid. reflexivity. }
  split; [exact Hlen|]. split; [exact Hlen2|].
  assert (Hreport : forall agg,
            aggregate_results
              (map (Spec.batch_entry json_loads env_of_run draws catalog personas)
                   (seq 0 3)) = Ok agg ->
            exists s fa sb pb,
              agg = Report s fa sb pb /\ successful_simulations s = 2%Z).
  { intros agg Hagg. destruct agg as [msg|s fa sb pb].
    - apply BatchFacts.marker_means_no_valid_result in Hagg.
      rewrite Hagg in Hvalid. discriminate.
    - exists s, fa, sb, pb. split; [reflexivity|].
      destruct (ReporterFacts.aggregate_results_report _ Hagg)
        as (_ & Hs & _).
      rewrite Hs. exact Hlen2. }
  split; [exact Hreport|].
  intros Htyped.
  destruct (ReporterFacts.aggregate_results_typed _ Htyped) as (agg & Hagg).
  destruct (Hreport agg Hagg) as (s & fa & sb & pb & -> & Hs).
  exists s, fa, sb, pb. split; [exact Hagg|exact Hs].
Qed.

Lemma batch_keeps_every_run_witness :
  exists results,
    run_batch_simulations Json.loads (fun _ => Examples.quiet_env)
      Examples.three_draws 3 (Some Examples.three_scenarios) None = Ok results
    /\ length results = 3
    /\ len (valid_results_of results) = 2%Z
    /\ exists s fa sb pb,
         aggregate_results results = Ok (Report s fa sb pb)
         /\ successful_simulations s = 2%Z.
Proof.
  destruct (@batch_keeps_every_run Json.loads (fun _ => Examples.quiet_env)
              Examples.three_draws 3 (Some Examples.three_scenarios) None)
    as (results & Hrun & _ & _ & _ & _ & Hthree).
  - vm_compute. repeat constructor.
  - vm_compute. repeat constructor.
  - exists results. split; [exact Hrun|].
    destruct (Hthree eq_refl) as (Hlen & Hvalid & _ & Htyped).
    + reflexivity.
    + split; [exact Hlen|]. split; [exact Hvalid|].
      apply Htyped.
      assert (Hresults : Ok results
                = run_batch_simulations Json.loads (fun _ => Examples.quiet_env)
                    Examples.three_draws 3 (Some Examples.three_scenarios) None)
        by (symmetry; exact Hrun).
      vm_compute in Hresults. injection Hresults as ->.
      apply Forall_forall. apply forallb_forall. vm_compute. reflexivity.
Defined.

End BatchTheorems.

(* ===================================================================== *)
(** * Further properties of the judge                                    *)
(* ===================================================================== *)

Module JudgeExtras.

Import LLMJudge.

Lemma dict_get_set_same : forall (d : dict) k v,
  dict_get (dict_set d k v) k = Some v.
Proof.
  induction d as [|[k0 v0] d IH]; intros k v; simpl.
  - rewrite String.eqb_refl. reflexivity.
  - destruct (String.eqb k0 k) eqn:E; simpl; rewrite E; [reflexivity|apply IH].
Qed.

Lemma slice_to_last : forall s (a : nat),
  a <= String.length s ->
  PyStr.slice s (Z.of_nat a) (-1) = substring a (String.length s - 1 - a) s.
Proof.
  intros s a Ha. unfold PyStr.slice, PyStr.clamp.
  destruct (Z.of_nat a <? 0)%Z eqn:Ea; [lia|].
  change (-1 <? 0)%Z with true. cbv iota.
  rewrite Z.min_l by lia.
  destruct (Z.max 0 (-1 + Z.of_nat (String.length s)) <=? Z.of_nat a)%Z eqn:E.
  - replace (String.length s - 1 - a) with 0 by lia.
    rewrite StrFacts.substring_zero. reflexivity.
  - f_equal; lia.
Qed.

Lemma unclosed_extraction : forall marker response i,
  String.index 0 marker response = Some i ->
  String.index (i + String.length marker) "```" response = None ->
  PyStr.strip
    (PyStr.slice response
       (PyStr.find marker response 0 + Z.of_nat (String.length marker))
       (PyStr.find "```" response
          (PyStr.find marker response 0 + Z.of_nat (String.length marker))))
  = PyStr.strip
      (substring (i + String.length marker)
         (String.length response - 1 - (i + String.length marker)) response).
Proof.
  intros marker response i Hi Hj.
  pose proof (StrFacts.index_bound _ _ _ Hi) as Hle.
  change 0%Z with (Z.of_nat 0).
  rewrite (StrFacts.find_index _ _ _ Hi), <- Nat2Z.inj_add.
  unfold PyStr.find at 1. rewrite Nat2Z.id, Hj.
  rewrite slice_to_last by exact Hle. reflexivity.
Qed.

(** X1: when the opening fence is never closed, the search for the
    closing marker answers -1 and the slice stops before the last
    character of the response: the decoder receives the text after the
    opening marker without that last character (stripped). *)
Theorem extract_json_unclosed_fence : forall response i,
  (String.index 0 "```json" response = Some i ->
   String.index (i + 7) "```" response = None ->
   extract_json response
     = PyStr.strip
         (substring (i + 7) (String.length response - 1 - (i + 7)) response))
  /\ (contains "```json" response = false ->
      String.index 0 "```" response = Some i ->
      String.index (i + 3) "```" response = None ->
      extract_json response
        = PyStr.strip
            (substring (i + 3) (String.length response - 1 - (i + 3))
               response)).
Proof.
  intros response i. split.
  - intros Hi Hj. unfold extract_json, contains. rewrite Hi.
    apply (unclosed_extraction "```json" response Hi Hj).
  - intros Hlabel Hi Hj. unfold extract_json. rewrite Hlabel.
    unfold contains. rewrite Hi.
    apply (unclosed_extraction "```" response Hi Hj).
Qed.

Lemma extract_json_unclosed_fence_witness :
  extract_json ("```json{" ++ Examples.dq ++ "a" ++ Examples.dq ++ ": 1}")
    = "{" ++ Examples.dq ++ "a" ++ Examples.dq ++ ": 1"
  /\ extract_json "```[1, 2]" = "[1, 2".
Proof.
  split.
  - apply (proj1 (extract_json_unclosed_fence
                    ("```json{" ++ Examples.dq ++ "a" ++ Examples.dq ++ ": 1}")
                    0)); reflexivity.
  - apply (proj2 (extract_json_unclosed_fence "```[1, 2]" 0)); reflexivity.
Defined.

(** X2: a response that decodes to anything but a mapping (a list, a
    number, a string, a literal) makes the ["meta"] assignment raise
    [TypeError]; the judge returns the fallback report of that error:
    its ["error"] entry is the message of the [TypeError], which names
    the type of the decoded value, and its summary repeats it. *)
Theorem evaluate_conversation_non_mapping :
  forall (json_loads : string -> res pyval)
         (messages_create : string -> pyval -> res ApiReply)
         (conversation_history : list Message) (user_goal : pyval)
         (response : ApiReply) (v : pyval),
  messages_create (_format_transcript conversation_history) user_goal
    = Ok response ->
  json_loads (extract_json (reply_text response)) = Ok v ->
  (forall d, v <> PDict d) ->
  let msg := Vocabulary.not_assignable v in
  let evaluation :=
    evaluate_conversation json_loads messages_create conversation_history
      user_goal in
  py_setitem v "meta"
    (PDict [("model", PStr model); ("tokens_used", tokens_used response)])
    = Err (Raise TypeError msg)
  /\ evaluation = fallback_evaluation (Raise TypeError msg)
  /\ dict_get evaluation "error" = Some (PStr msg)
  /\ dict_get evaluation "overall_summary"
       = Some (PStr ("Evaluation error: " ++ msg))
  /\ dict_has evaluation "meta" = false.
Proof.
  intros json_loads messages_create conversation_history user_goal response v
         Hcall Hdecode Hv.
  cbn zeta. unfold evaluate_conversation, try_evaluate.
  rewrite Hcall. cbn [bind]. rewrite Hdecode. cbn [bind].
  destruct v; try (repeat split; reflexivity).
  exfalso. apply (Hv d). reflexivity.
Qed.

Lemma evaluate_conversation_non_mapping_witness :
  evaluate_conversation Json.loads (Examples.judge_says "[1, 2]") [] PNone
    = fallback_evaluation
        (Raise TypeError "list indices must be integers or slices, not str")
  /\ dict_get
       (evaluate_conversation Json.loads (Examples.judge_says "17") [] PNone)
       "error"
     = Some (PStr "'int' object does not support item assignment").
Proof.
  split.
  - destruct (@evaluate_conversation_non_mapping Json.loads
                (Examples.judge_says "[1, 2]") [] PNone
                {| reply_text := "[1, 2]"; input_tokens := 10;
                   output_tokens := 5 |}
                (PList [PInt 1; PInt 2]) eq_refl eq_refl)
      as (_ & H & _); [discriminate|exact H].
  - destruct (@evaluate_conversation_non_mapping Json.loads
                (Examples.judge_says "17") [] PNone
                {| reply_text := "17"; input_tokens := 10; output_tokens := 5 |}
                (PInt 17) eq_refl eq_refl)
      as (_ & _ & H & _); [discriminate|exact H].
Defined.

(** X3: when the response decodes to a mapping, the evaluation returned
    holds under ["meta"] the judge's own entry (model and token count),
    whatever the scorer wrote there, and under every other key exactly
    what the scorer wrote. *)
Theorem evaluate_conversation_meta :
  forall (json_loads : string -> res pyval)
         (messages_create : string -> pyval -> res ApiReply)
         (conversation_history : list Message) (user_goal : pyval)
         (response : ApiReply) (d : dict),
  messages_create (_format_transcript conversation_history) user_goal
    = Ok response ->
  json_loads (extract_json (reply_text response)) = Ok (PDict d) ->
  let evaluation :=
    evaluate_conversation json_loads messages_create conversation_history
      user_goal in
  dict_get evaluation "meta"
    = Some (PDict [("model", PStr model);
                   ("tokens_used",
                    PInt (input_tokens response + output_tokens response))])
  /\ forall k, k <> "meta" -> dict_get evaluation k = dict_get d k.
Proof.
  intros json_loads messages_create conversation_history user_goal response d
         Hcall Hdecode.
  unfold evaluate_conversation, try_evaluate.
  rewrite Hcall. cbn [bind]. rewrite Hdecode. cbn [bind py_setitem].
  split.
  - apply dict_get_set_same.
  - intros k Hk. apply JudgeFacts.dict_get_set_other.
    apply String.eqb_neq. congruence.
Qed.

Lemma evaluate_conversation_meta_witness :
  dict_get
    (evaluate_conversation Json.loads
       (Examples.judge_says
          ("{" ++ Examples.dq ++ "meta" ++ Examples.dq ++ ": 1, "
           ++ Examples.dq ++ "suggestion" ++ Examples.dq ++ ": 2}"))
       [] PNone)
    "meta"
  = Some (PDict [("model", PStr model); ("tokens_used", PInt 15)]).
Proof.
  apply (@evaluate_conversation_meta Json.loads
           (Examples.judge_says
              ("{" ++ Examples.dq ++ "meta" ++ Examples.dq ++ ": 1, "
               ++ Examples.dq ++ "suggestion" ++ Examples.dq ++ ": 2}"))
           [] PNone
           {| reply_text :=
                "{" ++ Examples.dq ++ "meta" ++ Examples.dq ++ ": 1, "
                ++ Examples.dq ++ "suggestion" ++ Examples.dq ++ ": 2}";
              input_tokens := 10; output_tokens := 5 |}
           [("meta", PInt 1); ("suggestion", PInt 2)]).
  - reflexivity.
  - reflexivity.
Defined.

(** X4: the transcript handed to the judge is built from the messages
    whose role is [user] or [assistant] only: any other message leaves no
    trace in it, and an empty history gives the empty text. *)
Theorem format_transcript_known_roles : forall conversation_history,
  _format_transcript conversation_history
    = _format_transcript (Agents.request_messages conversation_history)
  /\ _format_transcript [] = "".
Proof.
  intros conversation_history. split; [|reflexivity].
  unfold _format_transcript, Agents.request_messages. f_equal.
  induction conversation_history as [|m h IH]; [reflexivity|].
  cbn [flat_map filter].
  destruct (String.eqb (role m) "user") eqn:Eu.
  - cbn [orb flat_map]. rewrite Eu. rewrite IH. reflexivity.
  - destruct (String.eqb (role m) "assistant") eqn:Ea.
    + cbn [orb flat_map]. rewrite Eu, Ea. rewrite IH. reflexivity.
    + cbn [orb app]. exact IH.
Qed.

End JudgeExtras.

(* ===================================================================== *)
(** * Further properties of the controller                               *)
(* ===================================================================== *)

Module ControllerExtras.

Import EvaluationOrchestrator.

Section Loop.

Variable env : Env.
Variable personality : dict.
Variable goal : pyval.
Variable initial_message : string.
Variable max_turns : Z.

Local Abbreviation loop :=
  (conversation_loop env personality goal initial_message max_turns).
Local Abbreviation agent := (agent_turn env personality initial_message).
Local Abbreviation user := (user_turn env personality goal initial_message).

(** On the last turn the loop is left after the agent's reply. *)
Lemma loop_break : forall st,
  loop_test max_turns st = true ->
  (turns st >=? max_turns - 1)%Z = true ->
  loop st = agent st.
Proof.
  intros st Ht Hl. funelim (loop st); congruence.
Qed.

(** Whatever holds of the opening message and of every driver output
    holds of every message of the final history. *)
Lemma loop_forall : forall (P : Message -> Prop) st,
  (forall s, P (assistant_message
                  (SupportReply.response
                     (support_response env personality initial_message s)))) ->
  (forall h a, P (user_message
                    (UserReply.message
                       (generate_response env personality goal h a)))) ->
  Forall P (conversation_history st) ->
  Forall P (conversation_history (loop st)).
Proof.
  intros P st Hagent Huser. funelim (loop st); intros Hst.
  - exact Hst.
  - simpl. apply Forall_app. split; [exact Hst|]. repeat constructor.
    apply Hagent.
  - apply (H P Hagent Huser). simpl. apply Forall_app. split.
    + apply Forall_app. split; [exact Hst|]. repeat constructor. apply Hagent.
    + repeat constructor. apply Huser.
Qed.

(** The loop only appends. *)
Lemma loop_extends : forall st,
  exists suffix,
    conversation_history (loop st) = (conversation_history st ++ suffix)%list.
Proof.
  intros st. funelim (loop st).
  - exists []. rewrite app_nil_r. reflexivity.
  - eexists. reflexivity.
  - destruct H as (suffix & Hs). rewrite Hs. simpl.
    rewrite <- !app_assoc. eexists. reflexivity.
Qed.

(** What holds before every reply of the agent, and what then holds of
    the state the loop is left in. *)
Lemma loop_invariant : forall (I J : LoopState -> Prop),
  (forall st, I st -> J st) ->
  (forall st, I st -> J (agent st)) ->
  (forall st, I st -> I (user st)) ->
  forall st, I st -> J (loop st).
Proof.
  intros I J Hexit Hbreak Hnext st. funelim (loop st); intros Hst.
  - apply Hexit. exact Hst.
  - apply Hbreak. exact Hst.
  - apply (H I J Hexit Hbreak Hnext). apply Hnext. exact Hst.
Qed.

End Loop.

Lemma count_users_exchanges : forall k tail,
  count_occ string_dec (Spec.exchanges k ++ tail) "user"
    = k + count_occ string_dec tail "user".
Proof.
  induction k as [|k IH]; intros tail; [reflexivity|].
  cbn [Spec.exchanges app].
  rewrite count_occ_cons_neq by discriminate.
  rewrite count_occ_cons_eq by reflexivity.
  rewrite IH. reflexivity.
Qed.

(** A run returns exactly when the three keys it reads are present. *)
Lemma run_returns_iff_keys :
  forall (json_loads : string -> res pyval) (env : Env)
         (scenario personality : dict) (max_turns : option Z),
  is_ok (run_single_conversation json_loads env scenario personality max_turns)
    = Spec.has_keys scenario personality.
Proof.
  intros json_loads env scenario personality max_turns.
  unfold run_single_conversation, Spec.has_keys, dict_has, dict_getitem.
  destruct (dict_get scenario "goal") as [goal|]; cbn [bind]; [|reflexivity].
  destruct (dict_get scenario "id") as [sid|]; cbn [bind]; [|reflexivity].
  destruct (dict_get personality "id") as [pid|]; reflexivity.
Qed.

(** X5: the controller returns a result exactly when the scenario has
    ["goal"] and ["id"] and the personality has ["id"]; otherwise it
    raises [KeyError] for the first key missing, in the order goal,
    scenario id, personality id. *)
Theorem run_single_conversation_key_errors :
  forall (json_loads : string -> res pyval) (env : Env)
         (scenario personality : dict) (max_turns : option Z),
  let run :=
    run_single_conversation json_loads env scenario personality max_turns in
  is_ok run = Spec.has_keys scenario personality
  /\ (dict_has scenario "goal" = false -> run = Err (Raise KeyError "'goal'"))
  /\ (dict_has scenario "goal" = true -> dict_has scenario "id" = false ->
      run = Err (Raise KeyError "'id'"))
  /\ (dict_has scenario "goal" = true -> dict_has scenario "id" = true ->
      dict_has personality "id" = false ->
      run = Err (Raise KeyError "'id'")).
Proof.
  intros json_loads env scenario personality max_turns. cbn zeta.
  unfold run_single_conversation, Spec.has_keys, dict_has, dict_getitem.
  destruct (dict_get scenario "goal") as [goal|]; cbn [bind].
  - destruct (dict_get scenario "id") as [sid|]; cbn [bind].
    + destruct (dict_get personality "id") as [pid|]; cbn [bind].
      * repeat split; try reflexivity; discriminate.
      * repeat split; try reflexivity; discriminate.
    + repeat split; try reflexivity; discriminate.
  - repeat split; try reflexivity; discriminate.
Qed.

Lemma run_single_conversation_key_errors_witness :
  run_single_conversation Json.loads Examples.quiet_env Examples.no_goal
    Examples.frustrated_impatient None = Err (Raise KeyError "'goal'")
  /\ run_single_conversation Json.loads Examples.quiet_env
       [("goal", PStr "anything")] Examples.frustrated_impatient None
     = Err (Raise KeyError "'id'")
  /\ run_single_conversation Json.loads Examples.quiet_env Examples.order_delay
       [] None = Err (Raise KeyError "'id'").
Proof.
  split; [|split].
  - destruct (@run_single_conversation_key_errors Json.loads Examples.quiet_env
                Examples.no_goal Examples.frustrated_impatient None)
      as (_ & H & _).
    apply H. reflexivity.
  - destruct (@run_single_conversation_key_errors Json.loads Examples.quiet_env
                [("goal", PStr "anything")] Examples.frustrated_impatient None)
      as (_ & _ & H & _).
    apply H; reflexivity.
  - destruct (@run_single_conversation_key_errors Json.loads Examples.quiet_env
                Examples.order_delay [] None)
      as (_ & _ & _ & H).
    apply H; reflexivity.
Defined.

(** X6: with a negative budget the loop is never entered: the result
    holds the opening user message alone, zero turns and no flag. *)
Theorem negative_budget_no_reply :
  forall (json_loads : string -> res pyval) (env : Env)
         (scenario personality : dict) (B : Z),
  (B < 0)%Z ->
  Spec.has_keys scenario personality = true ->
  exists r,
    run_single_conversation json_loads env scenario personality (Some B) = Ok r
    /\ Spec.transcript_of r
         = [user_message (generate_initial_message env personality scenario)]
    /\ dict_get r "turns" = Some (PInt 0)
    /\ dict_get r "goal_met" = Some (PBool false)
    /\ dict_get r "giving_up" = Some (PBool false).
Proof.
  intros json_loads env scenario personality B HB Hkeys.
  destruct (@ControllerFacts.run_single_conversation_returns json_loads env
              scenario personality (Some B) Hkeys)
    as (goal & r & _ & Hrun & Hh & Ht & Hg & Hu & _).
  assert (Hbudget : or_default (Some B) self_max_turns = B).
  { unfold or_default. destruct (B =? 0)%Z eqn:E; [lia|reflexivity]. }
  rewrite Hbudget in Hh, Ht, Hg, Hu. unfold conversation in Hh, Ht, Hg, Hu.
  rewrite ControllerFacts.loop_exit in Hh, Ht, Hg, Hu
    by (unfold loop_test; simpl; destruct (0 <? B)%Z eqn:E; [lia|reflexivity]).
  exists r. repeat split; assumption.
Qed.

Lemma negative_budget_no_reply_witness :
  exists r,
    run_single_conversation Json.loads Examples.quiet_env Examples.order_delay
      Examples.frustrated_impatient (Some (-3)%Z) = Ok r
    /\ Spec.transcript_of r
         = [user_message
              (generate_initial_message Examples.quiet_env
                 Examples.frustrated_impatient Examples.order_delay)]
    /\ dict_get r "turns" = Some (PInt 0)
    /\ dict_get r "goal_met" = Some (PBool false)
    /\ dict_get r "giving_up" = Some (PBool false).
Proof.
  apply (@negative_budget_no_reply Json.loads Examples.quiet_env
           Examples.order_delay Examples.frustrated_impatient (-3)%Z).
  - lia.
  - reflexivity.
Defined.

(** X7: for every budget [B >= 1], with [turns] the value reported: the
    transcript opens with the message of [generate_initial_message] and
    holds [turns + 1] user messages; a run ended by the turn limit has
    [turns = B - 1] and [2 * B] messages, [B] of them agent replies; a
    run ended by a flag has [1 <= turns <= B - 1] and [2 * turns + 1]
    messages, [turns] of them agent replies. *)
Theorem transcript_length_law :
  forall (json_loads : string -> res pyval) (env : Env)
         (scenario personality : dict) (B : Z),
  (1 <= B)%Z ->
  Spec.has_keys scenario personality = true ->
  exists r (k : nat),
    run_single_conversation json_loads env scenario personality (Some B) = Ok r
    /\ dict_get r "turns" = Some (PInt (Z.of_nat k))
    /\ hd_error (Spec.transcript_of r)
         = Some (user_message (generate_initial_message env personality scenario))
    /\ count_occ string_dec (Spec.roles (Spec.transcript_of r)) "user" = k + 1
    /\ ((Spec.holds r Spec.TURN_LIMIT_REACHED = true
         /\ Z.of_nat k = (B - 1)%Z
         /\ length (Spec.transcript_of r) = 2 * k + 2
         /\ Spec.agent_messages (Spec.transcript_of r) = k + 1)
        \/ (Spec.holds r Spec.TURN_LIMIT_REACHED = false
            /\ 1 <= k /\ (Z.of_nat k <= B - 1)%Z
            /\ length (Spec.transcript_of r) = 2 * k + 1
            /\ Spec.agent_messages (Spec.transcript_of r) = k)).
Proof.
  intros json_loads env scenario personality B HB Hkeys.
  destruct (@ControllerFacts.run_outcome json_loads env scenario personality
              _ HB Hkeys)
    as (goal & r & k & g & u & Hgoal & Hrun & Ht & Hg & Hu & Hk & Hcases).
  destruct (@ControllerFacts.run_single_conversation_returns json_loads env
              scenario personality (Some B) Hkeys)
    as (goal' & r' & Hgoal' & Hrun' & Hh & _).
  rewrite Hrun in Hrun'. injection Hrun' as <-.
  exists r, k. split; [exact Hrun|]. split; [exact Ht|].
  split.
  { rewrite Hh. unfold conversation.
    match goal with
    | |- context [conversation_loop ?e ?p ?g ?i ?m ?st] =>
        destruct (loop_extends e p g i m st) as (suffix & Hs)
    end.
    rewrite Hs. reflexivity. }
  unfold Spec.holds.
  rewrite (ControllerTheorems.flag_of_bool _ _ Hg),
          (ControllerTheorems.flag_of_bool _ _ Hu).
  rewrite ControllerFacts.length_roles.
  destruct Hcases as [(Hf & Hpos & Hr & _)|(-> & -> & Hlast & Hr)].
  - split.
    { rewrite Hr. unfold Spec.opened. rewrite count_occ_cons_eq by reflexivity.
      rewrite <- (app_nil_r (Spec.exchanges k)), count_users_exchanges.
      simpl. lia. }
    right. rewrite (ControllerFacts.agent_messages_opened _ Hr).
    rewrite Hr, ControllerFacts.length_opened.
    split.
    { destruct g, u; simpl in *; try reflexivity; discriminate. }
    repeat split; lia.
  - split.
    { rewrite Hr. unfold Spec.opened. cbn [app].
      rewrite count_occ_cons_eq by reflexivity.
      rewrite count_users_exchanges. simpl. lia. }
    left. rewrite (ControllerFacts.agent_messages_opened_reply _ Hr).
    rewrite Hr, length_app, ControllerFacts.length_opened.
    split; [reflexivity|]. simpl. repeat split; lia.
Qed.

Lemma transcript_length_law_witness :
  exists r (k : nat),
    run_single_conversation Json.loads Examples.torn_env Examples.order_delay
      Examples.frustrated_impatient (Some 7%Z) = Ok r
    /\ dict_get r "turns" = Some (PInt (Z.of_nat k))
    /\ hd_error (Spec.transcript_of r)
         = Some (user_message
                   (generate_initial_message Examples.torn_env
                      Examples.frustrated_impatient Examples.order_delay))
    /\ count_occ string_dec (Spec.roles (Spec.transcript_of r)) "user" = k + 1
    /\ ((Spec.holds r Spec.TURN_LIMIT_REACHED = true
         /\ Z.of_nat k = (7 - 1)%Z
         /\ length (Spec.transcript_of r) = 2 * k + 2
         /\ Spec.agent_messages (Spec.transcript_of r) = k + 1)
        \/ (Spec.holds r Spec.TURN_LIMIT_REACHED = false
            /\ 1 <= k /\ (Z.of_nat k <= 7 - 1)%Z
            /\ length (Spec.transcript_of r) = 2 * k + 1
            /\ Spec.agent_messages (Spec.transcript_of r) = k)).
Proof.
  apply (@transcript_length_law Json.loads Examples.torn_env
           Examples.order_delay Examples.frustrated_impatient 7%Z).
  - lia.
  - reflexivity.
Defined.

(** X8: with the simulated user of [agents/user_agent.py], a run in which
    no answer of the remote model contains [GOAL_MET] or [GIVING_UP] (or
    in which its calls fail) spends the whole budget: it ends by the turn
    limit with [turns = B - 1] and [B] agent replies. *)
Theorem silent_user_spends_budget :
  forall (json_loads : string -> res pyval) (env : Env)
         (scenario personality : dict) (B : Z)
         (messages_create : dict -> pyval -> list Message -> res ApiReply),
  (1 <= B)%Z ->
  Spec.has_keys scenario personality = true ->
  generate_response env = Agents.generate_response messages_create ->
  (forall p g m reply,
      messages_create p g m = Ok reply ->
      contains "GOAL_MET" (reply_text reply) = false
      /\ contains "GIVING_UP" (reply_text reply) = false) ->
  exists r,
    run_single_conversation json_loads env scenario personality (Some B) = Ok r
    /\ Spec.states_holding r = [Spec.TURN_LIMIT_REACHED]
    /\ dict_get r "turns" = Some (PInt (B - 1))
    /\ Z.of_nat (Spec.agent_messages (Spec.transcript_of r)) = B.
Proof.
  intros json_loads env scenario personality B messages_create HB Hkeys Hdriver
         Hsilent.
  destruct (@ControllerFacts.run_outcome json_loads env scenario personality
              _ HB Hkeys)
    as (goal & r & k & g & u & Hgoal & Hrun & Ht & Hg & Hu & Hk & Hcases).
  exists r. split; [exact Hrun|].
  destruct Hcases as [(Hf & _ & _ & h & a & _ & Hg' & Hu')|(-> & -> & Hlast & Hr)].
  - exfalso. cbn zeta in Hg', Hu'. rewrite Hdriver in Hg', Hu'.
    unfold Agents.generate_response in Hg', Hu'.
    destruct (messages_create _ _ _) as [reply|e] eqn:E.
    + destruct (Hsilent _ _ _ _ E) as [H1 H2].
      simpl in Hg', Hu'. rewrite H1 in Hg'. rewrite H2 in Hu'.
      subst g u. discriminate.
    + simpl in Hg', Hu'. subst g u. discriminate.
  - split.
    { unfold Spec.states_holding, Spec.holds. cbn [filter].
      rewrite (ControllerTheorems.flag_of_bool _ _ Hg),
              (ControllerTheorems.flag_of_bool _ _ Hu). reflexivity. }
    split; [rewrite <- Hlast; exact Ht|].
    rewrite (ControllerFacts.agent_messages_opened_reply _ Hr). lia.
Qed.

Lemma silent_user_spends_budget_witness :
  exists r,
    run_single_conversation Json.loads Vocabulary.offline_env
      Examples.order_delay Examples.frustrated_impatient (Some 4%Z) = Ok r
    /\ Spec.states_holding r = [Spec.TURN_LIMIT_REACHED]
    /\ dict_get r "turns" = Some (PInt (4 - 1))
    /\ Z.of_nat (Spec.agent_messages (Spec.transcript_of r)) = 4%Z.
Proof.
  apply (@silent_user_spends_budget Json.loads Vocabulary.offline_env
           Examples.order_delay Examples.frustrated_impatient 4%Z
           Vocabulary.user_api_down).
  - lia.
  - reflexivity.
  - reflexivity.
  - intros p g m reply H. discriminate H.
Defined.

(** X9: every message of the transcript is the opening message or a
    reply one of the two drivers returned; the controller writes no text
    of its own and alters none. *)
Theorem transcript_holds_driver_outputs :
  forall (json_loads : string -> res pyval) (env : Env)
         (scenario personality : dict) (max_turns : option Z) (r : dict),
  run_single_conversation json_loads env scenario personality max_turns
    = Ok r ->
  exists goal,
    dict_get scenario "goal" = Some goal
    /\ Forall (Vocabulary.driver_output env scenario personality goal)
              (Spec.transcript_of r).
Proof.
  intros json_loads env scenario personality max_turns r Hrun.
  assert (Hkeys : Spec.has_keys scenario personality = true).
  { rewrite <- (run_returns_iff_keys json_loads env scenario personality
                  max_turns).
    rewrite Hrun. reflexivity. }
  destruct (@ControllerFacts.run_single_conversation_returns json_loads env
              scenario personality max_turns Hkeys)
    as (goal & r' & Hgoal & Hrun' & Hh & _).
  rewrite Hrun in Hrun'. injection Hrun' as <-.
  exists goal. split; [exact Hgoal|]. rewrite Hh. unfold conversation.
  apply loop_forall.
  - intros s. right. left. unfold support_response. eauto.
  - intros h a. right. right. eauto.
  - constructor; [|constructor]. left. reflexivity.
Qed.

Lemma transcript_holds_driver_outputs_witness :
  exists r goal,
    run_single_conversation Json.loads Examples.torn_env Examples.order_delay
      Examples.frustrated_impatient (Some 5%Z) = Ok r
    /\ dict_get Examples.order_delay "goal" = Some goal
    /\ Forall (Vocabulary.driver_output Examples.torn_env Examples.order_delay
                 Examples.frustrated_impatient goal)
              (Spec.transcript_of r).
Proof.
  destruct (run_single_conversation Json.loads Examples.torn_env
              Examples.order_delay Examples.frustrated_impatient (Some 5%Z))
    as [r|e] eqn:E.
  - destruct (@transcript_holds_driver_outputs Json.loads Examples.torn_env
                Examples.order_delay Examples.frustrated_impatient
                (Some 5%Z) r E) as (goal & Hgoal & Hall).
    exists r, goal. split; [reflexivity|]. split; assumption.
  - vm_compute in E. discriminate E.
Defined.

(** X11: with budget 1 the simulated user is asked for the opening
    message only: replacing its [generate_response] by any other leaves
    the whole result of the run unchanged. *)
Theorem budget_one_never_asks_user :
  forall (json_loads : string -> res pyval) (env : Env)
         (scenario personality : dict)
         (g : dict -> pyval -> list Message -> string -> UserReply.t),
  run_single_conversation json_loads (Vocabulary.with_user env g) scenario
    personality (Some 1%Z)
  = run_single_conversation json_loads env scenario personality (Some 1%Z).
Proof.
  intros json_loads env scenario personality g.
  unfold run_single_conversation.
  destruct (dict_getitem scenario "goal") as [goal|e]; [|reflexivity].
  cbn [bind]. unfold conversation.
  change (or_default (Some 1%Z) self_max_turns) with 1%Z.
  rewrite !loop_break by reflexivity. reflexivity.
Qed.

End ControllerExtras.

(* ===================================================================== *)
(** * Further properties of the aggregator                               *)
(* ===================================================================== *)

Module SortFacts.

Import EvaluationReporter.

Lemma insert_desc_perm : forall (A : Type) (key : A -> Q) x (l : list A),
  Permutation (insert_desc key x l) (x :: l).
Proof.
  induction l as [|y l IH]; simpl; [reflexivity|].
  destruct (Qle_bool (key y) (key x)); [reflexivity|].
  rewrite IH. apply perm_swap.
Qed.

Lemma sorted_desc_perm : forall (A : Type) (key : A -> Q) (l : list A),
  Permutation (sorted_desc key l) l.
Proof.
  induction l as [|x l IH]; simpl; [reflexivity|].
  unfold sorted_desc in *. simpl. rewrite insert_desc_perm. constructor.
  exact IH.
Qed.

Lemma insert_desc_sorted : forall (A : Type) (key : A -> Q) x (l : list A),
  Vocabulary.descending key l ->
  Vocabulary.descending key (insert_desc key x l).
Proof.
  unfold Vocabulary.descending.
  induction l as [|y l IH]; intros Hl; simpl.
  - repeat constructor.
  - apply StronglySorted_inv in Hl. destruct Hl as [Hl Hy].
    destruct (Qle_bool (key y) (key x)) eqn:E.
    + apply Qle_bool_iff in E. constructor.
      * constructor; assumption.
      * constructor; [exact E|].
        eapply Forall_impl; [|exact Hy]. intros z Hz. simpl in Hz.
        eapply Qle_trans; eauto.
    + assert (Hlt : (key x <= key y)%Q).
      { apply Qlt_le_weak, Qnot_le_lt. intros H.
        apply Qle_bool_iff in H. congruence. }
      constructor; [apply IH; exact Hl|].
      eapply Permutation_Forall; [symmetry; apply insert_desc_perm|].
      constructor; assumption.
Qed.

Lemma sorted_desc_sorted : forall (A : Type) (key : A -> Q) (l : list A),
  Vocabulary.descending key (sorted_desc key l).
Proof.
  induction l as [|x l IH]; simpl.
  - constructor.
  - unfold sorted_desc in *. simpl. apply insert_desc_sorted. exact IH.
Qed.

Lemma descending_app : forall (A : Type) (key : A -> Q) (l1 l2 : list A),
  Vocabulary.descending key (l1 ++ l2) ->
  Vocabulary.descending key l1
  /\ forall x y, In x l1 -> In y l2 -> (key y <= key x)%Q.
Proof.
  unfold Vocabulary.descending.
  induction l1 as [|a l1 IH]; intros l2 H; simpl in *.
  - split; [constructor|]. intros x y [].
  - apply StronglySorted_inv in H. destruct H as [H Ha].
    destruct (IH _ H) as [Hs Hcross]. apply Forall_app in Ha.
    destruct Ha as [Ha1 Ha2]. split.
    + constructor; assumption.
    + intros x y [<-|Hx] Hy.
      * rewrite Forall_forall in Ha2. apply Ha2. exact Hy.
      * apply Hcross; assumption.
Qed.

(** The first [n] of the sorted list: as many as asked for when there
    are, taken from the list, in descending order, and no entry left out
    has a greater key than one kept. *)
Lemma top_of_sorted : forall (A : Type) (key : A -> Q) n (l : list A),
  let top := firstn n (sorted_desc key l) in
  length top = Nat.min n (length l)
  /\ incl top l
  /\ Vocabulary.descending key top
  /\ forall x y, In x l -> ~ In x top -> In y top -> (key x <= key y)%Q.
Proof.
  intros A key n l top.
  pose proof (sorted_desc_perm key l) as Hperm.
  pose proof (sorted_desc_sorted key l) as Hsorted.
  rewrite <- (firstn_skipn n (sorted_desc key l)) in Hsorted.
  apply descending_app in Hsorted. destruct Hsorted as [Htop Hcross].
  split.
  { unfold top. rewrite length_firstn, (Permutation_length Hperm).
    reflexivity. }
  split.
  { intros x Hx. apply (Permutation_in _ Hperm).
    rewrite <- (firstn_skipn n (sorted_desc key l)).
    apply in_or_app. left. exact Hx. }
  split; [exact Htop|].
  intros x y Hx Hout Hy. apply Hcross; [exact Hy|].
  apply (Permutation_in _ (Permutation_sym Hperm)) in Hx.
  rewrite <- (firstn_skipn n (sorted_desc key l)) in Hx.
  apply in_app_or in Hx. destruct Hx as [Hx|Hx]; [contradiction|exact Hx].
Qed.

Lemma sum_Z_perm : forall l l',
  Permutation l l' -> Vocabulary.sum_Z l = Vocabulary.sum_Z l'.
Proof.
  intros l l' H. induction H; simpl; lia.
Qed.

Lemma sum_Z_app : forall l l',
  Vocabulary.sum_Z (l ++ l') = (Vocabulary.sum_Z l + Vocabulary.sum_Z l')%Z.
Proof.
  induction l as [|x l IH]; intros l'; simpl; [reflexivity|].
  rewrite IH. lia.
Qed.

Lemma sum_Z_nonneg : forall l,
  Forall (fun n => (0 <= n)%Z) l -> (0 <= Vocabulary.sum_Z l)%Z.
Proof.
  induction 1; simpl; lia.
Qed.

End SortFacts.

Module ReporterExtraFacts.

Import EvaluationReporter.

Ltac bind_inv H :=
  let a := fresh "a" in
  let Ha := fresh "Ha" in
  apply ReporterFacts.bind_ok in H; destruct H as (a & Ha & H).

(** ** Keyed stores *)

Lemma key_store_keys : forall (V : Type) (data : list (pyval * V)) key v,
  map fst (key_store data key v)
    = match key_lookup data key with
      | Some _ => map fst data
      | None => (map fst data ++ [key])%list
      end.
Proof.
  induction data as [|[k v0] data IH]; intros key v; simpl; [reflexivity|].
  destruct (key_eqb k key); simpl; [reflexivity|].
  rewrite IH. destruct (key_lookup data key); reflexivity.
Qed.

Lemma key_store_sum : forall (V : Type) (f : V -> Z)
    (data : list (pyval * V)) key v,
  Vocabulary.sum_Z (map (fun e => f (snd e)) (key_store data key v))
    = (Vocabulary.sum_Z (map (fun e => f (snd e)) data)
       - match key_lookup data key with Some v0 => f v0 | None => 0 end
       + f v)%Z.
Proof.
  induction data as [|[k v0] data IH]; intros key v; simpl; [lia|].
  destruct (key_eqb k key); simpl; [lia|].
  rewrite IH. lia.
Qed.

Lemma key_store_sum_snd : forall (counts : list (pyval * Z)) key n,
  Vocabulary.sum_Z (map snd (key_store counts key n))
    = (Vocabulary.sum_Z (map snd counts)
       - match key_lookup counts key with Some n0 => n0 | None => 0 end
       + n)%Z.
Proof.
  induction counts as [|[k n0] counts IH]; intros key n; simpl; [lia|].
  destruct (key_eqb k key); simpl; [lia|].
  rewrite IH. lia.
Qed.

Lemma key_lookup_none : forall (V : Type) (data : list (pyval * V)) key,
  key_lookup data key = None ->
  Forall (fun k => key_eqb k key = false) (map fst data).
Proof.
  induction data as [|[k v0] data IH]; intros key H; simpl in *.
  - constructor.
  - destruct (key_eqb k key) eqn:E; [discriminate|].
    constructor; [exact E|apply IH; exact H].
Qed.

Lemma distinct_keys_snoc : forall keys key,
  Vocabulary.distinct_keys keys ->
  Forall (fun k => key_eqb k key = false) keys ->
  Vocabulary.distinct_keys (keys ++ [key]).
Proof.
  unfold Vocabulary.distinct_keys.
  induction keys as [|k keys IH]; intros key Hd Hall; simpl.
  - repeat constructor.
  - inversion Hd as [|? ? Hk Hd']; subst.
    apply Forall_cons_iff in Hall. destruct Hall as [Hk0 Hall].
    constructor.
    + apply Forall_app. split; [exact Hk|]. repeat constructor. exact Hk0.
    + apply IH; assumption.
Qed.

Lemma key_store_distinct : forall (V : Type) (data : list (pyval * V)) key v,
  Vocabulary.distinct_keys (map fst data) ->
  Vocabulary.distinct_keys (map fst (key_store data key v)).
Proof.
  intros V data key v H. rewrite key_store_keys.
  destruct (key_lookup data key) eqn:E; [exact H|].
  apply distinct_keys_snoc; [exact H|]. apply key_lookup_none. exact E.
Qed.

(** ** The groups of a dimension *)

Lemma dimension_step_grouped : forall dimension seen data r data',
  Vocabulary.grouped dimension seen data ->
  dimension_step dimension data r = Ok data' ->
  Vocabulary.grouped dimension (seen ++ [r]) data'.
Proof.
  intros dimension seen data r data' (Hsum & Hcounts & Hkeys & Hfrom) Hstep.
  pose proof (@ReporterFacts.dimension_step_counts _ _ _ _ Hcounts Hstep) as Hc'.
  unfold dimension_step in Hstep.
  bind_inv Hstep. bind_inv Hstep. bind_inv Hstep. bind_inv Hstep.
  injection Hstep as <-.
  assert (Hkey : a = Vocabulary.dimension_value dimension r).
  { unfold check_hashable in Ha.
    destruct (hashable _); [|discriminate]. injection Ha as <-. reflexivity. }
  split; [|split; [exact Hc'|split]].
  - unfold Vocabulary.data_counts in *.
    rewrite (key_store_sum DimensionData.count).
    cbn [DimensionData.count]. rewrite Hsum.
    unfold len. rewrite length_app. simpl.
    destruct (key_lookup data a); simpl; lia.
  - apply key_store_distinct. exact Hkeys.
  - rewrite key_store_keys.
    assert (Hold : Forall (fun k => exists r0, In r0 (seen ++ [r])
                              /\ k = Vocabulary.dimension_value dimension r0)
                          (map fst data)).
    { eapply Forall_impl; [|exact Hfrom]. intros k (r0 & Hin & Hk).
      exists r0. split; [apply in_or_app; left; exact Hin|exact Hk]. }
    destruct (key_lookup data a); [exact Hold|].
    apply Forall_app. split; [exact Hold|]. repeat constructor.
    exists r. split; [apply in_or_app; right; left; reflexivity|exact Hkey].
Qed.

Lemma dimension_fold_grouped : forall dimension results seen data data',
  Vocabulary.grouped dimension seen data ->
  fold_left (fun acc result => bind acc (fun d => dimension_step dimension d result))
            results (Ok data) = Ok data' ->
  Vocabulary.grouped dimension (seen ++ results) data'.
Proof.
  induction results as [|r results IH]; intros seen data data' Hg H; simpl in H.
  - injection H as <-. rewrite app_nil_r. exact Hg.
  - destruct (dimension_step dimension data r) as [d1|e] eqn:E.
    + change (seen ++ r :: results)%list with (seen ++ [r] ++ results)%list.
      rewrite app_assoc. eapply IH; [|exact H].
      eapply dimension_step_grouped; eauto.
    + rewrite (ReporterFacts.fold_left_err (dimension_step dimension)) in H.
      discriminate.
Qed.

Lemma dimension_averages_keep : forall data stats,
  dimension_averages data = Ok stats ->
  map fst stats = map fst data
  /\ Vocabulary.group_counts stats = Vocabulary.data_counts data.
Proof.
  induction data as [|[key d] data IH]; intros stats H; simpl in H.
  - injection H as <-. split; reflexivity.
  - bind_inv H. bind_inv H. injection H as <-.
    destruct (IH _ Ha0) as [Hk Hc].
    unfold dimension_average in Ha. bind_inv Ha. bind_inv Ha.
    injection Ha as <-. simpl. rewrite Hk.
    unfold Vocabulary.group_counts, Vocabulary.data_counts in *.
    rewrite Hc. split; reflexivity.
Qed.

(** ** Failure modes *)

Lemma failure_mode_step_tallied : forall seen counts r counts',
  Vocabulary.tallied seen counts ->
  failure_mode_step counts r = Ok counts' ->
  Vocabulary.tallied (seen ++ [r]) counts'.
Proof.
  intros seen counts r counts' (Hsum & Hpos) Hstep.
  unfold failure_mode_step in Hstep. bind_inv Hstep. bind_inv Hstep.
  injection Hstep as <-. split.
  - rewrite key_store_sum_snd. rewrite Hsum.
    unfold len. rewrite length_app. simpl.
    destruct (key_lookup counts a0); lia.
  - apply (ReporterFacts.key_store_forall (fun n : Z => (1 <= n)%Z));
      [exact Hpos|].
    destruct (key_lookup counts a0) as [n|] eqn:E; [|lia].
    apply (@ReporterFacts.key_lookup_forall _ (fun n : Z => (1 <= n)%Z)
             _ _ _ Hpos) in E. lia.
Qed.

Lemma count_failure_modes_tallied : forall valid_results counts,
  count_failure_modes valid_results = Ok counts ->
  Vocabulary.tallied valid_results counts.
Proof.
  intros valid_results counts H. unfold count_failure_modes in H.
  assert (Hgen : forall rs seen c0 c,
            Vocabulary.tallied seen c0 ->
            fold_left (fun acc result =>
                         bind acc (fun cs => failure_mode_step cs result))
                      rs (Ok c0) = Ok c ->
            Vocabulary.tallied (seen ++ rs) c).
  { induction rs as [|r rs IH]; intros seen c0 c Ht Hf; simpl in Hf.
    - injection Hf as <-. rewrite app_nil_r. exact Ht.
    - destruct (failure_mode_step c0 r) as [c1|e] eqn:E.
      + change (seen ++ r :: rs)%list with (seen ++ [r] ++ rs)%list.
        rewrite app_assoc. eapply IH; [|exact Hf].
        eapply failure_mode_step_tallied; eauto.
      + rewrite (ReporterFacts.fold_left_err failure_mode_step) in Hf.
        discriminate. }
  apply (Hgen valid_results [] [] counts); [|exact H].
  split; [reflexivity|constructor].
Qed.

(** ** The failure analysis of a report *)

Lemma aggregate_results_analysis : forall results s fa sb pb,
  aggregate_results results = Ok (Report s fa sb pb) ->
  let valid_results := valid_results_of results in
  worst_performing_categories fa
    = firstn 5 (sorted_desc snd (avg_scores_by_category fa))
  /\ (exists category_scores,
        collect_category_scores valid_results = Ok category_scores
        /\ average_scores category_scores = Ok (avg_scores_by_category fa))
  /\ (exists counts,
        count_failure_modes valid_results = Ok counts
        /\ top_failure_modes fa
             = firstn 10 (sorted_desc (fun x => inject_Z (snd x)) counts)).
Proof.
  intros results s fa sb pb H. cbn zeta. unfold aggregate_results in H.
  destruct results as [|r0 results]; [discriminate|].
  set (all := r0 :: results) in *.
  destruct (valid_results_of all) as [|v valid] eqn:Ev; [discriminate|].
  bind_inv H. bind_inv H. bind_inv H. bind_inv H. bind_inv H. bind_inv H.
  injection H as <- <- <- <-.
  cbn [worst_performing_categories avg_scores_by_category top_failure_modes].
  split; [reflexivity|]. split; eauto.
Qed.

End ReporterExtraFacts.

Module ReporterExtras.

Import EvaluationReporter.

(** X12: [_aggregate_by_dimension] splits its input into groups: the
    counts of the groups add up to the number of results, every group
    counts at least one result, no two groups have the same key, and
    each key is the value some result has under the dimension
    (["unknown"] when it has none).  In a report, the groups of both
    breakdowns add up to [successful_simulations]. *)
Theorem breakdown_partitions_results : forall results,
  (forall dimension stats,
      _aggregate_by_dimension results dimension = Ok stats ->
      Vocabulary.partitions dimension results stats)
  /\ (forall s fa sb pb,
        aggregate_results results = Ok (Report s fa sb pb) ->
        Vocabulary.partitions "scenario_id" (valid_results_of results) sb
        /\ Vocabulary.partitions "personality_id" (valid_results_of results) pb
        /\ Vocabulary.sum_Z (Vocabulary.group_counts sb)
             = successful_simulations s
        /\ Vocabulary.sum_Z (Vocabulary.group_counts pb)
             = successful_simulations s).
Proof.
  assert (Hgroups : forall results dimension stats,
            _aggregate_by_dimension results dimension = Ok stats ->
            Vocabulary.partitions dimension results stats).
  { intros results dimension stats H. unfold _aggregate_by_dimension in H.
    apply ReporterFacts.bind_ok in H. destruct H as (data & Hfold & Havg).
    assert (Hg : Vocabulary.grouped dimension ([] ++ results) data).
    { eapply ReporterExtraFacts.dimension_fold_grouped; [|exact Hfold].
      split; [reflexivity|]. split; [constructor|].
      split; constructor. }
    cbn [app] in Hg. destruct Hg as (Hsum & Hcounts & Hkeys & Hfrom).
    destruct (ReporterExtraFacts.dimension_averages_keep _ Havg) as [Hk Hc].
    unfold Vocabulary.partitions. rewrite Hk, Hc.
    split; [exact Hsum|]. split; [|split; assumption].
    unfold Vocabulary.data_counts. apply Forall_map.
    eapply Forall_impl; [|exact Hcounts]. intros e [_ Hpos]. lia. }
  intros results. split; [apply Hgroups|].
  intros s fa sb pb H.
  destruct (ReporterFacts.aggregate_results_report _ H)
    as (_ & Hs & _ & _ & _ & _ & Hsb & Hpb).
  pose proof (Hgroups _ _ _ Hsb) as Psb.
  pose proof (Hgroups _ _ _ Hpb) as Ppb.
  split; [exact Psb|]. split; [exact Ppb|].
  rewrite Hs. split; [apply Psb|apply Ppb].
Qed.

Lemma breakdown_partitions_results_witness :
  exists s fa sb pb,
    aggregate_results Vocabulary.scored_results = Ok (Report s fa sb pb)
    /\ Vocabulary.partitions "scenario_id"
         (valid_results_of Vocabulary.scored_results) sb
    /\ Vocabulary.sum_Z (Vocabulary.group_counts sb) = 3%Z.
Proof.
  destruct (aggregate_results Vocabulary.scored_results) as [[msg|s fa sb pb]|e]
    eqn:E; try (vm_compute in E; discriminate E).
  exists s, fa, sb, pb. split; [reflexivity|].
  destruct (proj2 (breakdown_partitions_results Vocabulary.scored_results)
              s fa sb pb E) as (H1 & _ & H3 & _).
  split; [exact H1|]. rewrite H3.
  destruct (ReporterFacts.aggregate_results_report _ E) as (_ & Hs & _).
  rewrite Hs. reflexivity.
Defined.



(** X14: the top failure modes of a report are at most ten, each counted
    at least once, in descending order of count; their counts add up to
    at most [successful_simulations], and to exactly that number when
    fewer than ten modes are listed. *)
Theorem top_failure_modes_counts : forall results s fa sb pb,
  aggregate_results results = Ok (Report s fa sb pb) ->
  let top := top_failure_modes fa in
  length top <= 10
  /\ Forall (fun entry => (1 <= snd entry)%Z) top
  /\ Vocabulary.descending (fun entry => inject_Z (snd entry)) top
  /\ (Vocabulary.sum_Z (map snd top) <= successful_simulations s)%Z
  /\ (length top < 10 ->
      Vocabulary.sum_Z (map snd top) = successful_simulations s).
Proof.
  intros results s fa sb pb H. cbn zeta.
  destruct (ReporterExtraFacts.aggregate_results_analysis _ H)
    as (_ & _ & counts & Hcounts & Htop).
  destruct (ReporterFacts.aggregate_results_report _ H) as (_ & Hs & _).
  apply ReporterExtraFacts.count_failure_modes_tallied in Hcounts.
  destruct Hcounts as [Hsum Hpos].
  set (sorted := sorted_desc (fun x : pyval * Z => inject_Z (snd x)) counts)
    in *.
  assert (Hperm : Permutation sorted counts)
    by apply SortFacts.sorted_desc_perm.
  assert (Hpos' : Forall (fun entry : pyval * Z => (1 <= snd entry)%Z) sorted).
  { eapply Permutation_Forall; [symmetry; exact Hperm|exact Hpos]. }
  assert (Htotal : Vocabulary.sum_Z (map snd sorted) = successful_simulations s).
  { rewrite Hs, <- Hsum. apply SortFacts.sum_Z_perm.
    apply Permutation_map. exact Hperm. }
  rewrite Htop.
  destruct (SortFacts.top_of_sorted (fun x : pyval * Z => inject_Z (snd x))
              10 counts) as (Hlen & _ & Hdesc & _).
  fold sorted in Hlen, Hdesc.
  split; [apply firstn_le_length|].
  split.
  { rewrite <- (firstn_skipn 10 sorted) in Hpos'.
    apply Forall_app in Hpos'. apply Hpos'. }
  split; [exact Hdesc|].
  rewrite <- (firstn_skipn 10 sorted) in Htotal.
  rewrite map_app, SortFacts.sum_Z_app in Htotal.
  split.
  - assert (Hrest : (0 <= Vocabulary.sum_Z (map snd (skipn 10 sorted)))%Z).
    { apply SortFacts.sum_Z_nonneg. apply Forall_map.
      rewrite <- (firstn_skipn 10 sorted) in Hpos'.
      apply Forall_app in Hpos'. destruct Hpos' as [_ Hrest].
      eapply Forall_impl; [|exact Hrest]. intros e He. simpl in He. lia. }
    lia.
  - intros Hfew.
    assert (Hall : skipn 10 sorted = []).
    { apply skipn_all2. rewrite length_firstn in Hfew. lia. }
    rewrite Hall in Htotal.
    change (Vocabulary.sum_Z (map snd (@nil (pyval * Z)))) with 0%Z in Htotal.
    lia.
Qed.

Lemma top_failure_modes_counts_witness :
  exists s fa sb pb,
    aggregate_results Vocabulary.scored_results = Ok (Report s fa sb pb)
    /\ length (top_failure_modes fa) <= 10
    /\ Vocabulary.sum_Z (map snd (top_failure_modes fa)) = 3%Z.
Proof.
  destruct (aggregate_results Vocabulary.scored_results) as [[msg|s fa sb pb]|e]
    eqn:E; try (vm_compute in E; discriminate E).
  exists s, fa, sb, pb. split; [reflexivity|].
  destruct (@top_failure_modes_counts Vocabulary.scored_results s fa sb pb E)
    as (H1 & _ & _ & _ & H5).
  split; [exact H1|].
  destruct (ReporterFacts.aggregate_results_report _ E) as (_ & Hs & _).
  rewrite H5; [rewrite Hs; reflexivity|].
  assert (Hfa : Ok (Report s fa sb pb)
                = aggregate_results Vocabulary.scored_results)
    by (symmetry; exact E).
  vm_compute in Hfa. injection Hfa as -> -> -> ->. vm_compute. lia.
Defined.

(** X15: the aggregator answers with the error marker exactly when no
    result is valid: an input that is empty, or whose every entry has an
    ["error"] key (whatever else the entries hold), yields the marker
    without raising, with the message of its case; and a marker is never
    returned when some result is valid. *)
Theorem marker_iff_no_valid_result : forall results,
  (valid_results_of results = [] ->
   aggregate_results results
     = Ok (ErrorMarker (Vocabulary.marker_message results)))
  /\ (forall msg,
        aggregate_results results = Ok (ErrorMarker msg) ->
        valid_results_of results = []
        /\ msg = Vocabulary.marker_message results).
Proof.
  intros results.
  assert (Hfirst : valid_results_of results = [] ->
            aggregate_results results
              = Ok (ErrorMarker (Vocabulary.marker_message results))).
  { intros H. unfold aggregate_results.
    destruct results as [|r0 results]; [reflexivity|]. rewrite H. reflexivity. }
  split; [exact Hfirst|].
  intros msg H.
  pose proof (BatchFacts.marker_means_no_valid_result _ H) as Hvalid.
  split; [exact Hvalid|].
  rewrite (Hfirst Hvalid) in H. injection H as <-. reflexivity.
Qed.

Lemma marker_iff_no_valid_result_witness :
  aggregate_results
    [ [("error", PStr "'goal'"); ("turns", PStr "many")];
      [("error", PNone); ("evaluation", PInt 3)] ]
  = Ok (ErrorMarker "No valid results to aggregate").
Proof.
  apply (proj1 (marker_iff_no_valid_result
                  [ [("error", PStr "'goal'"); ("turns", PStr "many")];
                    [("error", PNone); ("evaluation", PInt 3)] ])).
  reflexivity.
Defined.

(** X16: the entries with an ["error"] key change nothing but two
    counters: the report of an input and the report of its valid results
    alone have the same rates, the same mean turn count, the same failure
    analysis and the same breakdowns; only [total_simulations] and
    [failed_simulations] differ. *)
Theorem error_entries_only_counted : forall results s fa sb pb,
  aggregate_results results = Ok (Report s fa sb pb) ->
  aggregate_results (valid_results_of results)
    = Ok (Report (Vocabulary.without_failures s) fa sb pb).
Proof.
  intros results s fa sb pb H.
  assert (Hidem : forall rs, valid_results_of (valid_results_of rs)
                             = valid_results_of rs).
  { intros rs. unfold valid_results_of.
    apply forallb_filter_id. apply forallb_forall.
    intros r Hr. apply filter_In in Hr. apply Hr. }
  assert (Hnone : forall rs, error_results_of (valid_results_of rs) = []).
  { intros rs. unfold error_results_of, valid_results_of.
    induction rs as [|r rs IH]; [reflexivity|]. simpl.
    destruct (is_error_result r) eqn:E; simpl; [exact IH|].
    rewrite E. exact IH. }
  unfold aggregate_results in H |- *.
  destruct results as [|r0 results]; [discriminate|].
  rewrite Hidem, Hnone.
  destruct (valid_results_of (r0 :: results)) as [|v valid]; [discriminate|].
  destruct (py_sum _) as [total|e]; [|discriminate]. cbn [bind] in H |- *.
  destruct (py_truediv _ _) as [q|e]; [|discriminate]. cbn [bind] in H |- *.
  destruct (collect_category_scores _) as [cs|e]; [|discriminate].
  cbn [bind] in H |- *.
  destruct (average_scores cs) as [avgs|e]; [|discriminate].
  cbn [bind] in H |- *.
  destruct (_aggregate_by_dimension _ "scenario_id") as [sb'|e];
    [|discriminate].
  cbn [bind] in H |- *.
  destruct (_aggregate_by_dimension _ "personality_id") as [pb'|e];
    [|discriminate].
  cbn [bind] in H |- *.
  destruct (count_failure_modes _) as [counts|e]; [|discriminate].
  cbn [bind] in H |- *.
  injection H as <- <- <- <-. reflexivity.
Qed.

Lemma error_entries_only_counted_witness :
  exists s fa sb pb,
    aggregate_results Examples.mixed_results = Ok (Report s fa sb pb)
    /\ aggregate_results (valid_results_of Examples.mixed_results)
         = Ok (Report (Vocabulary.without_failures s) fa sb pb)
    /\ failed_simulations s = 1%Z.
Proof.
  destruct (aggregate_results Examples.mixed_results) as [[msg|s fa sb pb]|e]
    eqn:E; try (vm_compute in E; discriminate E).
  exists s, fa, sb, pb. split; [reflexivity|].
  split; [apply (@error_entries_only_counted _ _ _ _ _ E)|].
  assert (Hs : Ok (Report s fa sb pb) = aggregate_results Examples.mixed_results)
    by (symmetry; exact E).
  vm_compute in Hs. injection Hs as -> -> -> ->. reflexivity.
Defined.

End ReporterExtras.

(* ===================================================================== *)
(** * The catalogs, the targeted test and the service                    *)
(* ===================================================================== *)

Module CatalogFacts.

Import EvaluationOrchestrator.

Lemma scenarios_ok :
  Forall (fun s => Vocabulary.scenario_ok s = true) Config.SCENARIOS.
Proof.
  apply Forall_forall. apply forallb_forall. vm_compute. reflexivity.
Qed.

Lemma personalities_ok :
  Forall (fun p => Vocabulary.personality_ok p = true) Config.PERSONALITIES.
Proof.
  apply Forall_forall. apply forallb_forall. vm_compute. reflexivity.
Qed.

Lemma scenario_ok_parts : forall s,
  Vocabulary.scenario_ok s = true ->
  truthy (PDict s) = true /\ dict_has s "goal" = true /\ Spec.has_id s = true.
Proof.
  intros s H. unfold Vocabulary.scenario_ok in H.
  apply andb_prop in H. destruct H as [H Hid].
  apply andb_prop in H. destruct H as [Ht Hg]. auto.
Qed.

Lemma personality_ok_parts : forall p,
  Vocabulary.personality_ok p = true ->
  truthy (PDict p) = true /\ Spec.has_id p = true.
Proof.
  intros p H. unfold Vocabulary.personality_ok in H.
  apply andb_prop in H. exact H.
Qed.

Lemma ok_has_keys : forall s p,
  Vocabulary.scenario_ok s = true -> Vocabulary.personality_ok p = true ->
  Spec.has_keys s p = true.
Proof.
  intros s p Hs Hp.
  destruct (scenario_ok_parts _ Hs) as (_ & Hg & Hi).
  destruct (personality_ok_parts _ Hp) as (_ & Hpi).
  unfold Spec.has_keys, Spec.has_id in *. rewrite Hg, Hi, Hpi. reflexivity.
Qed.

Lemma catalog_scenarios_have_id :
  Forall (fun s => Spec.has_id s = true) Config.SCENARIOS.
Proof.
  eapply Forall_impl; [|exact scenarios_ok].
  intros s H. apply scenario_ok_parts in H. apply H.
Qed.

Lemma catalog_personalities_have_id :
  Forall (fun p => Spec.has_id p = true) Config.PERSONALITIES.
Proof.
  eapply Forall_impl; [|exact personalities_ok].
  intros p H. apply personality_ok_parts in H. apply H.
Qed.

(** ** The scan for an id *)

Lemma lookup_id_some : forall catalog id entry,
  Config.lookup_id catalog id = Some entry ->
  In entry catalog /\ dict_get entry "id" = Some (PStr id).
Proof.
  induction catalog as [|e catalog IH]; intros id entry H; [discriminate|].
  simpl in H.
  destruct (py_eqb_str (dict_get_default e "id" PNone) id) eqn:E.
  - injection H as <-. split; [left; reflexivity|].
    unfold dict_get_default, py_eqb_str in E.
    destruct (dict_get e "id") as [[| | | |s| |]|]; try discriminate.
    apply String.eqb_eq in E. subst s. reflexivity.
  - destruct (IH _ _ H) as [Hin Hid]. split; [right; exact Hin|exact Hid].
Qed.

Lemma lookup_id_none : forall catalog id,
  Config.lookup_id catalog id = None ->
  Forall (fun entry => py_eqb_str (Vocabulary.id_value entry) id = false) catalog.
Proof.
  induction catalog as [|e catalog IH]; intros id H; [constructor|].
  simpl in H.
  destruct (py_eqb_str (dict_get_default e "id" PNone) id) eqn:E;
    [discriminate|].
  constructor; [exact E|apply IH; exact H].
Qed.

Lemma first_with_id_lookup : forall catalog id,
  Forall (fun entry => Spec.has_id entry = true) catalog ->
  TargetedTest.first_with_id catalog id = Ok (Config.lookup_id catalog id).
Proof.
  induction catalog as [|e catalog IH]; intros id Hall; [reflexivity|].
  inversion Hall as [|? ? He Hrest]; subst. simpl.
  rewrite (BatchFacts.has_id_getitem _ He). cbn [bind].
  destruct (py_eqb_str (dict_get_default e "id" PNone) id); [reflexivity|].
  apply IH. exact Hrest.
Qed.

Lemma with_ids_filter : forall catalog wanted,
  Forall (fun entry => Spec.has_id entry = true) catalog ->
  Service.with_ids catalog wanted = Ok (Vocabulary.wanted_entries catalog wanted).
Proof.
  induction catalog as [|e catalog IH]; intros wanted Hall; [reflexivity|].
  inversion Hall as [|? ? He Hrest]; subst. simpl.
  rewrite (BatchFacts.has_id_getitem _ He). cbn [bind].
  rewrite (IH _ Hrest). cbn [bind]. unfold Vocabulary.id_value.
  destruct (existsb _ wanted); reflexivity.
Qed.

Lemma wanted_entries_unknown : forall catalog wanted,
  (forall id, In id wanted -> Config.lookup_id catalog id = None) ->
  Vocabulary.wanted_entries catalog wanted = [].
Proof.
  intros catalog wanted Hunknown. unfold Vocabulary.wanted_entries.
  induction catalog as [|e catalog IH]; [reflexivity|].
  simpl.
  destruct (existsb (py_eqb_str (Vocabulary.id_value e)) wanted) eqn:E.
  - exfalso. apply existsb_exists in E. destruct E as (id & Hin & Heq).
    specialize (Hunknown id Hin). simpl in Hunknown.
    unfold Vocabulary.id_value in Heq. rewrite Heq in Hunknown. discriminate.
  - apply IH. intros id Hin. specialize (Hunknown id Hin). simpl in Hunknown.
    destruct (py_eqb_str (dict_get_default e "id" PNone) id) eqn:E'.
    + exfalso.
      assert (Hex : existsb (py_eqb_str (Vocabulary.id_value e)) wanted = true).
      { apply existsb_exists. exists id. split; [exact Hin|exact E']. }
      rewrite Hex in E. discriminate.
    + exact Hunknown.
Qed.

Lemma wanted_entries_known : forall catalog wanted id,
  In id wanted -> Config.lookup_id catalog id <> None ->
  Vocabulary.wanted_entries catalog wanted <> [].
Proof.
  intros catalog wanted id Hin Hknown Hempty.
  destruct (Config.lookup_id catalog id) as [entry|] eqn:E; [|congruence].
  destruct (lookup_id_some _ _ E) as [Hentry Hid].
  assert (Hkept : In entry (Vocabulary.wanted_entries catalog wanted)).
  { unfold Vocabulary.wanted_entries. apply filter_In. split; [exact Hentry|].
    apply existsb_exists. exists id. split; [exact Hin|].
    unfold Vocabulary.id_value, dict_get_default. rewrite Hid. simpl.
    apply String.eqb_refl. }
  rewrite Hempty in Hkept. contradiction.
Qed.

Lemma wanted_entries_ids : forall catalog wanted entry,
  In entry (Vocabulary.wanted_entries catalog wanted) ->
  In entry catalog
  /\ exists id, In id wanted /\ Vocabulary.id_value entry = PStr id.
Proof.
  intros catalog wanted entry H. unfold Vocabulary.wanted_entries in H.
  apply filter_In in H. destruct H as [Hin Hex]. split; [exact Hin|].
  apply existsb_exists in Hex. destruct Hex as (id & Hid & Heq).
  exists id. split; [exact Hid|].
  unfold py_eqb_str in Heq.
  destruct (Vocabulary.id_value entry) as [| | | |s| |]; try discriminate.
  apply String.eqb_eq in Heq. subst s. reflexivity.
Qed.

Lemma selected_catalog : forall catalog ids,
  Forall (fun entry => Spec.has_id entry = true) catalog ->
  Service.selected catalog ids
    = Ok (match ids with
          | Some ((_ :: _) as wanted) => Vocabulary.wanted_entries catalog wanted
          | _ => catalog
          end).
Proof.
  intros catalog [[|id ids]|] Hall; try reflexivity.
  unfold Service.selected. apply with_ids_filter. exact Hall.
Qed.

End CatalogFacts.

Module BatchExtraFacts.

Import EvaluationOrchestrator.
Import EvaluationReporter.

(** The ids a result of the controller carries are those of its scenario
    and of its personality. *)
Lemma run_ok_ids : forall json_loads env scenario personality max_turns r,
  run_single_conversation json_loads env scenario personality max_turns = Ok r ->
  dict_get r "scenario_id" = dict_get scenario "id"
  /\ dict_get r "personality_id" = dict_get personality "id".
Proof.
  intros json_loads env scenario personality max_turns r H.
  unfold run_single_conversation in H.
  apply ReporterFacts.bind_ok in H. destruct H as (goal & _ & H).
  apply ReporterFacts.bind_ok in H. destruct H as (sid & Hsid & H).
  apply ReporterFacts.bind_ok in H. destruct H as (pid & Hpid & H).
  injection H as <-. unfold dict_getitem in Hsid, Hpid.
  destruct (dict_get scenario "id"); [|discriminate].
  destruct (dict_get personality "id"); [|discriminate].
  injection Hsid as <-. injection Hpid as <-. split; reflexivity.
Qed.

Section Batch.

Variable json_loads : string -> res pyval.
Variable env_of_run : nat -> Env.
Variable draws : nat -> nat * nat.
Variable scenarios personalities : list dict.

Local Abbreviation entry :=
  (Spec.batch_entry json_loads env_of_run draws scenarios personalities).

(** Result or stub, the entry of a run names the scenario drawn. *)
Lemma entry_scenario_id : forall i,
  Spec.has_id (Spec.pick (fst (draws i)) scenarios) = true ->
  dict_get (entry i) "scenario_id"
    = Some (Vocabulary.id_value (Spec.pick (fst (draws i)) scenarios)).
Proof.
  intros i Hid. apply ControllerFacts.dict_has_get in Hid.
  destruct Hid as (v & Hv).
  unfold Spec.batch_entry, Spec.run_of, Vocabulary.id_value, dict_get_default.
  destruct (run_single_conversation _ _ _ _ _) as [r|e] eqn:E.
  - apply run_ok_ids in E. destruct E as [E _]. rewrite E, Hv. reflexivity.
  - unfold Spec.stub, dict_get_default. rewrite Hv. reflexivity.
Qed.

Lemma entry_personality_id : forall i,
  Spec.has_id (Spec.pick (snd (draws i)) personalities) = true ->
  dict_get (entry i) "personality_id"
    = Some (Vocabulary.id_value (Spec.pick (snd (draws i)) personalities)).
Proof.
  intros i Hid. apply ControllerFacts.dict_has_get in Hid.
  destruct Hid as (v & Hv).
  unfold Spec.batch_entry, Spec.run_of, Vocabulary.id_value, dict_get_default.
  destruct (run_single_conversation _ _ _ _ _) as [r|e] eqn:E.
  - apply run_ok_ids in E. destruct E as [_ E]. rewrite E, Hv. reflexivity.
  - unfold Spec.stub, dict_get_default. rewrite Hv. reflexivity.
Qed.

End Batch.

(** The batch on catalogs whose entries all have an id. *)
Lemma batch_of_catalogs :
  forall json_loads env_of_run draws N (scenarios personalities : list dict),
  scenarios <> [] -> personalities <> [] ->
  Forall (fun entry => Spec.has_id entry = true) scenarios ->
  Forall (fun entry => Spec.has_id entry = true) personalities ->
  run_batch_simulations json_loads env_of_run draws N
    (Some scenarios) (Some personalities)
  = Ok (map (Spec.batch_entry json_loads env_of_run draws scenarios
               personalities)
            (seq 0 (Z.to_nat N))).
Proof.
  intros json_loads env_of_run draws N scenarios personalities Hs Hp Hsid Hpid.
  unfold run_batch_simulations.
  assert (Es : or_catalog (Some scenarios) Config.SCENARIOS = scenarios).
  { destruct scenarios; [congruence|reflexivity]. }
  assert (Ep : or_catalog (Some personalities) Config.PERSONALITIES
               = personalities).
  { destruct personalities; [congruence|reflexivity]. }
  rewrite Es, Ep.
  apply (@BatchFacts.batch_fold json_loads env_of_run draws scenarios
           personalities Hs Hp Hsid Hpid (Z.to_nat N) 0 []).
Qed.

(** An empty selection and no selection run the same batch. *)
Lemma batch_of_nothing :
  forall json_loads env_of_run draws N (personalities : option (list dict)),
  run_batch_simulations json_loads env_of_run draws N (Some []) personalities
  = run_batch_simulations json_loads env_of_run draws N
      (Some Config.SCENARIOS) personalities.
Proof. reflexivity. Qed.

Lemma batch_of_nobody :
  forall json_loads env_of_run draws N (scenarios : option (list dict)),
  run_batch_simulations json_loads env_of_run draws N scenarios (Some [])
  = run_batch_simulations json_loads env_of_run draws N scenarios
      (Some Config.PERSONALITIES).
Proof. reflexivity. Qed.

End BatchExtraFacts.

Module BatchExtras.

Import EvaluationOrchestrator.
Import EvaluationReporter.

(** X17: when every scenario offered has a goal and an id and every
    personality an id, as in the two catalogs of the repository, no run
    of a batch raises: the batch holds [N] results of the controller and
    no stub, so every entry counts as valid. *)
Theorem keyed_batch_has_no_stub :
  forall (json_loads : string -> res pyval) (env_of_run : nat -> Env)
         (draws : nat -> nat * nat) (N : Z)
         (scenarios personalities : option (list dict)),
  let catalog := or_catalog scenarios Config.SCENARIOS in
  let personas := or_catalog personalities Config.PERSONALITIES in
  (forall s p, In s catalog -> In p personas -> Spec.has_keys s p = true) ->
  exists results,
    run_batch_simulations json_loads env_of_run draws N scenarios personalities
      = Ok results
    /\ length results = Z.to_nat N
    /\ (forall i, i < Z.to_nat N ->
          exists r,
            nth_error results i = Some r
            /\ Spec.run_of json_loads env_of_run draws catalog personas i
               = Ok r)
    /\ Forall (fun r => is_error_result r = false) results
    /\ valid_results_of results = results.
Proof.
  intros json_loads env_of_run draws N scenarios personalities catalog personas
         Hkeys.
  assert (Hne1 : catalog <> []).
  { apply BatchFacts.or_catalog_nonempty. discriminate. }
  assert (Hne2 : personas <> []).
  { apply BatchFacts.or_catalog_nonempty. discriminate. }
  assert (Hsid : Forall (fun entry => Spec.has_id entry = true) catalog).
  { apply Forall_forall. intros s Hs.
    destruct personas as [|p personas']; [congruence|].
    specialize (Hkeys s p Hs (or_introl eq_refl)).
    unfold Spec.has_keys in Hkeys.
    apply andb_prop in Hkeys. destruct Hkeys as [Hkeys _].
    apply andb_prop in Hkeys. apply Hkeys. }
  assert (Hpid : Forall (fun entry => Spec.has_id entry = true) personas).
  { apply Forall_forall. intros p Hp.
    destruct catalog as [|s catalog']; [congruence|].
    specialize (Hkeys s p (or_introl eq_refl) Hp).
    unfold Spec.has_keys in Hkeys.
    apply andb_prop in Hkeys. apply Hkeys. }
  pose proof (@BatchFacts.batch_fold json_loads env_of_run draws catalog
                personas Hne1 Hne2 Hsid Hpid (Z.to_nat N) 0 [])
    as Hfold.
  cbn [app] in Hfold.
  eexists. split; [exact Hfold|].
  assert (Hrun : forall i, exists r,
            Spec.run_of json_loads env_of_run draws catalog personas i = Ok r
            /\ Spec.batch_entry json_loads env_of_run draws catalog personas i
               = r
            /\ is_error_result r = false).
  { intros i.
    assert (Hk : Spec.has_keys (Spec.pick (fst (draws i)) catalog)
                   (Spec.pick (snd (draws i)) personas) = true).
    { apply Hkeys; apply BatchFacts.pick_in; assumption. }
    destruct (@ControllerFacts.run_single_conversation_returns json_loads
                (env_of_run i) _ _ None Hk)
      as (goal & r & _ & Hr & _ & _ & _ & _ & Herr).
    exists r. unfold Spec.batch_entry, Spec.run_of. rewrite Hr.
    split; [reflexivity|]. split; [reflexivity|exact Herr]. }
  assert (Hall : Forall (fun r => is_error_result r = false)
            (map (Spec.batch_entry json_loads env_of_run draws catalog personas)
                 (seq 0 (Z.to_nat N)))).
  { apply Forall_forall. intros r Hr. apply in_map_iff in Hr.
    destruct Hr as (i & <- & _).
    destruct (Hrun i) as (r & _ & -> & Herr). exact Herr. }
  split; [rewrite length_map, length_seq; reflexivity|].
  split.
  { intros i Hi. destruct (Hrun i) as (r & Hr & He & _).
    exists r. split; [|exact Hr].
    rewrite nth_error_map.
    rewrite (nth_error_nth' _ 0) by (rewrite length_seq; exact Hi).
    rewrite seq_nth by exact Hi. simpl. rewrite He. reflexivity. }
  split; [exact Hall|].
  unfold valid_results_of. apply forallb_filter_id. apply forallb_forall.
  intros r Hr. rewrite Forall_forall in Hall. rewrite (Hall r Hr). reflexivity.
Qed.

Lemma keyed_batch_has_no_stub_witness :
  exists results,
    run_batch_simulations Json.loads (fun _ => Examples.quiet_env)
      (fun i => (i, 3 * i)) 4 None None = Ok results
    /\ length results = 4
    /\ valid_results_of results = results.
Proof.
  destruct (@keyed_batch_has_no_stub Json.loads (fun _ => Examples.quiet_env)
              (fun i => (i, 3 * i)) 4 None None)
    as (results & Hrun & Hlen & _ & _ & Hvalid).
  - intros s p Hs Hp. apply CatalogFacts.ok_has_keys.
    + pose proof CatalogFacts.scenarios_ok as H.
      rewrite Forall_forall in H. apply H. exact Hs.
    + pose proof CatalogFacts.personalities_ok as H.
      rewrite Forall_forall in H. apply H. exact Hp.
  - exists results. split; [exact Hrun|]. split; [exact Hlen|exact Hvalid].
Defined.

(** X18: a batch of size zero or less runs nothing, whatever the
    catalogs: the runner returns the empty list, and the aggregate the
    service computes from it is the marker for an empty input. *)
Theorem empty_batch_reports_marker :
  forall (json_loads : string -> res pyval) (env_of_run : nat -> Env)
         (draws : nat -> nat * nat) (N : Z)
         (scenarios personalities : option (list dict))
         (scenario_ids personality_ids : option (list string)),
  (N <= 0)%Z ->
  run_batch_simulations json_loads env_of_run draws N scenarios personalities
    = Ok []
  /\ Service.batch_aggregated json_loads env_of_run draws N scenario_ids
       personality_ids
     = Ok (ErrorMarker "No results to aggregate").
Proof.
  intros json_loads env_of_run draws N scenarios personalities scenario_ids
         personality_ids HN.
  assert (HN0 : Z.to_nat N = 0) by lia.
  split.
  - unfold run_batch_simulations. rewrite HN0. reflexivity.
  - unfold Service.batch_aggregated, Service.batch_results.
    rewrite (CatalogFacts.selected_catalog scenario_ids
               CatalogFacts.catalog_scenarios_have_id).
    rewrite (CatalogFacts.selected_catalog personality_ids
               CatalogFacts.catalog_personalities_have_id).
    cbn [bind]. unfold run_batch_simulations. rewrite HN0. reflexivity.
Qed.

Lemma empty_batch_reports_marker_witness :
  run_batch_simulations Json.loads (fun _ => Examples.quiet_env)
    Examples.three_draws (-2) (Some Examples.three_scenarios) None = Ok []
  /\ Service.batch_aggregated Json.loads (fun _ => Examples.quiet_env)
       Examples.three_draws (-2) (Some ["order_delay"]) None
     = Ok (ErrorMarker "No results to aggregate").
Proof.
  apply (@empty_batch_reports_marker Json.loads (fun _ => Examples.quiet_env)
           Examples.three_draws (-2)%Z (Some Examples.three_scenarios) None
           (Some ["order_delay"]) None).
  lia.
Defined.

(** X19: ids that name no entry of a catalog select nothing, and an
    empty selection is replaced by the whole catalog: a batch asked for
    unknown scenarios only (or unknown personalities only) is the batch
    asked for no scenario (no personality) in particular. *)
Theorem unknown_ids_select_everything :
  forall (json_loads : string -> res pyval) (env_of_run : nat -> Env)
         (draws : nat -> nat * nat) (N : Z)
         (scenario_ids personality_ids : list string),
  (forall id, In id scenario_ids -> Config.get_scenario id = None) ->
  (forall id, In id personality_ids -> Config.get_personality id = None) ->
  forall others : option (list string),
  Service.batch_results json_loads env_of_run draws N (Some scenario_ids) others
    = Service.batch_results json_loads env_of_run draws N None others
  /\ Service.batch_results json_loads env_of_run draws N others
       (Some personality_ids)
     = Service.batch_results json_loads env_of_run draws N others None.
Proof.
  intros json_loads env_of_run draws N scenario_ids personality_ids Hs Hp others.
  unfold Service.batch_results.
  rewrite !(CatalogFacts.selected_catalog _ CatalogFacts.catalog_scenarios_have_id).
  rewrite !(CatalogFacts.selected_catalog _ CatalogFacts.catalog_personalities_have_id).
  cbn [bind]. split.
  - destruct scenario_ids as [|id ids]; [reflexivity|].
    rewrite (CatalogFacts.wanted_entries_unknown Config.SCENARIOS (id :: ids))
      by exact Hs.
    apply BatchExtraFacts.batch_of_nothing.
  - destruct personality_ids as [|id ids]; [reflexivity|].
    rewrite (CatalogFacts.wanted_entries_unknown Config.PERSONALITIES
               (id :: ids)) by exact Hp.
    apply BatchExtraFacts.batch_of_nobody.
Qed.

Lemma unknown_ids_select_everything_witness :
  Service.batch_results Json.loads (fun _ => Examples.quiet_env)
    (fun i => (i, i)) 2 (Some ["no_such_scenario"]) None
  = Service.batch_results Json.loads (fun _ => Examples.quiet_env)
      (fun i => (i, i)) 2 None None.
Proof.
  assert (Hs : forall id, In id ["no_such_scenario"] ->
                          Config.get_scenario id = None).
  { intros id [<-|[]]. reflexivity. }
  assert (Hp : forall id, In id ["nobody"] -> Config.get_personality id = None).
  { intros id [<-|[]]. reflexivity. }
  destruct (@unknown_ids_select_everything Json.loads
              (fun _ => Examples.quiet_env) (fun i => (i, i)) 2
              ["no_such_scenario"] ["nobody"] Hs Hp None) as [H _].
  exact H.
Defined.

(** X20: when at least one requested scenario id names a scenario of the
    catalog, the batch of the service has [N] entries and every entry,
    result or stub, carries a requested id as its ["scenario_id"]; the
    same for personalities. *)
Theorem requested_ids_only :
  forall (json_loads : string -> res pyval) (env_of_run : nat -> Env)
         (draws : nat -> nat * nat) (N : Z)
         (scenario_ids personality_ids : list string),
  (exists id, In id scenario_ids /\ Config.get_scenario id <> None) ->
  (exists id, In id personality_ids /\ Config.get_personality id <> None) ->
  exists results,
    Service.batch_results json_loads env_of_run draws N (Some scenario_ids)
      (Some personality_ids) = Ok results
    /\ length results = Z.to_nat N
    /\ Forall (fun r =>
                 (exists id, In id scenario_ids
                             /\ dict_get r "scenario_id" = Some (PStr id))
                 /\ (exists id, In id personality_ids
                                /\ dict_get r "personality_id"
                                   = Some (PStr id)))
              results.
Proof.
  intros json_loads env_of_run draws N scenario_ids personality_ids
         (sid & Hsin & Hsknown) (pid & Hpin & Hpknown).
  unfold Service.batch_results.
  rewrite (CatalogFacts.selected_catalog _ CatalogFacts.catalog_scenarios_have_id).
  rewrite (CatalogFacts.selected_catalog _ CatalogFacts.catalog_personalities_have_id).
  cbn [bind].
  destruct scenario_ids as [|s0 sids]; [contradiction|].
  destruct personality_ids as [|p0 pids]; [contradiction|].
  set (catalog := Vocabulary.wanted_entries Config.SCENARIOS (s0 :: sids)).
  set (personas := Vocabulary.wanted_entries Config.PERSONALITIES (p0 :: pids)).
  assert (Hne1 : catalog <> []).
  { apply (@CatalogFacts.wanted_entries_known _ _ _ Hsin Hsknown). }
  assert (Hne2 : personas <> []).
  { apply (@CatalogFacts.wanted_entries_known _ _ _ Hpin Hpknown). }
  assert (Hsid : Forall (fun entry => Spec.has_id entry = true) catalog).
  { apply Forall_forall. intros e He.
    apply CatalogFacts.wanted_entries_ids in He. destruct He as [He _].
    pose proof CatalogFacts.catalog_scenarios_have_id as H.
    rewrite Forall_forall in H. apply H. exact He. }
  assert (Hpid : Forall (fun entry => Spec.has_id entry = true) personas).
  { apply Forall_forall. intros e He.
    apply CatalogFacts.wanted_entries_ids in He. destruct He as [He _].
    pose proof CatalogFacts.catalog_personalities_have_id as H.
    rewrite Forall_forall in H. apply H. exact He. }
  rewrite (@BatchExtraFacts.batch_of_catalogs json_loads env_of_run draws N
             catalog personas Hne1 Hne2 Hsid Hpid).
  eexists. split; [reflexivity|].
  split; [rewrite length_map, length_seq; reflexivity|].
  apply Forall_forall. intros r Hr. apply in_map_iff in Hr.
  destruct Hr as (i & <- & _).
  assert (Hs : In (Spec.pick (fst (draws i)) catalog) catalog)
    by (apply BatchFacts.pick_in; exact Hne1).
  assert (Hp : In (Spec.pick (snd (draws i)) personas) personas)
    by (apply BatchFacts.pick_in; exact Hne2).
  split.
  - rewrite BatchExtraFacts.entry_scenario_id.
    + apply CatalogFacts.wanted_entries_ids in Hs.
      destruct Hs as (_ & id & Hid & Hv). exists id. rewrite Hv.
      split; [exact Hid|reflexivity].
    + rewrite Forall_forall in Hsid. apply Hsid. exact Hs.
  - rewrite BatchExtraFacts.entry_personality_id.
    + apply CatalogFacts.wanted_entries_ids in Hp.
      destruct Hp as (_ & id & Hid & Hv). exists id. rewrite Hv.
      split; [exact Hid|reflexivity].
    + rewrite Forall_forall in Hpid. apply Hpid. exact Hp.
Qed.

Lemma requested_ids_only_witness :
  exists results,
    Service.batch_results Json.loads (fun _ => Examples.quiet_env)
      (fun i => (i, 2 * i)) 5 (Some ["wrong_item"; "no_such_scenario"])
      (Some ["calm_polite"; "angry_demanding"]) = Ok results
    /\ length results = 5
    /\ Forall (fun r =>
                 (exists id, In id ["wrong_item"; "no_such_scenario"]
                             /\ dict_get r "scenario_id" = Some (PStr id))
                 /\ (exists id, In id ["calm_polite"; "angry_demanding"]
                                /\ dict_get r "personality_id"
                                   = Some (PStr id)))
              results.
Proof.
  apply (@requested_ids_only Json.loads (fun _ => Examples.quiet_env)
           (fun i => (i, 2 * i)) 5 ["wrong_item"; "no_such_scenario"]
           ["calm_polite"; "angry_demanding"]).
  - exists "wrong_item". split; [left; reflexivity|]. vm_compute. discriminate.
  - exists "calm_polite". split; [left; reflexivity|]. vm_compute. discriminate.
Defined.

End BatchExtras.

Module TargetedFacts.

Import EvaluationOrchestrator.
Import EvaluationReporter.

Lemma scenario_found : forall id s,
  Config.get_scenario id = Some s ->
  Vocabulary.scenario_ok s = true /\ dict_get s "id" = Some (PStr id).
Proof.
  intros id s H. apply CatalogFacts.lookup_id_some in H. destruct H as [Hin Hid].
  split; [|exact Hid].
  pose proof CatalogFacts.scenarios_ok as Hok.
  rewrite Forall_forall in Hok. apply Hok. exact Hin.
Qed.

Lemma personality_found : forall id p,
  Config.get_personality id = Some p ->
  Vocabulary.personality_ok p = true /\ dict_get p "id" = Some (PStr id).
Proof.
  intros id p H. apply CatalogFacts.lookup_id_some in H. destruct H as [Hin Hid].
  split; [|exact Hid].
  pose proof CatalogFacts.personalities_ok as Hok.
  rewrite Forall_forall in Hok. apply Hok. exact Hin.
Qed.

Lemma absent_scenario : forall id,
  TargetedTest.absent (Config.get_scenario id)
    = match Config.get_scenario id with None => true | Some _ => false end.
Proof.
  intros id. destruct (Config.get_scenario id) as [s|] eqn:E; [|reflexivity].
  apply scenario_found in E. destruct E as [Hok _].
  apply CatalogFacts.scenario_ok_parts in Hok. destruct Hok as [Ht _].
  unfold TargetedTest.absent. rewrite Ht. reflexivity.
Qed.

Lemma absent_personality : forall id,
  TargetedTest.absent (Config.get_personality id)
    = match Config.get_personality id with None => true | Some _ => false end.
Proof.
  intros id. destruct (Config.get_personality id) as [p|] eqn:E; [|reflexivity].
  apply personality_found in E. destruct E as [Hok _].
  apply CatalogFacts.personality_ok_parts in Hok. destruct Hok as [Ht _].
  unfold TargetedTest.absent. rewrite Ht. reflexivity.
Qed.

(** The personality of a single test. *)
Lemma chosen_personality_cases : forall personality_id,
  TargetedTest.chosen_personality personality_id
    = Ok (match personality_id with
          | Some ((String _ _) as id) => Config.get_personality id
          | _ => Some (hd [] Config.PERSONALITIES)
          end).
Proof.
  intros [[|c id]|]; try reflexivity.
  unfold TargetedTest.chosen_personality.
  apply (CatalogFacts.first_with_id_lookup (String c id)
           CatalogFacts.catalog_personalities_have_id).
Qed.

Lemma first_personality_ok :
  Vocabulary.personality_ok (hd [] Config.PERSONALITIES) = true.
Proof. reflexivity. Qed.

(** A run on a scenario and a personality of the catalogs returns, and
    the result carries their ids. *)
Lemma run_of_catalog_entries :
  forall json_loads env s p max_turns sid pid,
  Vocabulary.scenario_ok s = true -> Vocabulary.personality_ok p = true ->
  dict_get s "id" = Some sid -> dict_get p "id" = Some pid ->
  exists r,
    run_single_conversation json_loads env s p max_turns = Ok r
    /\ dict_get r "scenario_id" = Some sid
    /\ dict_get r "personality_id" = Some pid
    /\ is_error_result r = false.
Proof.
  intros json_loads env s p max_turns sid pid Hs Hp Hsid Hpid.
  destruct (@ControllerFacts.run_single_conversation_returns json_loads env
              s p max_turns (CatalogFacts.ok_has_keys _ _ Hs Hp))
    as (goal & r & _ & Hr & _ & _ & _ & _ & Herr).
  exists r. split; [exact Hr|].
  destruct (BatchExtraFacts.run_ok_ids _ _ _ _ _ Hr) as [H1 H2].
  rewrite H1, H2. repeat split; assumption.
Qed.

Section Each.

Variable json_loads : string -> res pyval.
Variable env_of_run : nat -> Env.
Variable scenario : dict.
Hypothesis scenario_is_ok : Vocabulary.scenario_ok scenario = true.

(** The loop over the personalities runs one conversation for each, in
    order. *)
Lemma run_each_returns : forall personalities i results,
  Forall (fun p => Vocabulary.personality_ok p = true) personalities ->
  exists added,
    TargetedTest.run_each json_loads env_of_run scenario personalities i results
      = Ok (results ++ added)%list
    /\ length added = length personalities
    /\ forall k p, nth_error personalities k = Some p ->
         exists r,
           nth_error added k = Some r
           /\ run_single_conversation json_loads (env_of_run (i + k)) scenario
                p None = Ok r.
Proof.
  induction personalities as [|p personalities IH]; intros i results Hall.
  - exists []. simpl. rewrite app_nil_r. split; [reflexivity|].
    split; [reflexivity|]. intros [|k] p H; discriminate.
  - inversion Hall as [|? ? Hp Hrest]; subst.
    destruct (@ControllerFacts.run_single_conversation_returns json_loads
                (env_of_run i) scenario p None
                (CatalogFacts.ok_has_keys _ _ scenario_is_ok Hp))
      as (goal & r & _ & Hr & _).
    destruct (IH (S i) (results ++ [r])%list Hrest) as (added & Hrun & Hlen & Hnth).
    exists (r :: added). simpl. rewrite Hr. cbn [bind].
    rewrite Hrun, <- app_assoc. split; [reflexivity|].
    split; [simpl; rewrite Hlen; reflexivity|].
    intros [|k] q Hq; simpl in Hq.
    + injection Hq as <-. exists r. rewrite Nat.add_0_r.
      split; [reflexivity|exact Hr].
    + destruct (Hnth k q Hq) as (r' & Hr' & Hrun').
      exists r'. split; [exact Hr'|].
      replace (i + S k) with (S i + k) by lia. exact Hrun'.
Qed.

End Each.

End TargetedFacts.

Module TargetedExtras.

Import EvaluationOrchestrator.
Import EvaluationReporter.
Import TargetedTest.

(** X21: a targeted test raises nothing but its two [ValueError]s: for a
    scenario id that is not in the catalog, and, when a single
    personality is asked for by a non-empty id, for a personality id that
    is not in the catalog.  Otherwise it returns: one result per
    personality of the catalog when all are asked for, one result
    otherwise, each a result of the controller with the scenario id
    asked for. *)
Theorem targeted_test_outcomes :
  forall (json_loads : string -> res pyval) (env_of_run : nat -> Env)
         (scenario_id : string) (personality_id : option string)
         (all_personalities : bool),
  match run_targeted_test json_loads env_of_run scenario_id personality_id
          all_personalities with
  | Returned results =>
      Config.get_scenario scenario_id <> None
      /\ length results
         = (if all_personalities then length Config.PERSONALITIES else 1)
      /\ Forall (fun r => dict_get r "scenario_id" = Some (PStr scenario_id)
                          /\ is_error_result r = false)
                results
  | Raises (ValueError msg) =>
      (Config.get_scenario scenario_id = None
       /\ msg = "Scenario " ++ scenario_id ++ " not found")
      \/ (Config.get_scenario scenario_id <> None
          /\ all_personalities = false
          /\ exists id,
               personality_id = Some id /\ id <> ""
               /\ Config.get_personality id = None
               /\ msg = "Personality " ++ id ++ " not found")
  | Raises (Uncaught _) => False
  end.
Proof.
  intros json_loads env_of_run scenario_id personality_id all_personalities.
  unfold run_targeted_test.
  rewrite (CatalogFacts.first_with_id_lookup scenario_id
             CatalogFacts.catalog_scenarios_have_id).
  fold (Config.get_scenario scenario_id).
  rewrite TargetedFacts.absent_scenario.
  destruct (Config.get_scenario scenario_id) as [s|] eqn:Es.
  2: { left. split; reflexivity. }
  destruct (TargetedFacts.scenario_found _ Es) as [Hs Hsid].
  cbn [found_or_empty].
  destruct all_personalities.
  - destruct (@TargetedFacts.run_each_returns json_loads env_of_run s Hs
                Config.PERSONALITIES 0 [] CatalogFacts.personalities_ok)
      as (added & Hrun & Hlen & Hnth).
    rewrite Hrun. cbn [app].
    split; [discriminate|]. split; [exact Hlen|].
    apply Forall_forall. intros r Hr.
    apply In_nth_error in Hr. destruct Hr as (k & Hk).
    assert (Hlt : k < length Config.PERSONALITIES).
    { rewrite <- Hlen. apply nth_error_Some. congruence. }
    destruct (nth_error Config.PERSONALITIES k) as [p|] eqn:Ep.
    2: { apply nth_error_None in Ep. lia. }
    destruct (Hnth k p Ep) as (r' & Hr' & Hrun').
    rewrite Hk in Hr'. injection Hr' as <-.
    destruct (BatchExtraFacts.run_ok_ids _ _ _ _ _ Hrun') as [H1 _].
    rewrite H1, Hsid. split; [reflexivity|].
    apply (BatchFacts.run_ok_no_error _ _ _ _ _ Hrun').
  - rewrite TargetedFacts.chosen_personality_cases.
    assert (Hone : forall p pid,
              Vocabulary.personality_ok p = true ->
              dict_get p "id" = Some pid ->
              match
                match run_single_conversation json_loads (env_of_run 0) s p None
                with
                | Ok result => Returned [result]
                | Err e => Raises (Uncaught e)
                end
              with
              | Returned results =>
                  Some s <> None /\ length results = 1
                  /\ Forall (fun r =>
                               dict_get r "scenario_id" = Some (PStr scenario_id)
                               /\ is_error_result r = false) results
              | Raises (ValueError _) => False
              | Raises (Uncaught _) => False
              end).
    { intros p pid Hp Hpid.
      destruct (@TargetedFacts.run_of_catalog_entries json_loads (env_of_run 0)
                  s p None _ _ Hs Hp Hsid Hpid) as (r & Hr & H1 & _ & Herr).
      rewrite Hr. split; [discriminate|]. split; [reflexivity|].
      constructor; [|constructor]. split; assumption. }
    assert (Hfirst : exists pid,
              dict_get (hd [] Config.PERSONALITIES) "id" = Some pid).
    { eexists. reflexivity. }
    destruct Hfirst as (pid0 & Hpid0).
    assert (Hdefault :
              absent (Some (hd [] Config.PERSONALITIES)) = false).
    { reflexivity. }
    destruct personality_id as [[|c id]|].
    + rewrite Hdefault. cbn [found_or_empty].
      specialize (Hone _ _ TargetedFacts.first_personality_ok Hpid0).
      destruct (run_single_conversation _ _ _ _ _); [exact Hone|].
      exact Hone.
    + rewrite TargetedFacts.absent_personality.
      destruct (Config.get_personality (String c id)) as [p|] eqn:Ep.
      * destruct (TargetedFacts.personality_found _ Ep) as [Hp Hpid].
        cbn [found_or_empty].
        specialize (Hone _ _ Hp Hpid).
        destruct (run_single_conversation _ _ _ _ _); exact Hone.
      * right. split; [discriminate|]. split; [reflexivity|].
        exists (String c id). split; [reflexivity|]. split; [discriminate|].
        split; [exact Ep|reflexivity].
    + rewrite Hdefault. cbn [found_or_empty].
      specialize (Hone _ _ TargetedFacts.first_personality_ok Hpid0).
      destruct (run_single_conversation _ _ _ _ _); exact Hone.
Qed.

(** X22: asked for all personalities, the test of a scenario of the
    catalog ignores the personality id and returns, in the order of the
    catalog, the result of the controller for each personality. *)
Theorem targeted_test_all_personalities :
  forall (json_loads : string -> res pyval) (env_of_run : nat -> Env)
         (scenario_id : string) (personality_id : option string) (s : dict),
  Config.get_scenario scenario_id = Some s ->
  exists results,
    run_targeted_test json_loads env_of_run scenario_id personality_id true
      = Returned results
    /\ length results = length Config.PERSONALITIES
    /\ forall i p, nth_error Config.PERSONALITIES i = Some p ->
         exists r,
           nth_error results i = Some r
           /\ run_single_conversation json_loads (env_of_run i) s p None = Ok r
           /\ dict_get r "scenario_id" = Some (PStr scenario_id)
           /\ dict_get r "personality_id" = dict_get p "id".
Proof.
  intros json_loads env_of_run scenario_id personality_id s Es.
  unfold run_targeted_test.
  rewrite (CatalogFacts.first_with_id_lookup scenario_id
             CatalogFacts.catalog_scenarios_have_id).
  fold (Config.get_scenario scenario_id).
  rewrite TargetedFacts.absent_scenario, Es.
  destruct (TargetedFacts.scenario_found _ Es) as [Hs Hsid].
  cbn [found_or_empty].
  destruct (@TargetedFacts.run_each_returns json_loads env_of_run s Hs
              Config.PERSONALITIES 0 [] CatalogFacts.personalities_ok)
    as (added & Hrun & Hlen & Hnth).
  rewrite Hrun. cbn [app]. exists added.
  split; [reflexivity|]. split; [exact Hlen|].
  intros i p Hp. destruct (Hnth i p Hp) as (r & Hr & Hrun').
  exists r. split; [exact Hr|]. split; [exact Hrun'|].
  destruct (BatchExtraFacts.run_ok_ids _ _ _ _ _ Hrun') as [H1 H2].
  rewrite H1, H2, Hsid. split; reflexivity.
Qed.

Lemma targeted_test_all_personalities_witness :
  exists results,
    run_targeted_test Json.loads (fun _ => Examples.quiet_env) "refund_request"
      (Some "nobody") true = Returned results
    /\ length results = length Config.PERSONALITIES.
Proof.
  destruct (Config.get_scenario "refund_request") as [s|] eqn:E.
  - destruct (@targeted_test_all_personalities Json.loads
                (fun _ => Examples.quiet_env) "refund_request" (Some "nobody")
                s E) as (results & Hrun & Hlen & _).
    exists results. split; [exact Hrun|exact Hlen].
  - vm_compute in E. discriminate E.
Defined.

(** X23: in a single test, no personality id and the empty personality
    id both stand for the first personality of the catalog: the outcome
    is that of asking for this personality by its id. *)
Theorem targeted_test_default_personality :
  forall (json_loads : string -> res pyval) (env_of_run : nat -> Env)
         (scenario_id : string),
  let first_id := Vocabulary.id_of (hd [] Config.PERSONALITIES) in
  run_targeted_test json_loads env_of_run scenario_id None false
    = run_targeted_test json_loads env_of_run scenario_id (Some first_id) false
  /\ run_targeted_test json_loads env_of_run scenario_id (Some "") false
     = run_targeted_test json_loads env_of_run scenario_id (Some first_id)
         false.
Proof.
  intros json_loads env_of_run scenario_id first_id.
  assert (Hfirst : chosen_personality (Some first_id)
                   = Ok (Some (hd [] Config.PERSONALITIES))).
  { reflexivity. }
  assert (Hdefault : absent (Some (hd [] Config.PERSONALITIES)) = false).
  { reflexivity. }
  unfold run_targeted_test.
  rewrite Hfirst.
  change (chosen_personality None) with (Ok (Some (hd [] Config.PERSONALITIES))).
  change (chosen_personality (Some ""))
    with (Ok (Some (hd [] Config.PERSONALITIES))).
  rewrite !Hdefault. split; reflexivity.
Qed.

End TargetedExtras.

Module ServiceExtras.

Import EvaluationOrchestrator.
Import EvaluationReporter.

(** X24: the two lookups of the catalog find what they are asked for:
    the entry returned is an entry of the catalog with the id asked for,
    and, the ids of a catalog being distinct, every entry of a catalog is
    the one found under its own id. *)
Theorem catalog_lookup_round_trip :
  (forall id s, Config.get_scenario id = Some s ->
     In s Config.SCENARIOS /\ dict_get s "id" = Some (PStr id))
  /\ (forall s, In s Config.SCENARIOS ->
        Config.get_scenario (Vocabulary.id_of s) = Some s)
  /\ (forall id p, Config.get_personality id = Some p ->
        In p Config.PERSONALITIES /\ dict_get p "id" = Some (PStr id))
  /\ (forall p, In p Config.PERSONALITIES ->
        Config.get_personality (Vocabulary.id_of p) = Some p).
Proof.
  split; [|split; [|split]].
  - intros id s H. apply CatalogFacts.lookup_id_some. exact H.
  - intros s Hs. unfold Config.SCENARIOS in Hs. cbn [In] in Hs.
    repeat (destruct Hs as [<-|Hs]; [reflexivity|]). contradiction.
  - intros id p H. apply CatalogFacts.lookup_id_some. exact H.
  - intros p Hp. unfold Config.PERSONALITIES in Hp. cbn [In] in Hp.
    repeat (destruct Hp as [<-|Hp]; [reflexivity|]). contradiction.
Qed.

Lemma catalog_lookup_round_trip_witness :
  Config.get_scenario (Vocabulary.id_of Examples.order_delay)
    = Some Examples.order_delay
  /\ Config.get_personality (Vocabulary.id_of Examples.frustrated_impatient)
     = Some Examples.frustrated_impatient.
Proof.
  destruct catalog_lookup_round_trip as (_ & Hs & _ & Hp).
  split.
  - apply Hs. left. reflexivity.
  - apply Hp. right. left. reflexivity.
Defined.

(** X25: the single-simulation endpoint answers 404 exactly for an id
    that is in neither catalog, the scenario being looked up first, and
    otherwise returns the result of the controller for the two entries;
    it never answers 500. *)
Theorem simulate_single_answers :
  forall (json_loads : string -> res pyval) (env : Env)
         (scenario_id personality_id : string) (max_turns : option Z),
  match Service.simulate_single json_loads env scenario_id personality_id
          max_turns with
  | Service.Answered r =>
      exists s p,
        Config.get_scenario scenario_id = Some s
        /\ Config.get_personality personality_id = Some p
        /\ run_single_conversation json_loads env s p max_turns = Ok r
        /\ dict_get r "scenario_id" = Some (PStr scenario_id)
        /\ dict_get r "personality_id" = Some (PStr personality_id)
  | Service.HTTPException status_code detail =>
      status_code = 404%Z
      /\ ((Config.get_scenario scenario_id = None
           /\ detail = "Scenario " ++ scenario_id ++ " not found")
          \/ (Config.get_scenario scenario_id <> None
              /\ Config.get_personality personality_id = None
              /\ detail = "Personality " ++ personality_id ++ " not found"))
  end.
Proof.
  intros json_loads env scenario_id personality_id max_turns.
  unfold Service.simulate_single. cbn zeta.
  rewrite TargetedFacts.absent_scenario.
  destruct (Config.get_scenario scenario_id) as [s|] eqn:Es.
  2: { split; [reflexivity|]. left. split; reflexivity. }
  rewrite TargetedFacts.absent_personality.
  destruct (Config.get_personality personality_id) as [p|] eqn:Ep.
  2: { split; [reflexivity|]. right. split; [discriminate|].
       split; reflexivity. }
  destruct (TargetedFacts.scenario_found _ Es) as [Hs Hsid].
  destruct (TargetedFacts.personality_found _ Ep) as [Hp Hpid].
  cbn [TargetedTest.found_or_empty].
  destruct (@TargetedFacts.run_of_catalog_entries json_loads env s p max_turns
              _ _ Hs Hp Hsid Hpid) as (r & Hr & H1 & H2 & _).
  rewrite Hr. exists s, p. repeat split; assumption.
Qed.

End ServiceExtras.

(* ===================================================================== *)
(** * What the support agent sends to its model                          *)
(* ===================================================================== *)

Module RequestFacts.

Import EvaluationOrchestrator.

Lemma request_messages_app : forall h1 h2,
  Agents.request_messages (h1 ++ h2)
    = (Agents.request_messages h1 ++ Agents.request_messages h2)%list.
Proof.
  intros h1 h2. unfold Agents.request_messages. apply filter_app.
Qed.

Lemma last_content_snoc : forall h m,
  last_content (h ++ [m]) = content m.
Proof.
  intros h m. unfold last_content. rewrite last_last. reflexivity.
Qed.

Section Loop.

Variable env : Env.
Variable personality : dict.
Variable goal : pyval.
Variable initial_message : string.
Variable max_turns : Z.
Variable messages_create messages_create' : list Message -> res ApiReply.

Hypothesis same_answers : forall messages,
  Vocabulary.repeats_last messages ->
  messages_create messages = messages_create' messages.

Local Abbreviation env1 :=
  (Vocabulary.with_support env (Agents.respond messages_create)).
Local Abbreviation env2 :=
  (Vocabulary.with_support env (Agents.respond messages_create')).
Local Abbreviation loop1 :=
  (conversation_loop env1 personality goal initial_message max_turns).
Local Abbreviation loop2 :=
  (conversation_loop env2 personality goal initial_message max_turns).

(** Before a reply, the request of the agent ends with the last user
    message twice. *)
Lemma request_repeats_last : forall st,
  Vocabulary.before_reply initial_message st ->
  Vocabulary.repeats_last
    (Agents.request_messages (conversation_history st)
       ++ [{| role := "user";
              content := if (turns st =? 0)%Z then initial_message
                         else last_content (conversation_history st) |}]).
Proof.
  intros st (Hturns & Hkept & (earlier & text & Hlast) & Hfirst).
  rewrite Hkept. exists earlier, text.
  assert (Hcontent : (if (turns st =? 0)%Z then initial_message
                      else last_content (conversation_history st)) = text).
  { destruct (turns st =? 0)%Z eqn:E.
    - rewrite <- Hfirst by lia. rewrite Hlast. apply last_content_snoc.
    - rewrite Hlast. apply last_content_snoc. }
  rewrite Hcontent, Hlast, <- app_assoc. reflexivity.
Qed.

Lemma same_support_response : forall st,
  Vocabulary.before_reply initial_message st ->
  support_response env1 personality initial_message st
    = support_response env2 personality initial_message st.
Proof.
  intros st Hst. unfold support_response. cbn [Vocabulary.with_support respond].
  unfold Agents.respond.
  rewrite (same_answers (request_repeats_last Hst)). reflexivity.
Qed.

Lemma same_agent_turn : forall st,
  Vocabulary.before_reply initial_message st ->
  agent_turn env1 personality initial_message st
    = agent_turn env2 personality initial_message st.
Proof.
  intros st Hst. unfold agent_turn. rewrite (same_support_response Hst).
  reflexivity.
Qed.

Lemma same_user_turn : forall st,
  Vocabulary.before_reply initial_message st ->
  user_turn env1 personality goal initial_message st
    = user_turn env2 personality goal initial_message st.
Proof.
  intros st Hst. unfold user_turn. cbn zeta.
  rewrite (same_agent_turn Hst), (same_support_response Hst). reflexivity.
Qed.

Lemma user_turn_before_reply : forall e st,
  Vocabulary.before_reply initial_message st ->
  Vocabulary.before_reply initial_message
    (user_turn e personality goal initial_message st).
Proof.
  intros e st (Hturns & Hkept & _ & _). unfold Vocabulary.before_reply.
  cbn [user_turn agent_turn turns conversation_history].
  split; [lia|]. split.
  - rewrite !request_messages_app, Hkept. reflexivity.
  - split; [eexists; eexists; reflexivity|]. intros H. lia.
Qed.

Lemma loop_continue : forall e st,
  loop_test max_turns st = true ->
  (turns st >=? max_turns - 1)%Z = false ->
  conversation_loop e personality goal initial_message max_turns st
    = conversation_loop e personality goal initial_message max_turns
        (user_turn e personality goal initial_message st).
Proof.
  intros e st Ht Hl.
  funelim (conversation_loop e personality goal initial_message max_turns st);
    congruence.
Qed.

Lemma same_loop : forall n st,
  Z.to_nat (max_turns - turns st) <= n ->
  Vocabulary.before_reply initial_message st ->
  loop1 st = loop2 st.
Proof.
  induction n as [|n IH]; intros st Hn Hst.
  - rewrite !ControllerFacts.loop_exit; [reflexivity| |];
      unfold loop_test; destruct (turns st <? max_turns)%Z eqn:E;
      try reflexivity; lia.
  - destruct (loop_test max_turns st) eqn:Htest.
    2: { rewrite !ControllerFacts.loop_exit by exact Htest. reflexivity. }
    destruct (turns st >=? max_turns - 1)%Z eqn:Hlast.
    + rewrite !ControllerExtras.loop_break by assumption.
      apply same_agent_turn. exact Hst.
    + rewrite (@loop_continue env1 st Htest Hlast),
              (@loop_continue env2 st Htest Hlast).
      rewrite <- (same_user_turn Hst).
      apply IH.
      * unfold loop_test in Htest. cbn [user_turn turns].
        destruct (turns st <? max_turns)%Z eqn:E; [|discriminate]. lia.
      * apply user_turn_before_reply. exact Hst.
Qed.

Lemma same_conversation :
  conversation env1 personality goal initial_message max_turns
    = conversation env2 personality goal initial_message max_turns.
Proof.
  unfold conversation. eapply same_loop; [reflexivity|].
  unfold Vocabulary.before_reply. cbn [turns conversation_history].
  split; [lia|]. split; [reflexivity|].
  split; [exists [], initial_message; reflexivity|].
  intros _. reflexivity.
Qed.

End Loop.

(** Before a reply, the request of the agent is the history followed by
    its last message again. *)
Lemma request_before_reply : forall initial_message st,
  Vocabulary.before_reply initial_message st ->
  (Agents.request_messages (conversation_history st)
     ++ [{| role := "user";
            content := if (turns st =? 0)%Z then initial_message
                       else last_content (conversation_history st) |}])%list
  = (conversation_history st
       ++ [user_message (last_content (conversation_history st))])%list.
Proof.
  intros initial_message st (Hturns & Hkept & _ & Hfirst).
  rewrite Hkept. unfold user_message.
  destruct (turns st =? 0)%Z eqn:E; [|reflexivity].
  rewrite Hfirst by lia. reflexivity.
Qed.

(** A list that ends with [x], cut at one of its elements. *)
Lemma cut_snoc : forall (A : Type) (earlier later h : list A) (m x : A),
  (earlier ++ m :: later = h ++ [x])%list ->
  (later = [] /\ earlier = h /\ m = x)
  \/ (exists later', later = (later' ++ [x])%list
                     /\ h = (earlier ++ m :: later')%list).
Proof.
  intros A earlier later h m x H.
  destruct (@exists_last _ (m :: later)) as (l' & y & Hl); [discriminate|].
  destruct later as [|z later].
  - left. apply app_inj_tail in H. destruct H as [H1 H2]. auto.
  - right.
    destruct (@exists_last _ (z :: later)) as (later' & y' & Hlater);
      [discriminate|].
    exists later'. rewrite Hlater in H |- *.
    change (earlier ++ m :: later' ++ [y'])%list
      with (earlier ++ (m :: later') ++ [y'])%list in H.
    rewrite app_assoc in H. apply app_inj_tail in H. destruct H as [H1 H2].
    subst y'. split; [reflexivity|]. symmetry. exact H1.
Qed.

End RequestFacts.

Module RequestExtras.

Import EvaluationOrchestrator.

(** X26: in a run with the support agent of
    [agents/customer_support_agent.py], every request the agent sends to
    its model ends with the same user message twice, the controller
    passing the latest message both inside the history and on its own:
    the result of the run depends on the answers of the model to such
    requests only. *)
Theorem support_requests_repeat_last_message :
  forall (json_loads : string -> res pyval) (env : Env)
         (scenario personality : dict) (max_turns : option Z)
         (messages_create messages_create' : list Message -> res ApiReply),
  (forall messages, Vocabulary.repeats_last messages ->
     messages_create messages = messages_create' messages) ->
  run_single_conversation json_loads
    (Vocabulary.with_support env (Agents.respond messages_create))
    scenario personality max_turns
  = run_single_conversation json_loads
      (Vocabulary.with_support env (Agents.respond messages_create'))
      scenario personality max_turns.
Proof.
  intros json_loads env scenario personality max_turns messages_create
         messages_create' Hsame.
  unfold run_single_conversation.
  destruct (dict_getitem scenario "goal") as [goal|e]; [|reflexivity].
  cbn [bind].
  cbn [Vocabulary.with_support generate_initial_message judge_create time_time].
  rewrite (@RequestFacts.same_conversation env personality goal
             (generate_initial_message env personality scenario)
             (or_default max_turns self_max_turns)
             messages_create messages_create' Hsame).
  reflexivity.
Qed.

Lemma support_requests_repeat_last_message_witness :
  run_single_conversation Json.loads
    (Vocabulary.with_support Examples.quiet_env
       (Agents.respond Vocabulary.support_api_up))
    Examples.order_delay Examples.frustrated_impatient (Some 3%Z)
  = run_single_conversation Json.loads
      (Vocabulary.with_support Examples.quiet_env
         (Agents.respond Vocabulary.support_api_picky))
      Examples.order_delay Examples.frustrated_impatient (Some 3%Z).
Proof.
  apply (@support_requests_repeat_last_message Json.loads Examples.quiet_env
           Examples.order_delay Examples.frustrated_impatient (Some 3%Z)
           Vocabulary.support_api_up Vocabulary.support_api_picky).
  intros messages (earlier & text & ->).
  unfold Vocabulary.support_api_up, Vocabulary.support_api_picky.
  rewrite rev_app_distr. cbn [rev app].
  unfold Vocabulary.same_message. rewrite !String.eqb_refl. reflexivity.
Defined.

(** X10: with the support agent of [agents/customer_support_agent.py],
    when every call of its remote model fails the conversation is still
    carried through, and every agent message of the transcript is the
    apology text followed by the error of the call made for that reply:
    the call whose request is the transcript before the reply, followed
    by its last message again. *)
Theorem failing_agent_apologises :
  forall (json_loads : string -> res pyval) (env : Env)
         (scenario personality : dict) (max_turns : option Z)
         (messages_create : list Message -> res ApiReply),
  respond env = Agents.respond messages_create ->
  (forall m, exists e, messages_create m = Err e) ->
  Spec.has_keys scenario personality = true ->
  exists r,
    run_single_conversation json_loads env scenario personality max_turns
      = Ok r
    /\ forall earlier m later,
         Spec.transcript_of r = (earlier ++ m :: later)%list ->
         role m = "assistant" ->
         exists e,
           messages_create
             (earlier ++ [user_message (last_content earlier)])%list = Err e
           /\ content m = Vocabulary.apology e.
Proof.
  intros json_loads env scenario personality max_turns messages_create Hdriver
         Hdown Hkeys.
  destruct (@ControllerFacts.run_single_conversation_returns json_loads env
              scenario personality max_turns Hkeys)
    as (goal & r & Hgoal & Hrun & Hh & _).
  exists r. split; [exact Hrun|]. rewrite Hh. unfold conversation.
  set (init := generate_initial_message env personality scenario).
  set (pinned := fun h : list Message =>
         forall earlier m later,
           h = (earlier ++ m :: later)%list ->
           role m = "assistant" ->
           exists e,
             messages_create
               (earlier ++ [user_message (last_content earlier)])%list = Err e
             /\ content m = Vocabulary.apology e).
  assert (Hsnoc : forall h x,
            pinned h ->
            (role x = "assistant" ->
             exists e,
               messages_create (h ++ [user_message (last_content h)])%list
                 = Err e
               /\ content x = Vocabulary.apology e) ->
            pinned (h ++ [x])%list).
  { intros h x Hh' Hx earlier m later Hcut Hrole.
    symmetry in Hcut. apply RequestFacts.cut_snoc in Hcut.
    destruct Hcut as [(_ & -> & ->)|(later' & _ & ->)].
    - apply Hx. exact Hrole.
    - apply (Hh' earlier m later' eq_refl Hrole). }
  assert (Hreply : forall st,
            Vocabulary.before_reply init st ->
            pinned (conversation_history st) ->
            pinned (conversation_history (agent_turn env personality init st))).
  { intros st Hst Hp. cbn [agent_turn conversation_history].
    apply Hsnoc; [exact Hp|]. intros _.
    unfold support_response. rewrite Hdriver. unfold Agents.respond.
    rewrite (RequestFacts.request_before_reply Hst).
    destruct (Hdown (conversation_history st
                       ++ [user_message
                             (last_content (conversation_history st))])%list)
      as (e & He).
    rewrite He. exists e. split; reflexivity. }
  apply (@ControllerExtras.loop_invariant env personality goal init
           (or_default max_turns self_max_turns)
           (fun st => Vocabulary.before_reply init st
                      /\ pinned (conversation_history st))
           (fun st => pinned (conversation_history st))).
  - intros st [_ Hp]. exact Hp.
  - intros st [Hst Hp]. apply Hreply; assumption.
  - intros st [Hst Hp]. split.
    + apply RequestFacts.user_turn_before_reply. exact Hst.
    + cbn [user_turn conversation_history]. apply Hsnoc.
      * apply (Hreply st Hst Hp).
      * intros Hrole. discriminate Hrole.
  - split.
    + unfold Vocabulary.before_reply. cbn [turns conversation_history].
      split; [lia|]. split; [reflexivity|].
      split; [exists [], init; reflexivity|]. intros _. reflexivity.
    + intros earlier m later Hcut Hrole.
      destruct earlier as [|m0 earlier].
      * injection Hcut as <- _. discriminate Hrole.
      * destruct earlier; discriminate Hcut.
Qed.

Lemma failing_agent_apologises_witness :
  exists r,
    run_single_conversation Json.loads Vocabulary.offline_env
      Examples.order_delay Examples.frustrated_impatient (Some 3%Z) = Ok r
    /\ forall earlier m later,
         Spec.transcript_of r = (earlier ++ m :: later)%list ->
         role m = "assistant" ->
         exists e,
           Vocabulary.support_api_down
             (earlier ++ [user_message (last_content earlier)])%list = Err e
           /\ content m = Vocabulary.apology e.
Proof.
  apply (@failing_agent_apologises Json.loads Vocabulary.offline_env
           Examples.order_delay Examples.frustrated_impatient (Some 3%Z)
           Vocabulary.support_api_down).
  - reflexivity.
  - intros m. eexists. reflexivity.
  - reflexivity.
Defined.

End RequestExtras.

(* ===================================================================== *)
(** * The scores by category                                             *)
(* ===================================================================== *)

Module ScoreFacts.

Import EvaluationReporter.

(** One pass of the inner loop, lines 66-68. *)
Local Abbreviation step r :=
  (fun category_scores category =>
     bind (category_score (evaluation_of r) category) (fun found =>
     match found with
     | Some score => Ok (append_score category_scores category score)
     | None => Ok category_scores
     end)).

Local Abbreviation inner r :=
  (fun acc' category => bind acc' (fun cs => step r cs category)).

Local Abbreviation outer :=
  (fun acc result => fold_left (inner result) failure_categories acc).

Lemma outer_err : forall rs e, fold_left outer rs (Err e) = Err e.
Proof.
  induction rs as [|r rs IH]; intros e; cbn [fold_left]; [reflexivity|].
  rewrite (ReporterFacts.fold_left_err (step r)). apply IH.
Qed.

(** The score collected for a category is there because the evaluation
    has the category. *)
Lemma category_score_some : forall evaluation category score,
  category_score evaluation category = Ok (Some score) ->
  py_in category evaluation = Ok true.
Proof.
  intros evaluation category score H. unfold category_score in H.
  destruct (py_in category evaluation) as [[|]|e]; cbn [bind] in H;
    [reflexivity|discriminate|discriminate].
Qed.

Lemma category_score_present : forall evaluation category found,
  py_in category evaluation = Ok true ->
  category_score evaluation category = Ok found ->
  exists score, found = Some score.
Proof.
  intros evaluation category found Hin H. unfold category_score in H.
  rewrite Hin in H. cbn [bind] in H.
  apply ReporterFacts.bind_ok in H. destruct H as (entry & _ & H).
  apply ReporterFacts.bind_ok in H. destruct H as (score & _ & H).
  injection H as <-. eauto.
Qed.

(** An invariant that every append keeps is kept by the two loops. *)
Lemma collect_inv : forall (I : list (string * list pyval) -> Prop)
                           (P : dict -> Prop),
  (forall r c cs score,
      P r -> I cs -> In c failure_categories ->
      category_score (evaluation_of r) c = Ok (Some score) ->
      I (append_score cs c score)) ->
  forall rs cs0 cs,
    Forall P rs -> I cs0 ->
    fold_left outer rs (Ok cs0) = Ok cs -> I cs.
Proof.
  intros I P Hstep. induction rs as [|r rs IH]; intros cs0 cs Hrs H0 H;
    cbn [fold_left] in H.
  - injection H as <-. exact H0.
  - apply Forall_cons_iff in Hrs. destruct Hrs as [Hr Hrs].
    destruct (fold_left (inner r) failure_categories (Ok cs0)) as [cs1|e] eqn:E.
    + apply (IH cs1 cs Hrs); [|exact H].
      apply (@ReporterFacts.fold_left_ok_inv _ _ (step r) I
               failure_categories cs0 cs1); [|exact H0|exact E].
      intros a c a' Hc Ha Hs.
      apply ReporterFacts.bind_ok in Hs. destruct Hs as (found & Hf & Hs).
      destruct found as [score|]; injection Hs as <-; [|exact Ha].
      apply (Hstep r c a score); assumption.
    + rewrite outer_err in H. discriminate.
Qed.

(** ** The keys *)

Lemma append_score_keys : forall cs c score c',
  In c' (map fst (append_score cs c score))
  <-> c' = c \/ In c' (map fst cs).
Proof.
  induction cs as [|[k scores] cs IH]; intros c score c'; simpl.
  - split; intros [H|H]; auto; contradiction.
  - destruct (String.eqb k c) eqn:E; simpl.
    + apply String.eqb_eq in E. subst k.
      split; [intros [H|H]; auto|intros [H|[H|H]]; auto].
    + rewrite IH. tauto.
Qed.

Lemma append_score_nodup : forall cs c score,
  NoDup (map fst cs) -> NoDup (map fst (append_score cs c score)).
Proof.
  induction cs as [|[k scores] cs IH]; intros c score H; simpl.
  - repeat constructor. intros [].
  - inversion H as [|? ? Hk Hrest]; subst.
    destruct (String.eqb k c) eqn:E; simpl.
    + constructor; assumption.
    + constructor; [|apply IH; exact Hrest].
      intros Hin. apply append_score_keys in Hin. destruct Hin as [->|Hin].
      * rewrite String.eqb_refl in E. discriminate.
      * contradiction.
Qed.

Lemma append_score_scored : forall cs c score,
  Vocabulary.scored cs -> Vocabulary.on_scale score ->
  Vocabulary.scored (append_score cs c score).
Proof.
  unfold Vocabulary.scored.
  induction cs as [|[k scores] cs IH]; intros c score H Hs; simpl.
  - repeat constructor; [discriminate|exact Hs].
  - inversion H as [|? ? [Hne Hhd] Htl]; subst. simpl in Hne, Hhd.
    destruct (String.eqb k c).
    + constructor; [|exact Htl]. simpl. split.
      * destruct scores; discriminate.
      * apply Forall_app. split; [exact Hhd|]. repeat constructor. exact Hs.
    + constructor; [split; assumption|]. apply IH; assumption.
Qed.

Lemma score_on_scale : forall r c score,
  Vocabulary.scores_in_range r = true -> In c failure_categories ->
  category_score (evaluation_of r) c = Ok (Some score) ->
  Vocabulary.on_scale score.
Proof.
  intros r c score Hr Hc H. unfold Vocabulary.scores_in_range in Hr.
  destruct (evaluation_of r) as [| | | | | |evaluation]; try discriminate.
  rewrite forallb_forall in Hr. specialize (Hr c Hc).
  unfold Vocabulary.score_in_range in Hr.
  unfold category_score in H. cbn [py_in bind] in H.
  unfold dict_has in H. cbn [py_getitem] in H. unfold dict_getitem in H.
  destruct (dict_get evaluation c) as [entry|]; cbn [bind] in H;
    [|discriminate].
  destruct entry as [| | | | | |entry]; try discriminate.
  cbn [py_get bind] in H. injection H as <-.
  destruct (dict_get_default entry "score" (PInt 0)) as [| |n| | | |];
    try discriminate.
  exists n. split; [reflexivity|]. lia.
Qed.

(** The keys only grow. *)
Lemma collect_keeps_keys : forall rs cs0 cs,
  fold_left outer rs (Ok cs0) = Ok cs ->
  incl (map fst cs0) (map fst cs).
Proof.
  intros rs cs0 cs H.
  apply (@collect_inv (fun cs' => incl (map fst cs0) (map fst cs'))
           (fun _ => True)
           ltac:(intros r c cs' score _ Hi _ _ k Hk;
                 apply append_score_keys; right; apply Hi; exact Hk)
           rs cs0 cs); [|apply incl_refl|exact H].
  apply Forall_forall. intros; exact I.
Qed.

Lemma inner_keeps_keys : forall r cats cs0 cs,
  fold_left (inner r) cats (Ok cs0) = Ok cs ->
  incl (map fst cs0) (map fst cs).
Proof.
  intros r cats cs0 cs H.
  apply (@ReporterFacts.fold_left_ok_inv _ _ (step r)
           (fun cs' => incl (map fst cs0) (map fst cs')) cats cs0 cs);
    [|apply incl_refl|exact H].
  intros a c a' _ Ha Hs.
  apply ReporterFacts.bind_ok in Hs. destruct Hs as (found & Hf & Hs).
  destruct found as [score|]; injection Hs as <-; [|exact Ha].
  intros k Hk. apply append_score_keys. right. apply Ha. exact Hk.
Qed.

(** A category the evaluation of a result has is a key after the
    result. *)
Lemma inner_adds_keys : forall r cats cs0 cs c,
  fold_left (inner r) cats (Ok cs0) = Ok cs ->
  In c cats -> py_in c (evaluation_of r) = Ok true ->
  In c (map fst cs).
Proof.
  intros r. induction cats as [|c0 cats IH]; intros cs0 cs c H Hc Hin;
    [contradiction|].
  cbn [fold_left bind] in H.
  destruct (step r cs0 c0) as [cs1|e] eqn:E.
  2: { rewrite (ReporterFacts.fold_left_err (step r)) in H. discriminate. }
  destruct Hc as [->|Hc].
  - apply (inner_keeps_keys _ _ _ H).
    apply ReporterFacts.bind_ok in E. destruct E as (found & Hf & E).
    destruct (category_score_present _ _ Hin Hf) as (score & ->).
    injection E as <-. apply append_score_keys. left. reflexivity.
  - apply (IH cs1 cs c H Hc Hin).
Qed.

Lemma collect_adds_keys : forall rs cs0 cs r c,
  fold_left outer rs (Ok cs0) = Ok cs ->
  In r rs -> In c failure_categories ->
  py_in c (evaluation_of r) = Ok true ->
  In c (map fst cs).
Proof.
  induction rs as [|r0 rs IH]; intros cs0 cs r c H Hr Hc Hin; [contradiction|].
  cbn [fold_left] in H.
  destruct (fold_left (inner r0) failure_categories (Ok cs0)) as [cs1|e] eqn:E.
  2: { rewrite outer_err in H. discriminate. }
  destruct Hr as [->|Hr].
  - apply (collect_keeps_keys _ _ H).
    apply (inner_adds_keys _ _ _ _ E Hc Hin).
  - apply (IH cs1 cs r c H Hr Hc Hin).
Qed.

(** What the first loop leaves. *)
Lemma collect_category_scores_collected : forall valid_results category_scores,
  collect_category_scores valid_results = Ok category_scores ->
  Vocabulary.collected valid_results category_scores.
Proof.
  intros valid_results category_scores H. unfold collect_category_scores in H.
  apply (@collect_inv (Vocabulary.collected valid_results)
           (fun r => In r valid_results)) with (rs := valid_results) (cs0 := []);
    [| |split; [constructor|split; [intros ? []|constructor]]|exact H].
  - intros r c cs score Hr (Hnd & Hincl & Hheld) Hc Hs.
    split; [apply append_score_nodup; exact Hnd|]. split.
    + intros k Hk. apply append_score_keys in Hk.
      destruct Hk as [->|Hk]; [exact Hc|apply Hincl; exact Hk].
    + apply Forall_forall. intros k Hk. apply append_score_keys in Hk.
      destruct Hk as [->|Hk].
      * exists r. split; [exact Hr|]. apply (category_score_some _ _ Hs).
      * rewrite Forall_forall in Hheld. apply Hheld. exact Hk.
  - apply Forall_forall. auto.
Qed.

Lemma collect_category_scores_scored : forall valid_results category_scores,
  Forall (fun r => Vocabulary.scores_in_range r = true) valid_results ->
  collect_category_scores valid_results = Ok category_scores ->
  Vocabulary.scored category_scores.
Proof.
  intros valid_results category_scores Hall H.
  unfold collect_category_scores in H.
  apply (@collect_inv Vocabulary.scored
           (fun r => Vocabulary.scores_in_range r = true))
    with (rs := valid_results) (cs0 := []);
    [|exact Hall|constructor|exact H].
  intros r c cs score Hr Hcs Hc Hs.
  apply append_score_scored; [exact Hcs|].
  apply (@score_on_scale r c score Hr Hc Hs).
Qed.

(** ** The means *)

Lemma average_scores_keys : forall category_scores avgs,
  average_scores category_scores = Ok avgs ->
  map fst avgs = map fst category_scores.
Proof.
  induction category_scores as [|[c scores] rest IH]; intros avgs H;
    simpl in H.
  - injection H as <-. reflexivity.
  - apply ReporterFacts.bind_ok in H. destruct H as (avg & _ & H).
    apply ReporterFacts.bind_ok in H. destruct H as (others & Ho & H).
    injection H as <-. simpl. rewrite (IH _ Ho). reflexivity.
Qed.

Lemma sum_on_scale : forall scores n,
  Forall Vocabulary.on_scale scores ->
  exists total,
    fold_left (fun acc x => bind acc (fun a => py_add a x)) scores (Ok (PInt n))
      = Ok (PInt total)
    /\ (n <= total <= n + 5 * len scores)%Z.
Proof.
  induction scores as [|v scores IH]; intros n H.
  - exists n. split; [reflexivity|]. unfold len. simpl. lia.
  - inversion H as [|? ? (k & -> & Hk) Hrest]; subst.
    destruct (IH (n + k)%Z Hrest) as (total & Hsum & Hb).
    exists total. split; [exact Hsum|].
    unfold len in *. cbn [length]. lia.
Qed.

Lemma mean_on_scale : forall (scores : list pyval) total,
  scores <> [] ->
  (0 <= total <= 5 * len scores)%Z ->
  exists q,
    py_truediv (PInt total) (PInt (len scores)) = Ok q
    /\ (0 <= q)%Q /\ (q <= 5)%Q.
Proof.
  intros scores total Hne Hb.
  assert (Hlen : (0 < len scores)%Z).
  { unfold len. destruct scores; [congruence|]. simpl. lia. }
  rewrite (@ReporterFacts.py_truediv_fits total (len scores) 5 Hlen);
    [|rewrite Z.abs_eq; lia|reflexivity].
  eexists. split; [reflexivity|].
  assert (Hden : (0 < inject_Z (len scores))%Q).
  { change 0%Q with (inject_Z 0). rewrite <- Zlt_Qlt. exact Hlen. }
  split.
  - apply Qle_shift_div_l; [exact Hden|].
    rewrite Qmult_0_l. change 0%Q with (inject_Z 0).
    rewrite <- Zle_Qle. lia.
  - apply Qle_shift_div_r; [exact Hden|].
    change 5%Q with (inject_Z 5). rewrite <- inject_Z_mult, <- Zle_Qle. lia.
Qed.

Lemma average_scores_on_scale : forall category_scores avgs,
  Vocabulary.scored category_scores ->
  average_scores category_scores = Ok avgs ->
  Forall (fun e => (0 <= snd e)%Q /\ (snd e <= 5)%Q) avgs.
Proof.
  unfold Vocabulary.scored.
  induction category_scores as [|[c scores] rest IH]; intros avgs Hs H;
    simpl in H.
  - injection H as <-. constructor.
  - inversion Hs as [|? ? [Hne Hhd] Htl]; subst. simpl in Hne, Hhd.
    apply ReporterFacts.bind_ok in H. destruct H as (avg & Havg & H).
    apply ReporterFacts.bind_ok in H. destruct H as (others & Ho & H).
    injection H as <-. constructor; [|apply (IH _ Htl Ho)].
    simpl. destruct scores as [|v scores]; [congruence|].
    destruct (@sum_on_scale (v :: scores) 0 Hhd) as (total & Hsum & Hb).
    unfold py_sum in Havg. rewrite Hsum in Havg. cbn [bind] in Havg.
    destruct (@mean_on_scale (v :: scores) total Hne) as (q & Hq & Hq0 & Hq5);
      [lia|].
    rewrite Hq in Havg. injection Havg as <-. split; assumption.
Qed.

End ScoreFacts.

Module ScoreExtras.

Import EvaluationReporter.

(** X27: when every score of the valid results is an integer from 0 to
    5, every mean by category of the report lies between 0 and 5, and so
    does every mean listed among the worst categories. *)
Theorem category_means_on_scale : forall results s fa sb pb,
  aggregate_results results = Ok (Report s fa sb pb) ->
  Forall (fun r => Vocabulary.scores_in_range r = true)
         (valid_results_of results) ->
  Forall (fun e => (0 <= snd e)%Q /\ (snd e <= 5)%Q) (avg_scores_by_category fa)
  /\ Forall (fun e => (0 <= snd e)%Q /\ (snd e <= 5)%Q)
            (worst_performing_categories fa).
Proof.
  intros results s fa sb pb H Hall.
  destruct (@ReporterExtraFacts.aggregate_results_analysis _ _ _ _ _ H)
    as (Hworst & (cs & Hcs & Havg) & _).
  assert (Hmeans : Forall (fun e => (0 <= snd e)%Q /\ (snd e <= 5)%Q)
                          (avg_scores_by_category fa)).
  { apply (@ScoreFacts.average_scores_on_scale cs _
             (@ScoreFacts.collect_category_scores_scored _ _ Hall Hcs) Havg). }
  split; [exact Hmeans|].
  rewrite Hworst. apply Forall_forall. intros e He.
  destruct (SortFacts.top_of_sorted snd 5 (avg_scores_by_category fa))
    as (_ & Hincl & _).
  rewrite Forall_forall in Hmeans. apply Hmeans. apply Hincl. exact He.
Qed.

Lemma category_means_on_scale_witness :
  exists s fa sb pb,
    aggregate_results Vocabulary.scored_results = Ok (Report s fa sb pb)
    /\ Forall (fun e => (0 <= snd e)%Q /\ (snd e <= 5)%Q)
              (avg_scores_by_category fa)
    /\ avg_scores_by_category fa <> [].
Proof.
  destruct (aggregate_results Vocabulary.scored_results)
    as [[msg|s fa sb pb]|e] eqn:E; try (vm_compute in E; discriminate E).
  exists s, fa, sb, pb. split; [reflexivity|].
  split.
  - apply (@category_means_on_scale _ _ _ _ _ E).
    apply Forall_forall. apply forallb_forall. vm_compute. reflexivity.
  - assert (Hs : Ok (Report s fa sb pb)
                 = aggregate_results Vocabulary.scored_results)
      by (symmetry; exact E).
    vm_compute in Hs. injection Hs as -> -> -> ->. discriminate.
Defined.

(** X28: the categories of [avg_scores_by_category] are exactly the
    failure categories that the evaluation of some valid result has,
    each listed once; so there are at most twelve, and keys of an
    evaluation outside the twelve categories are never reported. *)
Theorem reported_categories : forall results s fa sb pb,
  aggregate_results results = Ok (Report s fa sb pb) ->
  let keys := map fst (avg_scores_by_category fa) in
  NoDup keys
  /\ length keys <= 12
  /\ forall c,
       In c keys
       <-> In c failure_categories
           /\ exists r, In r (valid_results_of results)
                        /\ py_in c (evaluation_of r) = Ok true.
Proof.
  intros results s fa sb pb H keys.
  destruct (@ReporterExtraFacts.aggregate_results_analysis _ _ _ _ _ H)
    as (_ & (cs & Hcs & Havg) & _).
  assert (Hkeys : keys = map fst cs).
  { apply ScoreFacts.average_scores_keys. exact Havg. }
  destruct (@ScoreFacts.collect_category_scores_collected _ _ Hcs)
    as (Hnd & Hincl & Hheld).
  rewrite Hkeys. split; [exact Hnd|]. split.
  - change 12 with (length failure_categories).
    apply NoDup_incl_length; assumption.
  - intros c. split.
    + intros Hc. split; [apply Hincl; exact Hc|].
      rewrite Forall_forall in Hheld. apply Hheld. exact Hc.
    + intros (Hc & r & Hr & Hin).
      unfold collect_category_scores in Hcs.
      apply (@ScoreFacts.collect_adds_keys _ _ _ _ _ Hcs Hr Hc Hin).
Qed.

Lemma reported_categories_witness :
  exists s fa sb pb,
    aggregate_results Vocabulary.scored_results = Ok (Report s fa sb pb)
    /\ NoDup (map fst (avg_scores_by_category fa))
    /\ length (map fst (avg_scores_by_category fa)) <= 12.
Proof.
  destruct (aggregate_results Vocabulary.scored_results)
    as [[msg|s fa sb pb]|e] eqn:E; try (vm_compute in E; discriminate E).
  exists s, fa, sb, pb. split; [reflexivity|].
  destruct (@reported_categories _ _ _ _ _ E) as (Hnd & Hlen & _).
  split; [exact Hnd|exact Hlen].
Defined.

End ScoreExtras.
